(** * Friends-bot: learning progress and conversation memory

    A shallow embedding of the progress tracker (src/progress_tracker.py),
    the JSON data manager (src/data_manager.py), the roster and the user
    manager (src/bot_config.py, src/user_manager.py), the answer of the
    language model client (src/gemini_client.py) and the message handler
    (src/main.py), with the properties of the progress state machine, of the
    bounded conversation ledgers, of registration and of message handling.

    Conventions of the embedding.
    - A Python [int] is a [Z]; a [list] is a [list].  A [str] is the
      [string] of the bytes of its UTF-8 encoding: substring and prefix tests
      on the bytes agree with those on the characters.
    - A [dict] with a fixed set of keys (a progress record) is a [Record];
      a [dict] used as a map (the JSON files, a conversation, the skill
      levels) is a [gmap].  The key [str(user_id)] of the JSON files is
      represented by the integer itself ([str] is injective on [int]).
    - The four JSON files are the fields of [World]; every operation of the
      data manager loads a file, changes the loaded dictionary and writes it
      back, which is a read-modify-write of the corresponding field.
    - [datetime.now()] consumes one reading of the wall clock.  The clock is
      a sequence of readings and the world counts how many were consumed.
    - What the code takes from the Python library without defining it --
      [datetime], [str.lower], the arithmetic of [float], the order of the
      items of a loaded [dict] -- is a parameter of the development, the
      class [PyLibrary], known by the laws stated there. *)

From Stdlib Require Import Ascii String QArith.
From Stdlib Require DecimalString DecimalZ.
From stdpp Require Import base decidable option numbers list sorting strings pretty gmap fin_maps.

Open Scope Z_scope.

(** ** Python built-ins used by the code *)

Module Py.

(** [s.isascii()]: every byte is below 128. *)
Fixpoint isascii (s : string) : bool :=
  match s with
  | EmptyString => true
  | String c s' => (Ascii.N_of_ascii c <? 128)%N && isascii s'
  end.

(** The lower case of an ASCII character: the letters A to Z become a to
    z. *)
Definition lower_ascii (c : ascii) : ascii :=
  let n := Ascii.N_of_ascii c in
  if ((65 <=? n) && (n <=? 90))%N then Ascii.ascii_of_N (n + 32) else c.

(** What [s.lower()] is when [s.isascii()].  On other strings [str.lower]
    follows the Unicode tables; see [lower] of [PyLibrary]. *)
Fixpoint ascii_lower (s : string) : string :=
  match s with
  | EmptyString => EmptyString
  | String c s' => String (lower_ascii c) (ascii_lower s')
  end.

Fixpoint startswith (s pat : string) : bool :=
  match pat, s with
  | EmptyString, _ => true
  | String _ _, EmptyString => false
  | String p pat', String c s' =>
      if decide (p = c) then startswith s' pat' else false
  end.

(** [pat in s] for strings: [pat] occurs in [s] as a substring. *)
Fixpoint str_in (pat s : string) : bool :=
  startswith s pat ||
  match s with
  | EmptyString => false
  | String _ s' => str_in pat s'
  end.

(** [x in l] for lists. *)
Definition list_in {A} `{EqDecision A} (x : A) (l : list A) : bool :=
  bool_decide (x ∈ l).

(** [l.remove(x)] when [x in l]: the first occurrence is removed. *)
Fixpoint remove {A} `{EqDecision A} (x : A) (l : list A) : list A :=
  match l with
  | [] => []
  | y :: l' => if decide (x = y) then l' else y :: remove x l'
  end.

(** [l[-n:]] for a positive literal [n]: the last [n] items, all of them
    when the list is shorter. *)
Definition last_n {A} (n : nat) (l : list A) : list A :=
  drop (length l - n) l.

(** [any(f(t) for t in terms)] *)
Definition any {A} (f : A → bool) (l : list A) : bool := existsb f l.

(** [l[:limit]]: the first [limit] items; for a negative [limit], all but
    the last [-limit] items. *)
Definition slice_to {A} (limit : Z) (l : list A) : list A :=
  if 0 <=? limit then take (Z.to_nat limit) l
  else take (length l - Z.to_nat (- limit)) l.

End Py.

(** ** The Python library

    The code uses [datetime] through [.date()], [.timestamp()],
    [.isoformat()] and [datetime.fromisoformat].  A calendar date is given by
    its ordinal (as [date.toordinal()]), so that [(d1 - d2).days] is the
    difference of the ordinals.  [fromisoformat] returns [None] where Python
    raises.  The laws are the library's: [fromisoformat] reads back what
    [isoformat] writes, [isoformat] never writes the empty string, and the
    current time has a timestamp.

    A [float] is given by its value, a rational number, so that the
    comparison of two floats is the comparison of their values.
    [timestamp t] is the float [t.timestamp()], and [timestamp_raises] tells
    the datetimes on which [.timestamp()] raises, those outside the range of
    the platform.  The one operation the code does on floats is
    [float - int], which converts the integer to a float and rounds the
    difference: [float_sub_int x k] is its result, [None] where Python raises
    [OverflowError].  It does so at least for every integer whose magnitude
    reaches [2 ^ 1024], which no float can hold; the difference of a
    timestamp and an integer that a float can hold is finite, a rational.

    [lower s] is [s.lower()].  Python lowers a character by the Unicode
    tables, and some characters by their neighbours.  The laws say what is
    used here and holds of [str.lower]: an ASCII string is lowered letter by
    letter; ASCII characters are lowered so wherever they stand, at the
    start of a string as inside it.

    [dict_items m] is [m.items()] for a dictionary loaded from a JSON file:
    the items of the file, in the order of the file. *)

Class PyLibrary := {
  datetime : Type;
  date : datetime → Z;
  timestamp : datetime → Q;
  timestamp_raises : datetime → bool;
  isoformat : datetime → string;
  fromisoformat : string → option datetime;
  (** the successive values returned by [datetime.now()] *)
  wall_clock : nat → datetime;
  fromisoformat_isoformat : ∀ t, fromisoformat (isoformat t) = Some t;
  isoformat_nonempty : ∀ t, isoformat t ≠ EmptyString;
  timestamp_now : ∀ n, timestamp_raises (wall_clock n) = false;
  float_sub_int : Q → Z → option Q;
  float_sub_int_overflow :
    ∀ x k, 2 ^ 1024 ≤ Z.abs k → float_sub_int x k = None;
  lower : string → string;
  lower_isascii : ∀ s, Py.isascii s = true → lower s = Py.ascii_lower s;
  lower_prefix :
    ∀ p s, Py.isascii p = true →
      ∃ s', lower (p +:+ s) = Py.ascii_lower p +:+ s';
  lower_infix :
    ∀ p s, Py.isascii p = true → Py.str_in p s = true →
      Py.str_in (Py.ascii_lower p) (lower s) = true;
  dict_items : ∀ {A}, gmap Z A → list (Z * A);
  dict_items_perm : ∀ A (m : gmap Z A), dict_items m ≡ₚ map_to_list m;
}.

(** ** JSON values and the records of the store *)

Inductive jval :=
| JNull
| JBool (b : bool)
| JInt (n : Z)
| JStr (s : string).

#[global] Instance jval_eq_dec : EqDecision jval.
Proof. solve_decision. Defined.

(** The truth value of a JSON value in a condition, and [str(v)] as an
    f-string renders it. *)
Definition truthy (v : jval) : bool :=
  match v with
  | JNull => false
  | JBool b => b
  | JInt n => negb (n =? 0)
  | JStr s => negb (bool_decide (s = EmptyString))
  end.

Definition to_str (v : jval) : string :=
  match v with
  | JNull => "None"
  | JBool true => "True"
  | JBool false => "False"
  | JInt n => pretty n
  | JStr s => s
  end.

(** A stored conversation and a stored user are dictionaries. *)
Abbreviation Conversation := (gmap string jval).
Abbreviation UserData := (gmap string jval).

(** The progress dictionary built by [_initialize_user_progress]. *)
Record ProgressRecord := mkProgress {
  user_id : Z;
  overall_score : Z;
  completed_modules : list string;
  current_modules : list string;
  quizzes_completed : Z;
  correct_answers : Z;
  total_questions : Z;
  learning_streak : Z;
  last_activity : option string;
  days_active : Z;
  achievements : list string;
  recent_topics : list string;
  skill_levels : gmap string string;
  learning_goals : list string;
  created_at : string;
  updated_at : string;
}.

(** Assignments [progress[key] = v]. *)
Definition set_overall_score (v : Z) (p : ProgressRecord) : ProgressRecord :=
  mkProgress (user_id p) v (completed_modules p) (current_modules p)
    (quizzes_completed p) (correct_answers p) (total_questions p)
    (learning_streak p) (last_activity p) (days_active p) (achievements p)
    (recent_topics p) (skill_levels p) (learning_goals p) (created_at p)
    (updated_at p).

Definition set_completed_modules (v : list string) (p : ProgressRecord) : ProgressRecord :=
  mkProgress (user_id p) (overall_score p) v (current_modules p)
    (quizzes_completed p) (correct_answers p) (total_questions p)
    (learning_streak p) (last_activity p) (days_active p) (achievements p)
    (recent_topics p) (skill_levels p) (learning_goals p) (created_at p)
    (updated_at p).

Definition set_current_modules (v : list string) (p : ProgressRecord) : ProgressRecord :=
  mkProgress (user_id p) (overall_score p) (completed_modules p) v
    (quizzes_completed p) (correct_answers p) (total_questions p)
    (learning_streak p) (last_activity p) (days_active p) (achievements p)
    (recent_topics p) (skill_levels p) (learning_goals p) (created_at p)
    (updated_at p).

Definition set_quizzes_completed (v : Z) (p : ProgressRecord) : ProgressRecord :=
  mkProgress (user_id p) (overall_score p) (completed_modules p)
    (current_modules p) v (correct_answers p) (total_questions p)
    (learning_streak p) (last_activity p) (days_active p) (achievements p)
    (recent_topics p) (skill_levels p) (learning_goals p) (created_at p)
    (updated_at p).

Definition set_correct_answers (v : Z) (p : ProgressRecord) : ProgressRecord :=
  mkProgress (user_id p) (overall_score p) (completed_modules p)
    (current_modules p) (quizzes_completed p) v (total_questions p)
    (learning_streak p) (last_activity p) (days_active p) (achievements p)
    (recent_topics p) (skill_levels p) (learning_goals p) (created_at p)
    (updated_at p).

Definition set_total_questions (v : Z) (p : ProgressRecord) : ProgressRecord :=
  mkProgress (user_id p) (overall_score p) (completed_modules p)
    (current_modules p) (quizzes_completed p) (correct_answers p) v
    (learning_streak p) (last_activity p) (days_active p) (achievements p)
    (recent_topics p) (skill_levels p) (learning_goals p) (created_at p)
    (updated_at p).

Definition set_learning_streak (v : Z) (p : ProgressRecord) : ProgressRecord :=
  mkProgress (user_id p) (overall_score p) (completed_modules p)
    (current_modules p) (quizzes_completed p) (correct_answers p)
    (total_questions p) v (last_activity p) (days_active p) (achievements p)
    (recent_topics p) (skill_levels p) (learning_goals p) (created_at p)
    (updated_at p).

Definition set_last_activity (v : option string) (p : ProgressRecord) : ProgressRecord :=
  mkProgress (user_id p) (overall_score p) (completed_modules p)
    (current_modules p) (quizzes_completed p) (correct_answers p)
    (total_questions p) (learning_streak p) v (days_active p) (achievements p)
    (recent_topics p) (skill_levels p) (learning_goals p) (created_at p)
    (updated_at p).

Definition set_days_active (v : Z) (p : ProgressRecord) : ProgressRecord :=
  mkProgress (user_id p) (overall_score p) (completed_modules p)
    (current_modules p) (quizzes_completed p) (correct_answers p)
    (total_questions p) (learning_streak p) (last_activity p) v (achievements p)
    (recent_topics p) (skill_levels p) (learning_goals p) (created_at p)
    (updated_at p).

Definition set_achievements (v : list string) (p : ProgressRecord) : ProgressRecord :=
  mkProgress (user_id p) (overall_score p) (completed_modules p)
    (current_modules p) (quizzes_completed p) (correct_answers p)
    (total_questions p) (learning_streak p) (last_activity p) (days_active p) v
    (recent_topics p) (skill_levels p) (learning_goals p) (created_at p)
    (updated_at p).

Definition set_recent_topics (v : list string) (p : ProgressRecord) : ProgressRecord :=
  mkProgress (user_id p) (overall_score p) (completed_modules p)
    (current_modules p) (quizzes_completed p) (correct_answers p)
    (total_questions p) (learning_streak p) (last_activity p) (days_active p)
    (achievements p) v (skill_levels p) (learning_goals p) (created_at p)
    (updated_at p).

Definition set_skill_levels (v : gmap string string) (p : ProgressRecord) : ProgressRecord :=
  mkProgress (user_id p) (overall_score p) (completed_modules p)
    (current_modules p) (quizzes_completed p) (correct_answers p)
    (total_questions p) (learning_streak p) (last_activity p) (days_active p)
    (achievements p) (recent_topics p) v (learning_goals p) (created_at p)
    (updated_at p).

Definition set_updated_at (v : string) (p : ProgressRecord) : ProgressRecord :=
  mkProgress (user_id p) (overall_score p) (completed_modules p)
    (current_modules p) (quizzes_completed p) (correct_answers p)
    (total_questions p) (learning_streak p) (last_activity p) (days_active p)
    (achievements p) (recent_topics p) (skill_levels p) (learning_goals p)
    (created_at p) v.

(** The four JSON files of [DataManager] and the number of clock readings
    consumed so far. *)
Record World := mkWorld {
  users_file : gmap Z UserData;
  memories_file : gmap Z (list Conversation);
  progress_file : gmap Z ProgressRecord;
  group_memories_file : gmap Z (list Conversation);
  clock_reads : nat;
}.

(** [initialize_data_files]: every file holds the empty dictionary. *)
Definition initial_world : World := mkWorld ∅ ∅ ∅ ∅ 0.

(** ** The state monad of the bot *)

Definition Bot (A : Type) : Type := World → A * World.

#[global] Instance Bot_ret : MRet Bot := λ A a w, (a, w).
#[global] Instance Bot_bind : MBind Bot :=
  λ A B f m w, let '(a, w') := m w in f a w'.

Definition exec {A} (m : Bot A) (w : World) : World := (m w).2.
Definition eval {A} (m : Bot A) (w : World) : A := (m w).1.

(** [datetime.now()]: the next reading of the wall clock. *)
Definition now `{PyLibrary} : Bot datetime :=
  λ w, (wall_clock (clock_reads w),
        mkWorld (users_file w) (memories_file w) (progress_file w)
          (group_memories_file w) (S (clock_reads w))).

(** ** src/data_manager.py *)

Module DataManager.
Section DataManager.
Context `{PyLibrary}.

Definition get_users_data : Bot (gmap Z UserData) :=
  λ w, (users_file w, w).

Definition get_user_data (user_id : Z) : Bot UserData :=
  users_data ← get_users_data;
  mret (default ∅ (users_data !! user_id)).

Definition get_memories_data : Bot (gmap Z (list Conversation)) :=
  λ w, (memories_file w, w).

Definition save_memories_data (data : gmap Z (list Conversation)) : Bot unit :=
  λ w, (tt, mkWorld (users_file w) data (progress_file w)
              (group_memories_file w) (clock_reads w)).

Definition get_user_memories (user_id : Z) : Bot (list Conversation) :=
  memories_data ← get_memories_data;
  mret (default [] (memories_data !! user_id)).

(** [if 'timestamp' not in conversation_data: ... = now().isoformat()] *)
Definition add_timestamp (conversation_data : Conversation) : Bot Conversation :=
  match conversation_data !! "timestamp" with
  | None =>
      t ← now;
      mret (<["timestamp" := JStr (isoformat t)]> conversation_data)
  | Some _ => mret conversation_data
  end.

Definition store_conversation (user_id : Z) (conversation_data : Conversation)
  : Bot unit :=
  memories_data ← get_memories_data;
  let user_memories := default [] (memories_data !! user_id) in
  conversation_data ← add_timestamp conversation_data;
  let user_memories := user_memories ++ [conversation_data] in
  let user_memories :=
    if (50 <? length user_memories)%nat
    then Py.last_n 50 user_memories else user_memories in
  save_memories_data (<[user_id := user_memories]> memories_data).

Definition get_group_memories_data : Bot (gmap Z (list Conversation)) :=
  λ w, (group_memories_file w, w).

Definition save_group_memories_data (data : gmap Z (list Conversation))
  : Bot unit :=
  λ w, (tt, mkWorld (users_file w) (memories_file w) (progress_file w)
              data (clock_reads w)).

Definition get_group_memories (chat_id : Z) : Bot (list Conversation) :=
  group_memories_data ← get_group_memories_data;
  mret (default [] (group_memories_data !! chat_id)).

Definition store_group_conversation (chat_id : Z)
    (conversation_data : Conversation) : Bot unit :=
  group_memories_data ← get_group_memories_data;
  let group_memories := default [] (group_memories_data !! chat_id) in
  conversation_data ← add_timestamp conversation_data;
  let group_memories := group_memories ++ [conversation_data] in
  let group_memories :=
    if (100 <? length group_memories)%nat
    then Py.last_n 100 group_memories else group_memories in
  save_group_memories_data (<[chat_id := group_memories]> group_memories_data).

Definition get_progress_data : Bot (gmap Z ProgressRecord) :=
  λ w, (progress_file w, w).

Definition save_progress_data (data : gmap Z ProgressRecord) : Bot unit :=
  λ w, (tt, mkWorld (users_file w) (memories_file w) data
              (group_memories_file w) (clock_reads w)).

(** [progress_data.get(str(user_id), {})]; [None] is the empty dictionary
    returned for an unknown user. *)
Definition get_user_progress (user_id : Z) : Bot (option ProgressRecord) :=
  progress_data ← get_progress_data;
  mret (progress_data !! user_id).

Definition save_user_progress (user_id : Z) (progress_data : ProgressRecord)
  : Bot unit :=
  all_progress ← get_progress_data;
  save_progress_data (<[user_id := progress_data]> all_progress).

(** [datetime.fromisoformat(conversation['timestamp']).timestamp()];
    [None] when the expression raises: the key is missing ([KeyError]), the
    value is not a string ([TypeError]), it does not parse ([ValueError]) or
    the parsed time has no timestamp ([OverflowError], [OSError]). *)
Definition conv_timestamp (conversation : Conversation) : option Q :=
  match conversation !! "timestamp" with
  | Some (JStr s) =>
      t ← fromisoformat s;
      if timestamp_raises t then None else Some (timestamp t)
  | _ => None
  end.

(** One iteration of the inner loop of [cleanup_old_data], with its
    [try] / [except]. *)
Definition cleanup_step (cutoff_date : Q)
    (cleaned_conversations : list Conversation) (conversation : Conversation)
  : list Conversation :=
  match conv_timestamp conversation with
  | Some conv_timestamp =>
      if negb (Qle_bool conv_timestamp cutoff_date)
      then cleaned_conversations ++ [conversation]
      else cleaned_conversations
  | None => cleaned_conversations ++ [conversation]
  end.

(** [cleanup_old_data] returns [None] where the code raises: the
    subtraction that gives [cutoff_date] stands before the loop, outside its
    [try], and its [OverflowError] ends the call before the memories are
    loaded. *)
Definition cleanup_old_data (days_to_keep : Z) : Bot (option unit) :=
  t ← now;
  match float_sub_int (timestamp t) (days_to_keep * 24 * 60 * 60) with
  | None => mret None
  | Some cutoff_date =>
      memories_data ← get_memories_data;
      let cleaned_data :=
        map_fold (λ user_id conversations
                    (cleaned_data : gmap Z (list Conversation)),
                    let cleaned_conversations :=
                      fold_left (cleanup_step cutoff_date) conversations [] in
                    <[user_id := cleaned_conversations]> cleaned_data)
                 ∅ memories_data in
      _ ← save_memories_data cleaned_data;
      mret (Some tt)
  end.

Definition save_users_data (data : gmap Z UserData) : Bot unit :=
  λ w, (tt, mkWorld data (memories_file w) (progress_file w)
              (group_memories_file w) (clock_reads w)).

Definition save_user_data (user_id : Z) (user_data : UserData) : Bot unit :=
  users_data ← get_users_data;
  save_users_data (<[user_id := user_data]> users_data).

End DataManager.
End DataManager.

(** ** src/main.py: the memories handed to the prompt builder *)

Module Main.
Section Main.
Context `{PyLibrary}.

(** Lines 302-311 of [handle_message]: the value of [all_memories]. *)
Definition all_memories (chat_type : string) (chat_id user_id : Z)
  : Bot (list Conversation) :=
  if Py.list_in chat_type ["group"; "supergroup"] then
    group_memories ← DataManager.get_group_memories chat_id;
    user_memories ← DataManager.get_user_memories user_id;
    mret (group_memories ++ Py.last_n 5 user_memories)
  else
    DataManager.get_user_memories user_id.

End Main.
End Main.

(** ** src/progress_tracker.py *)

Module ProgressTracker.
Section ProgressTracker.
Context `{PyLibrary}.

Definition _initialize_user_progress (user_id : Z) : Bot ProgressRecord :=
  created ← now;
  updated ← now;
  mret {| user_id := user_id;
          overall_score := 0;
          completed_modules := [];
          current_modules := [];
          quizzes_completed := 0;
          correct_answers := 0;
          total_questions := 0;
          learning_streak := 0;
          last_activity := None;
          days_active := 0;
          achievements := [];
          recent_topics := [];
          skill_levels :=
            {[ "crypto" := "beginner";
               "stocks" := "beginner";
               "trading" := "beginner" ]};
          learning_goals := [];
          created_at := isoformat created;
          updated_at := isoformat updated |}.

Definition get_user_progress (user_id : Z) : Bot ProgressRecord :=
  progress ← DataManager.get_user_progress user_id;
  match progress with
  | None =>
      progress ← _initialize_user_progress user_id;
      _ ← DataManager.save_user_progress user_id progress;
      mret progress
  | Some progress => mret progress
  end.

(** [achievements.append(name)] under [cond and name not in achievements] *)
Definition award (cond : bool) (name : string) (achievements : list string)
  : list string :=
  if cond && negb (Py.list_in name achievements)
  then achievements ++ [name] else achievements.

Definition _check_achievements (progress : ProgressRecord) : ProgressRecord :=
  let achievements := achievements progress in
  let achievements :=
    award (1 <=? Z.of_nat (length (completed_modules progress)))
      "First Steps" achievements in
  let achievements :=
    award (3 <=? Z.of_nat (length (completed_modules progress)))
      "Knowledge Seeker" achievements in
  let achievements :=
    award (5 <=? quizzes_completed progress) "Quiz Master" achievements in
  let achievements :=
    award (7 <=? learning_streak progress) "Consistent Learner" achievements in
  let achievements :=
    award (80 <=? overall_score progress) "High Achiever" achievements in
  let achievements :=
    award ((0 <? total_questions progress) &&
           bool_decide (correct_answers progress = total_questions progress) &&
           (5 <=? total_questions progress))
      "Perfect Score" achievements in
  set_achievements achievements progress.

Definition is_crypto_module (m : string) : bool :=
  Py.str_in "crypto" (lower m) || Py.str_in "blockchain" (lower m).

Definition is_stocks_module (m : string) : bool :=
  Py.str_in "stock" (lower m) || Py.str_in "trading" (lower m).

Definition is_trading_module (m : string) : bool :=
  Py.any (λ term, Py.str_in term (lower m)) ["trading"; "analysis"; "risk"].

(** The two [if] statements of one skill domain. *)
Definition update_skill (domain : string) (modules : list string)
    (overall_score inter adv score_inter score_adv : Z)
    (skill_levels : gmap string string) : gmap string string :=
  let skill_levels :=
    if (inter <=? Z.of_nat (length modules)) || (score_inter <=? overall_score)
    then <[domain := "intermediate"]> skill_levels else skill_levels in
  if (adv <=? Z.of_nat (length modules)) || (score_adv <=? overall_score)
  then <[domain := "advanced"]> skill_levels else skill_levels.

Definition _update_skill_levels (progress : ProgressRecord) : ProgressRecord :=
  let skill_levels := skill_levels progress in
  let completed_modules := completed_modules progress in
  let overall_score := overall_score progress in
  let crypto_modules := List.filter is_crypto_module completed_modules in
  let skill_levels :=
    update_skill "crypto" crypto_modules overall_score 3 5 60 80 skill_levels in
  let stocks_modules := List.filter is_stocks_module completed_modules in
  let skill_levels :=
    update_skill "stocks" stocks_modules overall_score 3 5 60 80 skill_levels in
  let trading_modules := List.filter is_trading_module completed_modules in
  let skill_levels :=
    update_skill "trading" trading_modules overall_score 2 4 50 75 skill_levels in
  set_skill_levels skill_levels progress.

(** The [if] / [elif] chain on [action]. *)
Definition apply_action (topic action : string) (score : Z)
    (progress : ProgressRecord) : ProgressRecord :=
  if decide (action = "started") then
    if negb (Py.list_in topic (current_modules progress))
    then set_current_modules (current_modules progress ++ [topic]) progress
    else progress
  else if decide (action = "completed") then
    let progress :=
      if negb (Py.list_in topic (completed_modules progress))
      then set_completed_modules (completed_modules progress ++ [topic]) progress
      else progress in
    let progress :=
      if Py.list_in topic (current_modules progress)
      then set_current_modules (Py.remove topic (current_modules progress)) progress
      else progress in
    set_overall_score (overall_score progress + 10) progress
  else if decide (action = "quiz_completed") then
    let progress :=
      set_quizzes_completed (quizzes_completed progress + 1) progress in
    let progress :=
      set_total_questions (total_questions progress + 1) progress in
    if 0 <? score then
      let progress :=
        set_correct_answers (correct_answers progress + score) progress in
      set_overall_score (overall_score progress + score * 5) progress
    else progress
  else progress.

(** The statements of [update_progress] between reading the clock and
    saving the record. *)
Definition update_record (current_time : string) (topic action : string)
    (score : Z) (progress : ProgressRecord) : ProgressRecord :=
  let progress := set_updated_at current_time progress in
  let progress := apply_action topic action score progress in
  let progress :=
    if negb (Py.list_in topic (recent_topics progress))
    then set_recent_topics (recent_topics progress ++ [topic]) progress
    else progress in
  let progress :=
    if (10 <? length (recent_topics progress))%nat
    then set_recent_topics (Py.last_n 10 (recent_topics progress)) progress
    else progress in
  let progress :=
    set_overall_score (Z.min (overall_score progress) 100) progress in
  let progress := _check_achievements progress in
  _update_skill_levels progress.

Definition update_progress (user_id : Z) (topic action : string) (score : Z)
  : Bot unit :=
  progress ← get_user_progress user_id;
  current_time ← now;
  let progress := update_record (isoformat current_time) topic action score progress in
  DataManager.save_user_progress user_id progress.

(** [last_activity_date] of [update_user_activity]: [None] when
    [last_activity] is falsy or [fromisoformat] raises. *)
Definition parse_last_activity (progress : ProgressRecord) : option Z :=
  match last_activity progress with
  | Some s => if decide (s = "") then None else date <$> fromisoformat s
  | None => None
  end.

(** The activity tracking of [update_user_activity]. *)
Definition track_activity (current_date : Z) (progress : ProgressRecord)
  : ProgressRecord :=
  let last_activity_date := parse_last_activity progress in
  if decide (last_activity_date ≠ Some current_date) then
    let progress := set_days_active (days_active progress + 1) progress in
    match last_activity_date with
    | Some last_activity_date =>
        if decide (current_date - last_activity_date = 1) then
          set_learning_streak (learning_streak progress + 1) progress
        else if decide (current_date - last_activity_date > 1) then
          set_learning_streak 1 progress
        else
          set_learning_streak 1 progress
    | None => set_learning_streak 1 progress
    end
  else progress.

Definition update_user_activity (user_id : Z) (message : string) : Bot unit :=
  progress ← get_user_progress user_id;
  t ← now;
  let current_date := date t in
  let progress := track_activity current_date progress in
  t ← now;
  let progress := set_last_activity (Some (isoformat t)) progress in
  t ← now;
  let progress := set_updated_at (isoformat t) progress in
  DataManager.save_user_progress user_id progress.

Definition reset_user_progress (user_id : Z) : Bot unit :=
  fresh_progress ← _initialize_user_progress user_id;
  DataManager.save_user_progress user_id fresh_progress.

(** One row of the leaderboard. *)
Record leaderboard_entry := mkEntry {
  lb_user_id : Z;
  lb_display_name : jval;
  lb_overall_score : Z;
  lb_completed_modules : nat;
  lb_achievements : nat;
}.

(** [leaderboard.sort(key=lambda x: x['overall_score'], reverse=True)]: the
    sort is stable, so a row goes behind the rows of an equal or higher score
    that came before it. *)
Fixpoint insert_by_score (e : leaderboard_entry) (sorted : list leaderboard_entry)
  : list leaderboard_entry :=
  match sorted with
  | [] => [e]
  | x :: rest =>
      if lb_overall_score x <? lb_overall_score e
      then e :: x :: rest else x :: insert_by_score e rest
  end.

Definition sort_by_score (l : list leaderboard_entry) : list leaderboard_entry :=
  fold_left (λ sorted e, insert_by_score e sorted) l [].

(** The loop of [get_leaderboard] over [all_progress.items()]. *)
Fixpoint leaderboard_loop (items : list (Z * ProgressRecord))
    (leaderboard : list leaderboard_entry) : Bot (list leaderboard_entry) :=
  match items with
  | [] => mret leaderboard
  | (user_id, progress) :: items =>
      user_info ← DataManager.get_user_data user_id;
      let leaderboard :=
        if decide (user_info = ∅) then leaderboard
        else leaderboard ++
             [ {| lb_user_id := user_id;
                  lb_display_name :=
                    default (JStr "Unknown") (user_info !! "display_name");
                  lb_overall_score := overall_score progress;
                  lb_completed_modules := length (completed_modules progress);
                  lb_achievements := length (achievements progress) |} ] in
      leaderboard_loop items leaderboard
  end.

(** [get_leaderboard] on the items of the progress file, in the order of the
    file. *)
Definition leaderboard_of_items (items : list (Z * ProgressRecord)) (limit : Z)
  : Bot (list leaderboard_entry) :=
  leaderboard ← leaderboard_loop items [];
  let leaderboard := sort_by_score leaderboard in
  mret (Py.slice_to limit leaderboard).

(** [get_leaderboard]: [all_progress.items()] lists the progress file in the
    order of the file, which decides the order of rows of equal score. *)
Definition get_leaderboard (limit : Z) : Bot (list leaderboard_entry) :=
  all_progress ← DataManager.get_progress_data;
  leaderboard_of_items (dict_items all_progress) limit.

Definition get_learning_recommendations (user_id : Z) : Bot (list string) :=
  progress ← get_user_progress user_id;
  let completed := completed_modules progress in
  let skill_levels := skill_levels progress in
  let recommendations := [] in
  let recommendations :=
    if negb (Py.list_in "crypto_basics" completed)
    then recommendations
         ++ ["Start with Cryptocurrency Basics - perfect for beginners!"]
    else recommendations in
  let recommendations :=
    if negb (Py.list_in "stocks_basics" completed)
    then recommendations
         ++ ["Learn Stock Market Fundamentals - build your foundation!"]
    else recommendations in
  let recommendations :=
    if (2 <=? length completed)%nat
       && negb (Py.list_in "risk_management" completed)
    then recommendations
         ++ ["Study Risk Management - essential for any trader!"]
    else recommendations in
  let recommendations :=
    if bool_decide (skill_levels !! "crypto" = Some "beginner")
       && negb (Py.list_in "blockchain" completed)
    then recommendations
         ++ ["Dive deeper with Blockchain Technology module!"]
    else recommendations in
  let recommendations :=
    if bool_decide (skill_levels !! "stocks" = Some "beginner")
       && negb (Py.list_in "technical_analysis" completed)
    then recommendations
         ++ ["Learn Technical Analysis to read charts like a pro!"]
    else recommendations in
  let recommendations :=
    if quizzes_completed progress <? 3
    then recommendations ++ ["Take more quizzes to test your knowledge!"]
    else recommendations in
  mret (take 3 recommendations).

End ProgressTracker.
End ProgressTracker.

(** ** src/bot_config.py *)

Module BotConfig.

(** A value of [KNOWN_USERS]. *)
Record known_user := mkKnown { name : string; role : string }.

Definition KNOWN_USERS : list (string * known_user) :=
  [ ("@Er_Stranger", mkKnown "Neel" "student");
    ("@Nexxxyzz", mkKnown "Nex" "student");
    ("@pr_amod18", mkKnown "Pramod" "student");
    ("@Extreme747", mkKnown "Extreme" "admin") ].

Section BotConfig.
Context `{PyLibrary}.

Definition get_user_by_username (username : string) : option known_user :=
  if decide (username = "") then None
  else
    let search_username :=
      if Py.startswith username "@" then username else "@" +:+ username in
    snd <$> List.find
              (λ '(handle, info),
                 bool_decide (lower handle = lower search_username))
              KNOWN_USERS.

(** [user_info and user_info.get('role') == 'admin'], as a truth value: the
    [None] of a name that is not on the roster is false. *)
Definition is_admin (username : string) : bool :=
  match get_user_by_username username with
  | Some user_info => bool_decide (role user_info = "admin")
  | None => false
  end.

End BotConfig.
End BotConfig.

(** ** src/user_manager.py *)

Module UserManager.
Section UserManager.
Context `{PyLibrary}.

Definition register_user (user_id : Z) (username first_name : string)
    (chat_id : Z) : Bot UserData :=
  existing_user ← DataManager.get_user_data user_id;
  let known_user_info :=
    if decide (username = "") then None
    else
      match BotConfig.get_user_by_username username with
      | Some info => Some info
      | None => BotConfig.get_user_by_username ("@" +:+ username)
      end in
  (* the default of [existing_user.get] is evaluated in any case *)
  registration_default ← now;
  last_seen ← now;
  let user_data : UserData :=
    {[ "user_id" := JInt user_id;
       "username" := JStr username;
       "first_name" := JStr first_name;
       "chat_id" := JInt chat_id;
       "registration_date" :=
         default (JStr (isoformat registration_default))
           (existing_user !! "registration_date");
       "last_seen" := JStr (isoformat last_seen);
       "is_known_user" := JBool (bool_decide (is_Some known_user_info));
       "role" := JStr "user";
       "display_name" := JStr first_name ]} in
  let user_data :=
    match known_user_info with
    | Some info =>
        <["known_as" := JStr (BotConfig.name info)]>
          (<["display_name" := JStr (BotConfig.name info)]>
             (<["role" := JStr (BotConfig.role info)]> user_data))
    | None => user_data
    end in
  _ ← DataManager.save_user_data user_id user_data;
  mret user_data.

Definition get_user_info (user_id : Z) : Bot UserData :=
  user_data ← DataManager.get_user_data user_id;
  if decide (user_data = ∅) then
    mret ({[ "user_id" := JInt user_id;
             "username" := JNull;
             "first_name" := JStr "Unknown User";
             "display_name" := JStr "Unknown User";
             "is_known_user" := JBool false;
             "role" := JStr "user" ]} : UserData)
  else mret user_data.

Definition update_last_seen (user_id : Z) : Bot unit :=
  user_data ← DataManager.get_user_data user_id;
  if decide (user_data = ∅) then mret tt
  else
    t ← now;
    DataManager.save_user_data user_id
      (<["last_seen" := JStr (isoformat t)]> user_data).

Definition is_admin (user_id : Z) : Bot bool :=
  user_data ← get_user_info user_id;
  mret (bool_decide (user_data !! "role" = Some (JStr "admin"))).

Definition is_known_user (user_id : Z) : Bot jval :=
  user_data ← get_user_info user_id;
  mret (default (JBool false) (user_data !! "is_known_user")).

End UserManager.
End UserManager.

(** ** src/gemini_client.py *)

Module GeminiClient.

(** What [generate_content] did: it raised, or it gave a response, whose
    [text] may be [None]. *)
Inductive api_result :=
| ApiRaised
| ApiResponse (text : option string).

Definition rephrase : string :=
  "I'm having trouble processing that right now. Could you try rephrasing your question?".

Definition technical_difficulties : string :=
  "😅 I'm experiencing some technical difficulties. Please try again in a moment!".

(** [get_educational_response]: the [except Exception] of the method turns a
    failed call into an answer. *)
Definition get_educational_response (response : api_result) : string :=
  match response with
  | ApiResponse (Some text) => if decide (text = "") then rephrase else text
  | ApiResponse None => rephrase
  | ApiRaised => technical_difficulties
  end.

End GeminiClient.

(** ** src/main.py: formatting the memories and handling a message *)

Module CryptoStocksBot.
Section CryptoStocksBot.
Context `{PyLibrary}.

Definition newline : string := String (Ascii.ascii_of_nat 10) EmptyString.

(** The lines one memory adds to [formatted]. *)
Definition format_memory (memory : Conversation) : list string :=
  let user_name := default (JStr "User") (memory !! "user_name") in
  let user_message := default (JStr "") (memory !! "user_message") in
  let ai_response := default (JStr "") (memory !! "ai_response") in
  (if truthy user_message
   then [to_str user_name +:+ ": " +:+ to_str user_message] else [])
  ++ (if truthy ai_response then ["Bot: " +:+ to_str ai_response] else []).

Definition _format_recent_memories (memories : list Conversation) : string :=
  if decide (memories = []) then "No previous conversations"
  else
    let recent :=
      if (5 <? length memories)%nat then Py.last_n 5 memories else memories in
    let formatted :=
      fold_left (λ formatted memory, formatted ++ format_memory memory)
        recent [] in
    String.concat newline formatted.

Definition is_group (chat_type : string) : bool :=
  Py.list_in chat_type ["group"; "supergroup"].

(** Whether [handle_message] goes on to answer: always in a private chat, in
    a group only when the bot is mentioned or called by name, or the
    message replies to a message of a bot ([is_reply_to_bot] is
    [reply_to_message.from_user.is_bot], true of any bot). *)
Definition should_respond (chat_type : string) (bot_username : option string)
    (is_reply_to_bot : bool) (message_text : string) : bool :=
  if is_group chat_type then
    let is_mentioned :=
      match bot_username with
      | Some bot_username =>
          if decide (bot_username = "") then false
          else Py.str_in ("@" +:+ bot_username) message_text
      | None => false
      end in
    let is_called_by_name :=
      Py.str_in "ayaka" (lower message_text)
      || Py.str_in "Ayaka" message_text in
    is_mentioned || is_reply_to_bot || is_called_by_name
  else true.

(** [handle_message].  [response] is what the call of the language model
    did.  The text sent back to the chat is left out, and with it the
    [except] branch of the method: [get_educational_response] raises no
    [Exception] and the data manager catches its own, so that the branch is
    entered from [reply_text] only, after the stores. *)
Definition handle_message (chat_type : string) (bot_username : option string)
    (is_reply_to_bot : bool) (user_id chat_id : Z) (first_name : string)
    (message_text : string) (response : GeminiClient.api_result) : Bot unit :=
  if decide (message_text = "") then mret tt
  else if negb (should_respond chat_type bot_username is_reply_to_bot message_text)
  then mret tt
  else
    user_info ← UserManager.get_user_info user_id;
    let display_name :=
      default (JStr (if decide (first_name = "") then "Unknown" else first_name))
        (user_info !! "display_name") in
    t ← now;
    let conversation_data : Conversation :=
      {[ "user_message" := JStr message_text;
         "user_name" := display_name;
         "timestamp" := JStr (isoformat t);
         "user_id" := JInt user_id;
         "chat_id" := JInt chat_id;
         "chat_type" := JStr chat_type ]} in
    all_memories ← Main.all_memories chat_type chat_id user_id;
    user_progress ← ProgressTracker.get_user_progress user_id;
    let ai_response := GeminiClient.get_educational_response response in
    let conversation_data :=
      <["ai_response" := JStr ai_response]> conversation_data in
    _ ← (if is_group chat_type then
           _ ← DataManager.store_group_conversation chat_id conversation_data;
           DataManager.store_conversation user_id conversation_data
         else
           DataManager.store_conversation user_id conversation_data);
    ProgressTracker.update_user_activity user_id message_text.

End CryptoStocksBot.
End CryptoStocksBot.

(** ** Sessions: sequences of calls into the bot *)

Inductive call :=
| UpdateProgress (user_id : Z) (topic action : string) (score : Z)
| UpdateUserActivity (user_id : Z) (message : string)
| ResetUserProgress (user_id : Z)
| GetUserProgress (user_id : Z)
| StoreConversation (user_id : Z) (conversation_data : Conversation)
| StoreGroupConversation (chat_id : Z) (conversation_data : Conversation)
| CleanupOldData (days_to_keep : Z).

Section Session.
Context `{PyLibrary}.

Definition run_call (c : call) : Bot unit :=
  match c with
  | UpdateProgress user_id topic action score =>
      ProgressTracker.update_progress user_id topic action score
  | UpdateUserActivity user_id message =>
      ProgressTracker.update_user_activity user_id message
  | ResetUserProgress user_id =>
      ProgressTracker.reset_user_progress user_id
  | GetUserProgress user_id =>
      _ ← ProgressTracker.get_user_progress user_id; mret tt
  | StoreConversation user_id conversation_data =>
      DataManager.store_conversation user_id conversation_data
  | StoreGroupConversation chat_id conversation_data =>
      DataManager.store_group_conversation chat_id conversation_data
  | CleanupOldData days_to_keep =>
      _ ← DataManager.cleanup_old_data days_to_keep; mret tt
  end.

Fixpoint run_calls (cs : list call) : Bot unit :=
  match cs with
  | [] => mret tt
  | c :: cs => _ ← run_call c; run_calls cs
  end.

(** The worlds the bot can be in: those produced by a finite sequence of
    calls on the freshly initialised data files. *)
Definition reachable (w : World) : Prop :=
  ∃ cs, w = exec (run_calls cs) initial_world.

(** The world after [k] more readings of the clock. *)
Definition tick (k : nat) (w : World) : World :=
  mkWorld (users_file w) (memories_file w) (progress_file w)
    (group_memories_file w) (k + clock_reads w).

Definition with_progress (data : gmap Z ProgressRecord) (w : World) : World :=
  mkWorld (users_file w) (memories_file w) data (group_memories_file w)
    (clock_reads w).

(** The [n]-th next value of [datetime.now().isoformat()]. *)
Definition reading (n : nat) (w : World) : string :=
  isoformat (wall_clock (n + clock_reads w)).

(** Every stored progress record satisfies [P]. *)
Definition records_satisfy (P : ProgressRecord → Prop) (w : World) : Prop :=
  ∀ u r, progress_file w !! u = Some r → P r.

(** The record [update_progress] and [update_user_activity] start from:
    the stored one, or the zero-value record for an unknown user. *)
Definition zero_record (user_id : Z) (created updated : string)
  : ProgressRecord :=
  mkProgress user_id 0 [] [] 0 0 0 0 None 0 [] []
    {[ "crypto" := "beginner"; "stocks" := "beginner"; "trading" := "beginner" ]}
    [] created updated.

(** The test the inner loop of [cleanup_old_data] applies to an entry. *)
Definition retained (cutoff_date : Q) (conversation : Conversation) : bool :=
  match DataManager.conv_timestamp conversation with
  | Some ts => negb (Qle_bool ts cutoff_date)
  | None => true
  end.

Definition skill_domains : list string := ["crypto"; "stocks"; "trading"].

(** The table of the skill-level derivation: which completed modules count
    for a domain, and the module counts and scores that qualify for
    intermediate and for advanced. *)
Definition domain_module (domain : string) : string → bool :=
  if decide (domain = "crypto") then ProgressTracker.is_crypto_module
  else if decide (domain = "stocks") then ProgressTracker.is_stocks_module
  else ProgressTracker.is_trading_module.

Definition domain_count (domain : string) (p : ProgressRecord) : Z :=
  Z.of_nat (length (List.filter (domain_module domain) (completed_modules p))).

Definition qualifies_intermediate (domain : string) (p : ProgressRecord) : bool :=
  if decide (domain = "trading")
  then (2 <=? domain_count domain p) || (50 <=? overall_score p)
  else (3 <=? domain_count domain p) || (60 <=? overall_score p).

Definition qualifies_advanced (domain : string) (p : ProgressRecord) : bool :=
  if decide (domain = "trading")
  then (4 <=? domain_count domain p) || (75 <=? overall_score p)
  else (5 <=? domain_count domain p) || (80 <=? overall_score p).

(** Every advanced level of the record is backed by its threshold. *)
Definition advanced_backed (p : ProgressRecord) : Prop :=
  ∀ domain, domain ∈ skill_domains →
    skill_levels p !! domain = Some "advanced" →
    qualifies_advanced domain p = true.

(** The level the skill table gives a record: the highest tier it
    qualifies for. *)
Definition derived_level (domain : string) (p : ProgressRecord) : string :=
  if qualifies_advanced domain p then "advanced"
  else if qualifies_intermediate domain p then "intermediate"
  else "beginner".

(** The names [_check_achievements] can award. *)
Definition achievement_names : list string :=
  ["First Steps"; "Knowledge Seeker"; "Quiz Master"; "Consistent Learner";
   "High Achiever"; "Perfect Score"].

(** The points an event adds to the score before the cap. *)
Definition event_points (action : string) (score : Z) : Z :=
  if decide (action = "completed") then 10
  else if decide (action = "quiz_completed") then (if 0 <? score then score * 5 else 0)
  else 0.

(** The leaderboard row of an item of the progress file, when the user has a
    record in the users file. *)
Definition entry_of (users : gmap Z UserData) (item : Z * ProgressRecord)
  : option ProgressTracker.leaderboard_entry :=
  let user_info := default ∅ (users !! item.1) in
  if decide (user_info = ∅) then None
  else Some (ProgressTracker.mkEntry item.1
               (default (JStr "Unknown") (user_info !! "display_name"))
               (overall_score item.2)
               (length (completed_modules item.2))
               (length (achievements item.2))).

(** A handle as [get_user_by_username] searches it: with a leading [@]. *)
Definition with_at (username : string) : string :=
  if Py.startswith username "@" then username else "@" +:+ username.

(** What a call on user [u] may change: the progress record of [u] and the
    number of clock readings. *)
Definition only_progress_of (u : Z) (w w' : World) : Prop :=
  users_file w' = users_file w ∧
  memories_file w' = memories_file w ∧
  group_memories_file w' = group_memories_file w ∧
  ∀ u', u' ≠ u → progress_file w' !! u' = progress_file w !! u'.

(** Capped ledgers whose entries carry a timestamp. *)
Definition ledger_ok (cap : nat) (l : list Conversation) : Prop :=
  (length l ≤ cap)%nat ∧ ∀ c, c ∈ l → is_Some (c !! "timestamp").

(** The order of the leaderboard: a row is followed by rows of an equal or
    lower score. *)
Definition score_desc (a b : ProgressTracker.leaderboard_entry) : Prop :=
  ProgressTracker.lb_overall_score b ≤ ProgressTracker.lb_overall_score a.

(** The rows of a given score. *)
Definition rows_of_score (k : Z) (l : list ProgressTracker.leaderboard_entry)
  : list ProgressTracker.leaderboard_entry :=
  List.filter (λ e, ProgressTracker.lb_overall_score e =? k) l.

(** Quiz events that report at most one correct answer. *)
Definition single_question (c : call) : Prop :=
  match c with
  | UpdateProgress _ _ action score => action = "quiz_completed" → score ≤ 1
  | _ => True
  end.

End Session.

(** ** A concrete datetime library for examples

    Time is a number of seconds since the epoch, in UTC; the text form is
    the letter T followed by the decimal number.  The strings of the
    examples are ASCII, lowered letter by letter; the items of a dictionary
    come in the order of the map. *)

Module Sample.

Definition isoformat (t : Z) : string :=
  String "T" (DecimalString.NilEmpty.string_of_int (Z.to_int t)).

Definition fromisoformat (s : string) : option Z :=
  match s with
  | String "T" s' => Z.of_int <$> DecimalString.NilEmpty.int_of_string s'
  | _ => None
  end.

(** [date.toordinal()] of the day that contains second [t] *)
Definition date (t : Z) : Z := 719163 + t / 86400.

(** The readings of the clock: the listed ones, then the last repeated. *)
Definition clock_of (readings : list Z) (n : nat) : Z :=
  default (List.last readings 0) (readings !! n).

(** Floats that hold every difference exactly, up to the integers no float
    can hold. *)
Definition float_sub_int (x : Q) (k : Z) : option Q :=
  if 2 ^ 1024 <=? Z.abs k then None else Some (x - inject_Z k)%Q.

End Sample.

Definition sample_library (readings : list Z) : PyLibrary.
Proof.
  refine {| datetime := Z;
            date := Sample.date;
            timestamp := inject_Z;
            timestamp_raises := λ _, false;
            isoformat := Sample.isoformat;
            fromisoformat := Sample.fromisoformat;
            wall_clock := Sample.clock_of readings;
            float_sub_int := Sample.float_sub_int;
            lower := Py.ascii_lower;
            dict_items := λ A, map_to_list |}.
  - intros t. unfold Sample.fromisoformat, Sample.isoformat.
    rewrite DecimalString.NilEmpty.isi. simpl. f_equal. apply DecimalZ.of_to.
  - intros t. discriminate.
  - intros n. reflexivity.
  - intros x k Hk. unfold Sample.float_sub_int.
    by rewrite (proj2 (Z.leb_le _ _) Hk).
  - reflexivity.
  - intros p s _. exists (Py.ascii_lower s).
    induction p as [|c p IH]; [reflexivity|].
    change (Py.ascii_lower (String c (p +:+ s))
            = String (Py.lower_ascii c) (Py.ascii_lower p +:+ Py.ascii_lower s)).
    simpl. by rewrite IH.
  - intros p s _.
    assert (∀ s' pat, Py.startswith s' pat = true →
              Py.startswith (Py.ascii_lower s') (Py.ascii_lower pat) = true)
      as Hstart.
    { intros s'. induction s' as [|c s' IH]; intros [|q pat]; simpl; try done.
      case_decide as Hqc; [subst q|done]. intros Hrest.
      rewrite decide_True by done. by apply IH. }
    induction s as [|c s IH]; simpl.
    + rewrite !orb_false_r. apply (Hstart "" p).
    + intros [Hhere|Hlater]%orb_true_iff; apply orb_true_iff.
      * left. by apply (Hstart (String c s) p).
      * right. by apply IH.
  - reflexivity.
Defined.

(** Records and worlds used in the examples. *)
Module Example.

Definition all_levels (level : string) : gmap string string :=
  {[ "crypto" := level; "stocks" := level; "trading" := level ]}.

(** A stored record whose advanced crypto level its score of 60 and its
    empty module list do not back. *)
Definition unbacked_record : ProgressRecord :=
  mkProgress 7 60 [] [] 0 0 0 0 None 0 [] [] (all_levels "advanced") []
    "T0" "T0".

Definition unbacked_world : World :=
  mkWorld ∅ ∅ {[ 7 := unbacked_record ]} ∅ 0.



(** The record after eight completions of the same module. *)
Definition eight_completions : list call :=
  replicate 8 (UpdateProgress 7 "crypto_basics" "completed" 0).

Definition record_80 : ProgressRecord :=
  mkProgress 7 80 ["crypto_basics"] [] 0 0 0 0 None 0
    ["First Steps"; "High Achiever"] ["crypto_basics"]
    (all_levels "advanced") [] "T0" "T0".

Definition record_80_started : ProgressRecord :=
  mkProgress 7 80 ["crypto_basics"] ["blockchain"] 0 0 0 0 None 0
    ["First Steps"; "High Achiever"] ["crypto_basics"; "blockchain"]
    (all_levels "advanced") [] "T0" "T0".

(** One quiz event that reports five correct answers. *)
Definition quiz_of_five : list call :=
  [UpdateProgress 7 "crypto_quiz" "quiz_completed" 5].

Definition record_quiz_of_five : ProgressRecord :=
  mkProgress 7 25 [] [] 1 5 1 0 None 0 [] ["crypto_quiz"]
    (all_levels "beginner") [] "T0" "T0".

(** A right answer, a wrong answer and a completed module. *)
Definition two_questions : list call :=
  [UpdateProgress 7 "crypto_quiz" "quiz_completed" 1;
   UpdateProgress 7 "crypto_quiz" "quiz_completed" 0;
   UpdateProgress 7 "crypto_basics" "completed" 0].

Definition record_two_questions : ProgressRecord :=
  mkProgress 7 15 ["crypto_basics"] [] 2 1 2 0 None 0 ["First Steps"]
    ["crypto_quiz"; "crypto_basics"] (all_levels "beginner") [] "T0" "T0".

(** A call with an action the tracker does not know, after the session of
    two questions. *)
Definition record_viewed : ProgressRecord :=
  mkProgress 7 15 ["crypto_basics"] [] 2 1 2 0 None 0 ["First Steps"]
    ["crypto_quiz"; "crypto_basics"; "blockchain"] (all_levels "beginner") []
    "T0" "T0".

(** A user last seen at second 100 of the epoch day, on a streak of three
    days out of four active days. *)
Definition active_record : ProgressRecord :=
  mkProgress 7 0 [] [] 0 0 0 3 (Some "T100") 4 [] [] (all_levels "beginner") []
    "T0" "T100".

Definition active_world : World := mkWorld ∅ ∅ {[ 7 := active_record ]} ∅ 0.

(** One day is 86400 seconds. *)
Definition same_day : list Z := [200].
Definition next_day : list Z := [86400 + 5].
Definition three_days_later : list Z := [3 * 86400].

(** Conversation turns, told apart by a number. *)
Definition turn (n : Z) : Conversation :=
  {[ "user_id" := JInt n; "timestamp" := JStr "T0" ]}.

Definition turns (first count : Z) : list Conversation :=
  turn <$> seqZ first count.

(** A user ledger that is full. *)
Definition full_world : World := mkWorld ∅ {[ 7 := turns 1 50 ]} ∅ ∅ 0.

(** A group ledger that is full. *)
Definition full_group_world : World := mkWorld ∅ ∅ ∅ {[ -100 := turns 1 100 ]} 0.

(** A group of two turns and a user of seven. *)
Definition chat_world : World :=
  mkWorld ∅ {[ 7 := turns 1 7 ]} ∅ {[ -100 := turns 101 2 ]} 0.

(** A ledger with a turn of day 0, a turn of day 40, a turn without
    timestamp, a turn whose timestamp does not parse and a turn whose
    timestamp is a number; the clock reads day 45. *)
Definition old_turn : Conversation :=
  {[ "user_message" := JStr "old"; "timestamp" := JStr "T0" ]}.
Definition recent_turn : Conversation :=
  {[ "user_message" := JStr "recent"; "timestamp" := JStr "T3456000" ]}.
Definition unstamped : Conversation :=
  {[ "user_message" := JStr "no timestamp" ]}.
Definition garbled : Conversation :=
  {[ "user_message" := JStr "garbled"; "timestamp" := JStr "yesterday" ]}.
Definition numbered : Conversation :=
  {[ "user_message" := JStr "number"; "timestamp" := JInt 0 ]}.

Definition mixed_ledger : list Conversation :=
  [old_turn; recent_turn; unstamped; garbled; numbered].

Definition mixed_world : World := mkWorld ∅ {[ 7 := mixed_ledger ]} ∅ ∅ 0.

(** A group ledger with the turn of day 0. *)
Definition old_group_world : World := mkWorld ∅ ∅ ∅ {[ -100 := [old_turn] ]} 0.

Definition day_45 : list Z := [45 * 86400].

(** Three different modules completed in a row. *)
Definition three_modules : list call :=
  [UpdateProgress 7 "crypto_basics" "completed" 0;
   UpdateProgress 7 "blockchain" "completed" 0;
   UpdateProgress 7 "technical_analysis" "completed" 0].

Definition record_three_modules : ProgressRecord :=
  mkProgress 7 30 ["crypto_basics"; "blockchain"; "technical_analysis"] []
    0 0 0 0 None 0 ["First Steps"; "Knowledge Seeker"]
    ["crypto_basics"; "blockchain"; "technical_analysis"]
    (all_levels "beginner") [] "T0" "T0".

End Example.

(** * Properties *)

(** ** Python built-ins *)

Section PyFacts.
Context {A : Type} `{EqDecision A}.
Implicit Types (x y : A) (l : list A).

Lemma list_in_true x l : Py.list_in x l = true ↔ x ∈ l.
Proof. unfold Py.list_in. apply bool_decide_eq_true. Qed.

Lemma list_in_false x l : Py.list_in x l = false ↔ x ∉ l.
Proof. unfold Py.list_in. apply bool_decide_eq_false. Qed.

Lemma remove_not_in x l : NoDup l → x ∉ Py.remove x l.
Proof.
  induction 1 as [|y l Hy Hl IH]; simpl.
  - apply not_elem_of_nil.
  - destruct (decide (x = y)) as [->|Hne]; [done|].
    rewrite not_elem_of_cons. split; done.
Qed.

Lemma remove_elem_of x z l : z ∈ Py.remove x l → z ∈ l.
Proof.
  induction l as [|y l IH]; simpl; [done|].
  destruct (decide (x = y)) as [->|Hne]; rewrite !elem_of_cons.
  - by right.
  - intros [->|Hz]; [by left | right; by apply IH].
Qed.

Lemma remove_NoDup x l : NoDup l → NoDup (Py.remove x l).
Proof.
  induction 1 as [|y l Hy Hl IH]; simpl; [constructor|].
  destruct (decide (x = y)); [done|].
  constructor; [|done]. intros Hin. apply Hy. by eapply remove_elem_of.
Qed.

Lemma last_n_length n l : length (Py.last_n n l) = Nat.min n (length l).
Proof. unfold Py.last_n. rewrite length_drop. lia. Qed.

Lemma last_n_short n l : (length l ≤ n)%nat → Py.last_n n l = l.
Proof.
  intros Hle. unfold Py.last_n.
  replace (length l - n)%nat with 0%nat by lia. done.
Qed.

Lemma last_n_suffix n l : Py.last_n n l `suffix_of` l.
Proof. unfold Py.last_n. apply suffix_drop. Qed.

(** Appending to a full window drops exactly the oldest item. *)
Lemma last_n_snoc_full n l x :
  length l = n → (0 < n)%nat → Py.last_n n (l ++ [x]) = drop 1 l ++ [x].
Proof.
  intros Hlen Hpos. unfold Py.last_n. rewrite length_app. simpl.
  replace (length l + 1 - n)%nat with 1%nat by lia.
  rewrite drop_app_le; [done|]. lia.
Qed.

End PyFacts.

(** ** Running the operations *)

Ltac bot_unfold :=
  unfold exec, eval,
    ProgressTracker.update_progress, ProgressTracker.update_user_activity,
    ProgressTracker.reset_user_progress, ProgressTracker.get_user_progress,
    ProgressTracker._initialize_user_progress,
    DataManager.get_user_progress, DataManager.save_user_progress,
    DataManager.get_progress_data, DataManager.save_progress_data,
    DataManager.store_conversation, DataManager.store_group_conversation,
    DataManager.add_timestamp, DataManager.cleanup_old_data,
    DataManager.get_user_memories, DataManager.get_group_memories,
    DataManager.get_memories_data, DataManager.save_memories_data,
    DataManager.get_group_memories_data, DataManager.save_group_memories_data,
    now, mbind, Bot_bind, mret, Bot_ret.

Section RunFacts.
Context `{PyLibrary}.
Implicit Types (w : World) (u : Z) (r : ProgressRecord).

Lemma get_user_progress_stored w u r :
  progress_file w !! u = Some r →
  ProgressTracker.get_user_progress u w = (r, w).
Proof. intros Hr. bot_unfold. rewrite Hr. done. Qed.

Lemma get_user_progress_absent w u :
  progress_file w !! u = None →
  ProgressTracker.get_user_progress u w
  = (zero_record u (reading 0 w) (reading 1 w),
     with_progress
       (<[u := zero_record u (reading 0 w) (reading 1 w)]> (progress_file w))
       (tick 2 w)).
Proof. intros Hr. bot_unfold. rewrite Hr. done. Qed.

(** [get_user_progress] returns the record it leaves in the store. *)
Lemma get_user_progress_lookup w u r w1 :
  ProgressTracker.get_user_progress u w = (r, w1) →
  progress_file w1 !! u = Some r.
Proof.
  destruct (progress_file w !! u) as [r0|] eqn:Hr.
  - rewrite (get_user_progress_stored _ _ _ Hr). by intros [= <- <-].
  - rewrite (get_user_progress_absent _ _ Hr). intros [= <- <-].
    simpl. apply lookup_insert_eq.
Qed.

Lemma get_user_progress_satisfy (P : ProgressRecord → Prop) w u r w1 :
  (∀ c t, P (zero_record u c t)) →
  ProgressTracker.get_user_progress u w = (r, w1) →
  records_satisfy P w → records_satisfy P w1.
Proof.
  intros Hzero Hget Hw.
  destruct (progress_file w !! u) as [r0|] eqn:Hr.
  - rewrite (get_user_progress_stored _ _ _ Hr) in Hget.
    by injection Hget as <- <-.
  - rewrite (get_user_progress_absent _ _ Hr) in Hget.
    injection Hget as <- <-. intros u' r'. simpl.
    rewrite lookup_insert. case_decide.
    + intros [= <-]. apply Hzero.
    + apply Hw.
Qed.

Lemma update_progress_run w u topic action score :
  exec (ProgressTracker.update_progress u topic action score) w =
  let '(r, w1) := ProgressTracker.get_user_progress u w in
  with_progress
    (<[u := ProgressTracker.update_record (reading 0 w1) topic action score r]>
       (progress_file w1))
    (tick 1 w1).
Proof.
  unfold exec, ProgressTracker.update_progress.
  unfold mbind at 1, Bot_bind at 1.
  destruct (ProgressTracker.get_user_progress u w) as [r w1]. done.
Qed.

Lemma update_user_activity_run w u message :
  exec (ProgressTracker.update_user_activity u message) w =
  let '(r, w1) := ProgressTracker.get_user_progress u w in
  with_progress
    (<[u := set_updated_at (reading 2 w1)
              (set_last_activity (Some (reading 1 w1))
                 (ProgressTracker.track_activity
                    (date (wall_clock (clock_reads w1))) r))]>
       (progress_file w1))
    (tick 3 w1).
Proof.
  unfold exec, ProgressTracker.update_user_activity.
  unfold mbind at 1, Bot_bind at 1.
  destruct (ProgressTracker.get_user_progress u w) as [r w1]. done.
Qed.

Lemma reset_user_progress_run w u :
  exec (ProgressTracker.reset_user_progress u) w =
  with_progress
    (<[u := zero_record u (reading 0 w) (reading 1 w)]> (progress_file w))
    (tick 2 w).
Proof. done. Qed.

End RunFacts.

(** ** The data manager leaves the other files alone *)

Section Frames.
Context `{PyLibrary}.
Implicit Types (w : World) (u : Z) (c : Conversation).

(** The entry as [store_conversation] appends it: [c] itself, with the
    current time under [timestamp] when [c] has no such key. *)
Lemma add_timestamp_eval w c :
  eval (DataManager.add_timestamp c) w =
  match c !! "timestamp" with
  | None => <["timestamp" := JStr (reading 0 w)]> c
  | Some _ => c
  end.
Proof. bot_unfold. by destruct (c !! "timestamp"). Qed.

Lemma store_conversation_memories w u c :
  memories_file (exec (DataManager.store_conversation u c) w) =
  let user_memories :=
    default [] (memories_file w !! u) ++ [eval (DataManager.add_timestamp c) w] in
  <[u := if (50 <? length user_memories)%nat
         then Py.last_n 50 user_memories else user_memories]>
    (memories_file w).
Proof. bot_unfold. by destruct (c !! "timestamp"). Qed.

Lemma store_conversation_frame w u c :
  let w' := exec (DataManager.store_conversation u c) w in
  users_file w' = users_file w ∧ progress_file w' = progress_file w ∧
  group_memories_file w' = group_memories_file w.
Proof. bot_unfold. by destruct (c !! "timestamp"). Qed.

Lemma store_group_conversation_memories w u c :
  group_memories_file (exec (DataManager.store_group_conversation u c) w) =
  let group_memories :=
    default [] (group_memories_file w !! u)
    ++ [eval (DataManager.add_timestamp c) w] in
  <[u := if (100 <? length group_memories)%nat
         then Py.last_n 100 group_memories else group_memories]>
    (group_memories_file w).
Proof. bot_unfold. by destruct (c !! "timestamp"). Qed.

Lemma store_group_conversation_frame w u c :
  let w' := exec (DataManager.store_group_conversation u c) w in
  users_file w' = users_file w ∧ progress_file w' = progress_file w ∧
  memories_file w' = memories_file w.
Proof. bot_unfold. by destruct (c !! "timestamp"). Qed.

Lemma cleanup_old_data_frame w days_to_keep :
  let w' := exec (DataManager.cleanup_old_data days_to_keep) w in
  users_file w' = users_file w ∧ progress_file w' = progress_file w ∧
  group_memories_file w' = group_memories_file w.
Proof. bot_unfold. simpl. by destruct (float_sub_int _ _). Qed.

(** In a session the outcome of [cleanup_old_data] is dropped. *)
Lemma cleanup_call_exec w days_to_keep :
  exec (_ ← DataManager.cleanup_old_data days_to_keep; mret tt) w
  = exec (DataManager.cleanup_old_data days_to_keep) w.
Proof.
  unfold exec, mbind, Bot_bind, mret, Bot_ret.
  by destruct (DataManager.cleanup_old_data days_to_keep w).
Qed.

Lemma get_user_progress_frame w u :
  let w' := exec (ProgressTracker.get_user_progress u) w in
  users_file w' = users_file w ∧ memories_file w' = memories_file w ∧
  group_memories_file w' = group_memories_file w.
Proof.
  bot_unfold. by destruct (progress_file w !! u).
Qed.

End Frames.

(** ** Invariants of the stored progress records *)

Section Invariants.
Context `{PyLibrary}.
Implicit Types (w : World) (u : Z) (r : ProgressRecord).

(** A property of records that holds of the zero-value record and is
    preserved by the two record transformations holds of every stored
    record after any call.  [Q] restricts the calls considered. *)
Lemma run_call_satisfy (P : ProgressRecord → Prop) (Q : call → Prop) :
  (∀ u c t, P (zero_record u c t)) →
  (∀ u ct topic action score r,
     Q (UpdateProgress u topic action score) → P r →
     P (ProgressTracker.update_record ct topic action score r)) →
  (∀ d s1 s2 r,
     P r →
     P (set_updated_at s2
          (set_last_activity (Some s1) (ProgressTracker.track_activity d r)))) →
  ∀ c w, Q c → records_satisfy P w → records_satisfy P (exec (run_call c) w).
Proof.
  intros Hzero Hupd Hact c w Hc Hw.
  destruct c as [u topic action score|u message|u|u|u conv|u conv|days];
    unfold run_call.
  - rewrite update_progress_run.
    destruct (ProgressTracker.get_user_progress u w) as [r w1] eqn:Hget.
    pose proof (get_user_progress_lookup _ _ _ _ Hget) as Hr.
    pose proof (get_user_progress_satisfy P _ _ _ _ (Hzero u) Hget Hw) as Hw1.
    intros u' r'. simpl. rewrite lookup_insert. case_decide.
    + intros [= <-]. apply (Hupd u); [done|]. by eapply Hw1.
    + apply Hw1.
  - rewrite update_user_activity_run.
    destruct (ProgressTracker.get_user_progress u w) as [r w1] eqn:Hget.
    pose proof (get_user_progress_lookup _ _ _ _ Hget) as Hr.
    pose proof (get_user_progress_satisfy P _ _ _ _ (Hzero u) Hget Hw) as Hw1.
    intros u' r'. simpl. rewrite lookup_insert. case_decide.
    + intros [= <-]. apply Hact. by eapply Hw1.
    + apply Hw1.
  - rewrite reset_user_progress_run.
    intros u' r'. simpl. rewrite lookup_insert. case_decide.
    + intros [= <-]. apply Hzero.
    + apply Hw.
  - destruct (ProgressTracker.get_user_progress u w) as [r w1] eqn:Hget.
    pose proof (get_user_progress_satisfy P _ _ _ _ (Hzero u) Hget Hw) as Hw1.
    unfold exec, mbind, Bot_bind. rewrite Hget. done.
  - intros u' r'.
    destruct (store_conversation_frame w u conv) as (_ & -> & _). apply Hw.
  - intros u' r'.
    destruct (store_group_conversation_frame w u conv) as (_ & -> & _). apply Hw.
  - intros u' r'. rewrite cleanup_call_exec.
    destruct (cleanup_old_data_frame w days) as (_ & -> & _). apply Hw.
Qed.

Lemma run_calls_app cs1 cs2 w :
  exec (run_calls (cs1 ++ cs2)) w = exec (run_calls cs2) (exec (run_calls cs1) w).
Proof.
  revert w. induction cs1 as [|c cs1 IH]; intros w; [done|].
  simpl. unfold exec in *. unfold mbind, Bot_bind.
  destruct (run_call c w) as [[] w1]. apply IH.
Qed.

Lemma run_calls_cons c cs w :
  exec (run_calls (c :: cs)) w = exec (run_calls cs) (exec (run_call c) w).
Proof.
  simpl. unfold exec, mbind, Bot_bind. by destruct (run_call c w) as [[] w1].
Qed.

Lemma run_calls_satisfy (P : ProgressRecord → Prop) (Q : call → Prop) :
  (∀ u c t, P (zero_record u c t)) →
  (∀ u ct topic action score r,
     Q (UpdateProgress u topic action score) → P r →
     P (ProgressTracker.update_record ct topic action score r)) →
  (∀ d s1 s2 r,
     P r →
     P (set_updated_at s2
          (set_last_activity (Some s1) (ProgressTracker.track_activity d r)))) →
  ∀ cs w, Forall Q cs → records_satisfy P w →
    records_satisfy P (exec (run_calls cs) w).
Proof.
  intros Hzero Hupd Hact cs. induction cs as [|c cs IH]; intros w Hcs Hw.
  - done.
  - rewrite run_calls_cons. inversion Hcs as [|? ? Hc Hcs']; subst.
    apply IH; [done|]. by apply (run_call_satisfy P Q).
Qed.

Lemma initial_world_satisfy (P : ProgressRecord → Prop) :
  records_satisfy P initial_world.
Proof. intros u r. simpl. by rewrite lookup_empty. Qed.

End Invariants.

(** ** The record transformations, field by field *)

Section RecordFacts.
Context `{PyLibrary}.
Implicit Types (r : ProgressRecord) (topic action ct : string) (score : Z).

(** What [update_record] leaves of the record after the action. *)
Lemma update_record_fields ct topic action score r :
  let a := ProgressTracker.apply_action topic action score (set_updated_at ct r) in
  let r' := ProgressTracker.update_record ct topic action score r in
  overall_score r' = Z.min (overall_score a) 100 ∧
  completed_modules r' = completed_modules a ∧
  current_modules r' = current_modules a ∧
  quizzes_completed r' = quizzes_completed a ∧
  correct_answers r' = correct_answers a ∧
  total_questions r' = total_questions a ∧
  learning_streak r' = learning_streak a ∧
  days_active r' = days_active a ∧
  last_activity r' = last_activity a ∧
  updated_at r' = updated_at a.
Proof.
  intros a r'. subst r'. unfold ProgressTracker.update_record. fold a.
  destruct (negb (Py.list_in topic (recent_topics a)));
    simpl; case_match; simpl; done.
Qed.

(** What [apply_action] leaves untouched whatever the action. *)
Lemma apply_action_frame topic action score r :
  let a := ProgressTracker.apply_action topic action score r in
  learning_streak a = learning_streak r ∧ days_active a = days_active r ∧
  last_activity a = last_activity r ∧ updated_at a = updated_at r ∧
  recent_topics a = recent_topics r ∧ achievements a = achievements r ∧
  skill_levels a = skill_levels r ∧ user_id a = user_id r ∧
  created_at a = created_at r ∧ learning_goals a = learning_goals r.
Proof.
  unfold ProgressTracker.apply_action.
  repeat case_decide; repeat case_match; simpl; done.
Qed.


(** No action lowers the score. *)
Lemma apply_action_score topic action score r :
  overall_score r ≤
  overall_score (ProgressTracker.apply_action topic action score r).
Proof.
  unfold ProgressTracker.apply_action.
  repeat case_decide; repeat case_match; simpl; lia.
Qed.

(** No action removes a completed module: the list only grows at its end. *)
Lemma apply_action_completed topic action score r :
  ∃ new, completed_modules (ProgressTracker.apply_action topic action score r)
         = completed_modules r ++ new.
Proof.
  unfold ProgressTracker.apply_action.
  repeat case_decide; repeat case_match; simpl;
    first [ by exists [] ; rewrite app_nil_r | by eexists ].
Qed.

(** The activity tick changes only [days_active] and [learning_streak]. *)
Lemma track_activity_frame d r :
  let a := ProgressTracker.track_activity d r in
  overall_score a = overall_score r ∧
  completed_modules a = completed_modules r ∧
  current_modules a = current_modules r ∧
  quizzes_completed a = quizzes_completed r ∧
  correct_answers a = correct_answers r ∧
  total_questions a = total_questions r ∧
  skill_levels a = skill_levels r ∧
  achievements a = achievements r ∧
  recent_topics a = recent_topics r ∧
  last_activity a = last_activity r.
Proof.
  unfold ProgressTracker.track_activity.
  repeat case_decide; repeat case_match; simpl; done.
Qed.

End RecordFacts.

(** ** The model on a short session *)

(** Three completions give 30 points and the first two achievements; two
    crypto modules and one analysis module raise no skill level. *)
Example three_modules_completed :
  progress_file
    (exec (@run_calls (sample_library [0]) Example.three_modules) initial_world) !! 7
  = Some Example.record_three_modules.
Proof. vm_compute. reflexivity. Qed.

Example lower_and_substring `{PyLibrary} :
  lower "Crypto_BASICS" = "crypto_basics" ∧
  Py.str_in "crypto" "my_crypto_module" = true ∧
  Py.str_in "crypto" "crypt" = false ∧
  Py.remove 2 [1; 2; 3; 2] = [1; 3; 2] ∧
  Py.last_n 2 [1; 2; 3] = [2; 3] ∧ Py.last_n 5 [1; 2; 3] = [1; 2; 3].
Proof.
  split; [by rewrite lower_isascii|]. repeat split; reflexivity.
Qed.

(** ** The score stays within 0 and 100 *)

Lemma update_record_score_bounds `{PyLibrary} ct topic action score r :
  0 ≤ overall_score r →
  0 ≤ overall_score (ProgressTracker.update_record ct topic action score r) ≤ 100.
Proof.
  intros Hr.
  destruct (update_record_fields ct topic action score r) as (-> & _).
  pose proof (apply_action_score topic action score (set_updated_at ct r)) as Hle.
  simpl in Hle. lia.
Qed.

Lemma stored_score_bounded `{PyLibrary} (cs : list call) :
  records_satisfy (λ r, 0 ≤ overall_score r ≤ 100)
    (exec (run_calls cs) initial_world).
Proof.
  apply (run_calls_satisfy _ (λ _, True)).
  - intros u c t. simpl. lia.
  - intros u ct topic action score r _ [Hr _].
    by apply update_record_score_bounds.
  - intros d s1 s2 r Hr. simpl.
    by destruct (track_activity_frame d r) as (-> & _).
  - apply Forall_forall. done.
  - apply initial_world_satisfy.
Qed.

(** C1. After any finite sequence of calls on the fresh store -- in
    particular after each event of any sequence of [update_progress] events,
    whatever their topics, actions and scores -- every stored progress
    record has its [overall_score] between 0 and 100. *)
Theorem overall_score_bounded `{PyLibrary} (cs : list call) (u : Z)
    (r : ProgressRecord) :
  progress_file (exec (run_calls cs) initial_world) !! u = Some r →
  0 ≤ overall_score r ≤ 100.
Proof.
  intros Hr. pose proof (stored_score_bounded cs) as Hall.
  unfold records_satisfy in Hall. by apply (Hall u r).
Qed.

(** Twenty completions of ten points each leave the score at 100. *)
Lemma overall_score_bounded_witness :
  let H := sample_library [0] in
  let cs := replicate 20 (UpdateProgress 7 "crypto_basics" "completed" 0) in
  let r := mkProgress 7 100 ["crypto_basics"] [] 0 0 0 0 None 0
             ["First Steps"; "High Achiever"] ["crypto_basics"]
             {[ "crypto" := "advanced"; "stocks" := "advanced";
                "trading" := "advanced" ]} [] "T0" "T0" in
  progress_file (exec (run_calls cs) initial_world) !! 7 = Some r ∧
  0 ≤ overall_score r ≤ 100.
Proof.
  intros H cs r.
  assert (progress_file (exec (run_calls cs) initial_world) !! 7 = Some r) as Hr
    by (vm_compute; reflexivity).
  split; [exact Hr|]. exact (overall_score_bounded cs 7 r Hr).
Defined.

(** ** Skill levels *)

Section SkillFacts.
Context `{PyLibrary}.
Implicit Types (r : ProgressRecord) (m : gmap string string).

Lemma update_skill_lookup domain modules score inter adv si sa m :
  ProgressTracker.update_skill domain modules score inter adv si sa m !! domain =
  if (adv <=? Z.of_nat (length modules)) || (sa <=? score)
  then Some "advanced"
  else if (inter <=? Z.of_nat (length modules)) || (si <=? score)
       then Some "intermediate" else m !! domain.
Proof.
  unfold ProgressTracker.update_skill.
  repeat case_match; by simplify_map_eq.
Qed.

Lemma update_skill_lookup_ne domain d modules score inter adv si sa m :
  domain ≠ d →
  ProgressTracker.update_skill domain modules score inter adv si sa m !! d = m !! d.
Proof.
  intros Hne. unfold ProgressTracker.update_skill.
  repeat case_match; by simplify_map_eq.
Qed.

(** The level [_update_skill_levels] leaves for a domain: the highest tier
    the record qualifies for, the previous level when it qualifies for
    none. *)
Lemma update_skill_levels_lookup d r :
  d ∈ skill_domains →
  skill_levels (ProgressTracker._update_skill_levels r) !! d =
  if qualifies_advanced d r then Some "advanced"
  else if qualifies_intermediate d r then Some "intermediate"
       else skill_levels r !! d.
Proof.
  unfold skill_domains. rewrite !elem_of_cons, elem_of_nil.
  unfold ProgressTracker._update_skill_levels. simpl.
  unfold qualifies_advanced, qualifies_intermediate, domain_count,
    domain_module.
  intros [->|[->|[->|[]]]].
  - rewrite update_skill_lookup_ne by done.
    rewrite update_skill_lookup_ne by done.
    rewrite update_skill_lookup. repeat case_decide; first [done | congruence].
  - rewrite update_skill_lookup_ne by done.
    rewrite update_skill_lookup, update_skill_lookup_ne by done.
    repeat case_decide; first [done | congruence].
  - rewrite update_skill_lookup, !update_skill_lookup_ne by done.
    repeat case_decide; first [done | congruence].
Qed.

Lemma update_skill_levels_frame r :
  let r' := ProgressTracker._update_skill_levels r in
  overall_score r' = overall_score r ∧
  completed_modules r' = completed_modules r.
Proof. done. Qed.

End SkillFacts.

Section SkillRatchet.
Context `{PyLibrary}.
Implicit Types (r : ProgressRecord) (d ct topic action : string) (score : Z).

(** The tiers depend on the completed modules and the score only. *)
Lemma qualifies_advanced_ext d r1 r2 :
  completed_modules r1 = completed_modules r2 →
  overall_score r1 = overall_score r2 →
  qualifies_advanced d r1 = qualifies_advanced d r2.
Proof.
  intros Hc Hs. unfold qualifies_advanced, domain_count. by rewrite Hc, Hs.
Qed.

(** More completed modules and a score that is not lower (up to the cap of
    100) keep a record above the advanced threshold. *)
Lemma qualifies_advanced_mono d r1 r2 new s :
  completed_modules r2 = completed_modules r1 ++ new →
  overall_score r1 ≤ s → overall_score r2 = Z.min s 100 →
  qualifies_advanced d r1 = true → qualifies_advanced d r2 = true.
Proof.
  intros Hc Hs Hmin. unfold qualifies_advanced, domain_count.
  rewrite Hc, Hmin, List.filter_app, length_app, Nat2Z.inj_add.
  case_decide; rewrite !orb_true_iff, !Z.leb_le; lia.
Qed.

Lemma qualifies_intermediate_ext d r1 r2 :
  completed_modules r1 = completed_modules r2 →
  overall_score r1 = overall_score r2 →
  qualifies_intermediate d r1 = qualifies_intermediate d r2.
Proof.
  intros Hc Hs. unfold qualifies_intermediate, domain_count. by rewrite Hc, Hs.
Qed.

(** [update_record] leaves the skill levels to [_update_skill_levels]. *)
Lemma update_record_skill_input ct topic action score r :
  ∃ x, ProgressTracker.update_record ct topic action score r
       = ProgressTracker._update_skill_levels x
       ∧ skill_levels x = skill_levels r.
Proof.
  unfold ProgressTracker.update_record. eexists. split; [done|].
  destruct (apply_action_frame topic action score (set_updated_at ct r))
    as (_ & _ & _ & _ & _ & _ & Hskill & _).
  simpl in Hskill. revert Hskill.
  generalize (ProgressTracker.apply_action topic action score (set_updated_at ct r)).
  intros a Hskill.
  destruct (negb (Py.list_in topic (recent_topics a)));
    simpl; case_match; simpl; done.
Qed.

Lemma update_record_skill d ct topic action score r :
  d ∈ skill_domains →
  let r' := ProgressTracker.update_record ct topic action score r in
  skill_levels r' !! d =
  if qualifies_advanced d r' then Some "advanced"
  else if qualifies_intermediate d r' then Some "intermediate"
       else skill_levels r !! d.
Proof.
  intros Hd r'. subst r'.
  destruct (update_record_skill_input ct topic action score r) as (x & -> & <-).
  rewrite update_skill_levels_lookup by done.
  assert (qualifies_advanced d (ProgressTracker._update_skill_levels x)
          = qualifies_advanced d x) as -> by by apply qualifies_advanced_ext.
  by assert (qualifies_intermediate d (ProgressTracker._update_skill_levels x)
             = qualifies_intermediate d x) as ->
    by by apply qualifies_intermediate_ext.
Qed.

Lemma update_record_qualifies d ct topic action score r :
  qualifies_advanced d r = true →
  qualifies_advanced d (ProgressTracker.update_record ct topic action score r)
  = true.
Proof.
  destruct (update_record_fields ct topic action score r) as (Hs & Hc & _).
  destruct (apply_action_completed topic action score (set_updated_at ct r))
    as [new Hnew].
  pose proof (apply_action_score topic action score (set_updated_at ct r)) as Hle.
  by apply (qualifies_advanced_mono d r _ new
              (overall_score (ProgressTracker.apply_action topic action score
                                (set_updated_at ct r))));
    [rewrite Hc, Hnew| |].
Qed.

(** A backed advanced level survives [update_record]. *)
Lemma update_record_keeps_advanced d ct topic action score r :
  d ∈ skill_domains → qualifies_advanced d r = true →
  skill_levels (ProgressTracker.update_record ct topic action score r) !! d
  = Some "advanced".
Proof.
  intros Hd Hq. rewrite update_record_skill by done.
  by rewrite update_record_qualifies.
Qed.

(** [update_record] writes intermediate or advanced, or nothing. *)
Lemma update_record_not_beginner d ct topic action score r :
  d ∈ skill_domains → skill_levels r !! d = Some "advanced" →
  skill_levels (ProgressTracker.update_record ct topic action score r) !! d
  ≠ Some "beginner".
Proof.
  intros Hd Hr. rewrite update_record_skill by done.
  repeat case_match; congruence.
Qed.

Lemma update_record_backed ct topic action score r :
  advanced_backed r →
  advanced_backed (ProgressTracker.update_record ct topic action score r).
Proof.
  intros Hr d Hd. rewrite update_record_skill by done.
  destruct (qualifies_advanced d (ProgressTracker.update_record _ _ _ _ r))
    eqn:Hq; [done|].
  case_match; [done|]. intros Hadv.
  rewrite update_record_qualifies in Hq; [done|]. by apply Hr.
Qed.

Lemma activity_backed (day : Z) s1 s2 r :
  advanced_backed r →
  advanced_backed
    (set_updated_at s2
       (set_last_activity (Some s1) (ProgressTracker.track_activity day r))).
Proof.
  intros Hr dom Hdom. simpl.
  destruct (track_activity_frame day r) as (Hs & Hc & _ & _ & _ & _ & Hk & _).
  rewrite Hk. intros Hadv.
  rewrite <- (Hr dom Hdom Hadv). by apply qualifies_advanced_ext.
Qed.

(** Every record the bot stores has its advanced levels backed. *)
Lemma reachable_advanced_backed w :
  reachable w → records_satisfy advanced_backed w.
Proof.
  intros [cs ->]. apply (run_calls_satisfy _ (λ _, True)).
  - intros u c t d Hd. unfold skill_domains in Hd.
    rewrite !elem_of_cons, elem_of_nil in Hd.
    destruct Hd as [->|[->|[->|[]]]]; simpl; by simplify_map_eq.
  - intros u ct topic action score r _. apply update_record_backed.
  - intros. by apply activity_backed.
  - by apply Forall_forall.
  - apply initial_world_satisfy.
Qed.

End SkillRatchet.

Lemma update_progress_stored `{PyLibrary} w u topic action score r :
  progress_file w !! u = Some r →
  progress_file (exec (ProgressTracker.update_progress u topic action score) w) !! u
  = Some (ProgressTracker.update_record (reading 0 w) topic action score r).
Proof.
  intros Hr. rewrite update_progress_run, (get_user_progress_stored _ _ _ Hr).
  simpl. apply lookup_insert_eq.
Qed.

(** C2, as stated, fails: a stored record whose crypto level is advanced
    while its score is 60 and it has no completed module is lowered to
    intermediate by [update_progress]. *)
Lemma advanced_lowered_to_intermediate :
  progress_file Example.unbacked_world !! 7 = Some Example.unbacked_record ∧
  skill_levels Example.unbacked_record !! "crypto" = Some "advanced" ∧
  ∃ r',
    progress_file
      (exec (@ProgressTracker.update_progress (sample_library [0])
               7 "crypto_basics" "started" 0) Example.unbacked_world) !! 7
    = Some r' ∧
    skill_levels r' !! "crypto" = Some "intermediate".
Proof.
  split; [vm_compute; reflexivity|]. split; [vm_compute; reflexivity|].
  eexists. split.
  - apply (@update_progress_stored (sample_library [0])). vm_compute. reflexivity.
  - vm_compute. reflexivity.
Qed.

(** C2, amended.  For a stored record and a domain whose level is advanced:
    [update_progress] never leaves the level at beginner; it leaves it at
    intermediate exactly when the record after the event meets the
    intermediate threshold of the domain and not the advanced one, and at
    advanced otherwise; on a record the bot itself has produced (one stored
    in a reachable world) the level stays advanced; [update_user_activity]
    leaves the skill levels as they are; and [reset_user_progress] sets the
    level to beginner. *)
Theorem skill_level_ratchet `{PyLibrary} (w : World) (u : Z)
    (topic action : string) (score : Z) (r r' : ProgressRecord) (d : string) :
  progress_file w !! u = Some r →
  progress_file (exec (ProgressTracker.update_progress u topic action score) w) !! u
  = Some r' →
  d ∈ skill_domains →
  skill_levels r !! d = Some "advanced" →
  skill_levels r' !! d ≠ Some "beginner" ∧
  skill_levels r' !! d
  = Some (if negb (qualifies_advanced d r') && qualifies_intermediate d r'
          then "intermediate" else "advanced") ∧
  (reachable w → skill_levels r' !! d = Some "advanced") ∧
  (∀ message r'',
     progress_file (exec (ProgressTracker.update_user_activity u message) w) !! u
     = Some r'' →
     skill_levels r'' = skill_levels r) ∧
  (∀ r0,
     progress_file (exec (ProgressTracker.reset_user_progress u) w) !! u
     = Some r0 →
     skill_levels r0 !! d = Some "beginner").
Proof.
  intros Hr Hr' Hd Hadv.
  rewrite (update_progress_stored _ _ _ _ _ _ Hr) in Hr'.
  injection Hr' as <-. split_and!.
  - by apply update_record_not_beginner.
  - rewrite update_record_skill by done. rewrite Hadv.
    by destruct (qualifies_advanced d _), (qualifies_intermediate d _).
  - intros Hw. apply update_record_keeps_advanced; [done|].
    by apply (reachable_advanced_backed w Hw u r Hr).
  - intros message r''.
    rewrite update_user_activity_run, (get_user_progress_stored _ _ _ Hr).
    simpl. rewrite lookup_insert_eq. intros [= <-]. simpl.
    by destruct (track_activity_frame (date (wall_clock (clock_reads w))) r)
      as (_ & _ & _ & _ & _ & _ & -> & _).
  - intros r0. rewrite reset_user_progress_run. simpl.
    rewrite lookup_insert_eq. intros [= <-].
    unfold skill_domains in Hd. rewrite !elem_of_cons, elem_of_nil in Hd.
    destruct Hd as [->|[->|[->|[]]]]; simpl; by simplify_map_eq.
Qed.

Lemma skill_level_ratchet_witness :
  let H := sample_library [0] in
  let w := exec (run_calls Example.eight_completions) initial_world in
  progress_file w !! 7 = Some Example.record_80 ∧
  progress_file (exec (ProgressTracker.update_progress 7 "blockchain" "started" 0) w) !! 7
  = Some Example.record_80_started ∧
  "crypto" ∈ skill_domains ∧
  skill_levels Example.record_80 !! "crypto" = Some "advanced" ∧
  reachable w ∧
  skill_levels Example.record_80_started !! "crypto" ≠ Some "beginner" ∧
  skill_levels Example.record_80_started !! "crypto" = Some "advanced".
Proof.
  intros H w.
  assert (progress_file w !! 7 = Some Example.record_80) as Hr
    by (vm_compute; reflexivity).
  assert (progress_file (exec (ProgressTracker.update_progress 7 "blockchain" "started" 0) w) !! 7
          = Some Example.record_80_started) as Hr'
    by (vm_compute; reflexivity).
  assert ("crypto" ∈ skill_domains) as Hd by (apply elem_of_cons; left; reflexivity).
  assert (skill_levels Example.record_80 !! "crypto" = Some "advanced") as Hadv
    by (vm_compute; reflexivity).
  assert (reachable w) as Hw by (exists Example.eight_completions; reflexivity).
  pose proof (@skill_level_ratchet H w 7 "blockchain" "started" 0 Example.record_80 Example.record_80_started "crypto"
              Hr Hr' Hd Hadv) as (Hnb & _ & Hkeep & _).
  exact (conj Hr (conj Hr' (conj Hd (conj Hadv (conj Hw (conj Hnb (Hkeep Hw))))))).
Defined.

(** ** Quiz counters *)

Lemma apply_action_answers `{PyLibrary} topic action score r :
  (action = "quiz_completed" → score ≤ 1) →
  correct_answers r ≤ total_questions r →
  let a := ProgressTracker.apply_action topic action score r in
  correct_answers a ≤ total_questions a.
Proof.
  intros Hscore Hr. unfold ProgressTracker.apply_action.
  repeat case_decide; repeat case_match; simpl; try done; try lia.
  specialize (Hscore ltac:(assumption)). lia.
Qed.

(** C3.  The code breaks the claim.  A [quiz_completed] event adds its
    score to [correct_answers] and 1 to [total_questions]: one such event
    with score 5 on the fresh store leaves [correct_answers = 5] and
    [total_questions = 1], where the accuracy of [get_progress_summary] and
    the Perfect Score test of [_check_achievements] take the correct
    answers to be among the questions. *)
Lemma correct_answers_exceed_total :
  progress_file
    (exec (@run_calls (sample_library [0]) Example.quiz_of_five) initial_world) !! 7
  = Some Example.record_quiz_of_five ∧
  correct_answers Example.record_quiz_of_five = 5 ∧
  total_questions Example.record_quiz_of_five = 1 ∧
  ¬ (correct_answers Example.record_quiz_of_five
     ≤ total_questions Example.record_quiz_of_five).
Proof.
  split; [vm_compute; reflexivity|]. split; [reflexivity|].
  split; [reflexivity|]. simpl. lia.
Qed.

(** The counters agree as long as a quiz is one question: after any
    finite sequence of calls on the fresh store in which every
    [quiz_completed] event carries a score of at most 1, every stored
    record has [correct_answers ≤ total_questions]. *)
Theorem correct_answers_le_total `{PyLibrary} (cs : list call) (u : Z)
    (r : ProgressRecord) :
  Forall single_question cs →
  progress_file (exec (run_calls cs) initial_world) !! u = Some r →
  correct_answers r ≤ total_questions r.
Proof.
  intros Hcs. revert u r.
  change (records_satisfy (λ r, correct_answers r ≤ total_questions r)
            (exec (run_calls cs) initial_world)).
  apply (run_calls_satisfy _ single_question); [| | |done|].
  - intros u c t. simpl. lia.
  - intros u ct topic action score r Hq Hr.
    destruct (update_record_fields ct topic action score r)
      as (_ & _ & _ & _ & -> & -> & _).
    by apply apply_action_answers.
  - intros d s1 s2 r Hr. simpl.
    by destruct (track_activity_frame d r) as (_ & _ & _ & _ & -> & -> & _).
  - apply initial_world_satisfy.
Qed.

Lemma correct_answers_le_total_witness :
  let H := sample_library [0] in
  Forall single_question Example.two_questions ∧
  progress_file (exec (run_calls Example.two_questions) initial_world) !! 7
  = Some Example.record_two_questions ∧
  correct_answers Example.record_two_questions
  ≤ total_questions Example.record_two_questions.
Proof.
  intros H.
  assert (Forall single_question Example.two_questions) as Hcs.
  { repeat constructor; simpl; intros; lia. }
  assert (progress_file (exec (run_calls Example.two_questions) initial_world) !! 7
          = Some Example.record_two_questions) as Hr
    by (vm_compute; reflexivity).
  exact (conj Hcs (conj Hr
           (@correct_answers_le_total H Example.two_questions 7
              Example.record_two_questions Hcs Hr))).
Defined.

(** ** Started, then completed *)

Section Modules.
Context `{PyLibrary}.
Implicit Types (r : ProgressRecord) (ct topic action : string) (score : Z).

Lemma apply_action_current_NoDup topic action score r :
  NoDup (current_modules r) →
  NoDup (current_modules (ProgressTracker.apply_action topic action score r)).
Proof.
  intros Hr. unfold ProgressTracker.apply_action.
  repeat case_decide; simpl.
  - destruct (Py.list_in topic (current_modules r)) eqn:Hin; simpl; [done|].
    apply list_in_false in Hin. apply NoDup_app. split_and!; [done| |].
    + intros x Hx. rewrite list_elem_of_singleton. by intros ->.
    + apply NoDup_singleton.
  - destruct (negb (Py.list_in topic (completed_modules r))); simpl;
      (destruct (Py.list_in topic (current_modules r)); simpl;
       [by apply remove_NoDup | done]).
  - by case_match.
  - done.
Qed.

(** [completed] moves the topic, whether it was started or not. *)
Lemma apply_action_completed_moves topic score r :
  NoDup (current_modules r) →
  let a := ProgressTracker.apply_action topic "completed" score r in
  topic ∈ completed_modules a ∧ topic ∉ current_modules a.
Proof.
  intros Hr. unfold ProgressTracker.apply_action.
  rewrite decide_False, decide_True by done. simpl. split.
  - destruct (Py.list_in topic (completed_modules r)) eqn:Hin; simpl.
    + apply list_in_true in Hin.
      by destruct (Py.list_in topic (current_modules r)).
    + assert (topic ∈ completed_modules r ++ [topic]) as Hnew.
      { apply elem_of_app. right. by apply list_elem_of_singleton. }
      by destruct (Py.list_in topic (current_modules r)).
  - destruct (negb (Py.list_in topic (completed_modules r))); simpl;
      (destruct (Py.list_in topic (current_modules r)) eqn:Hin; simpl;
       [by apply remove_not_in | by apply list_in_false]).
Qed.

Lemma stored_current_NoDup (cs : list call) :
  records_satisfy (λ r, NoDup (current_modules r))
    (exec (run_calls cs) initial_world).
Proof.
  apply (run_calls_satisfy _ (λ _, True)).
  - intros u c t. simpl. apply NoDup_nil_2.
  - intros u ct topic action score r _ Hr.
    destruct (update_record_fields ct topic action score r) as (_ & _ & -> & _).
    by apply apply_action_current_NoDup.
  - intros d s1 s2 r Hr. simpl.
    by destruct (track_activity_frame d r) as (_ & _ & -> & _).
  - by apply Forall_forall.
  - apply initial_world_satisfy.
Qed.

(** The record [get_user_progress] returns satisfies what every stored
    record and the zero-value record satisfy. *)
Lemma get_user_progress_eval_satisfy (P : ProgressRecord → Prop) w u :
  (∀ c t, P (zero_record u c t)) → records_satisfy P w →
  P (eval (ProgressTracker.get_user_progress u) w).
Proof.
  intros Hzero Hw. unfold eval.
  destruct (ProgressTracker.get_user_progress u w) as [r w1] eqn:Hget.
  pose proof (get_user_progress_lookup _ _ _ _ Hget) as Hr.
  pose proof (get_user_progress_satisfy P _ _ _ _ Hzero Hget Hw) as Hw1.
  by apply (Hw1 u).
Qed.

(** The record [update_progress] stores: [update_record] applied to the
    record [get_user_progress] returned. *)
Lemma update_progress_lookup w u topic action score :
  progress_file (exec (ProgressTracker.update_progress u topic action score) w) !! u
  = Some (ProgressTracker.update_record
            (reading 0 (exec (ProgressTracker.get_user_progress u) w))
            topic action score
            (eval (ProgressTracker.get_user_progress u) w)).
Proof.
  rewrite update_progress_run. unfold eval, exec.
  destruct (ProgressTracker.get_user_progress u w) as [r w1].
  simpl. apply lookup_insert_eq.
Qed.

End Modules.

(** C7. Whatever calls came before, any number of [started] events on a
    topic followed by a [completed] event on that topic leave the topic in
    [completed_modules] and out of [current_modules]. *)
Theorem started_then_completed `{PyLibrary} (cs : list call) (u : Z)
    (topic : string) (scores : list Z) (score : Z) :
  ∃ r,
    progress_file
      (exec (run_calls (cs ++ map (UpdateProgress u topic "started") scores
                          ++ [UpdateProgress u topic "completed" score]))
         initial_world) !! u = Some r ∧
    topic ∈ completed_modules r ∧ topic ∉ current_modules r.
Proof.
  rewrite app_assoc, run_calls_app.
  set (cs1 := cs ++ map (UpdateProgress u topic "started") scores).
  pose proof (stored_current_NoDup cs1) as Hw1.
  set (w1 := exec (run_calls cs1) initial_world) in *.
  rewrite run_calls_cons. simpl run_calls. unfold run_call.
  change (exec (mret ()) ?w) with w.
  eexists. split; [apply update_progress_lookup|].
  destruct (update_record_fields
              (reading 0 (exec (ProgressTracker.get_user_progress u) w1))
              topic "completed" score
              (eval (ProgressTracker.get_user_progress u) w1))
    as (_ & -> & -> & _).
  apply apply_action_completed_moves. simpl.
  apply (get_user_progress_eval_satisfy (λ r, NoDup (current_modules r)));
    [|done].
  intros c t. simpl. apply NoDup_nil_2.
Qed.

(** ** The bookkeeping common to all actions *)


(** ** Activity days and streaks *)

Section Activity.
Context `{PyLibrary}.
Implicit Types (w : World) (u : Z) (r : ProgressRecord) (today d : Z).

(** The record [update_user_activity] stores. *)
Lemma update_user_activity_lookup w u message :
  let w1 := exec (ProgressTracker.get_user_progress u) w in
  progress_file (exec (ProgressTracker.update_user_activity u message) w) !! u
  = Some (set_updated_at (reading 2 w1)
            (set_last_activity (Some (reading 1 w1))
               (ProgressTracker.track_activity
                  (date (wall_clock (clock_reads w1)))
                  (eval (ProgressTracker.get_user_progress u) w)))).
Proof.
  rewrite update_user_activity_run. unfold eval, exec.
  destruct (ProgressTracker.get_user_progress u w) as [r w1].
  simpl. apply lookup_insert_eq.
Qed.

Lemma update_user_activity_clock w u message :
  clock_reads (exec (ProgressTracker.update_user_activity u message) w)
  = (3 + clock_reads (exec (ProgressTracker.get_user_progress u) w))%nat.
Proof.
  rewrite update_user_activity_run. unfold exec.
  by destruct (ProgressTracker.get_user_progress u w) as [r w1].
Qed.

Lemma get_user_progress_clock w u :
  (clock_reads w ≤ clock_reads (exec (ProgressTracker.get_user_progress u) w))%nat.
Proof.
  destruct (progress_file w !! u) as [r|] eqn:Hr; unfold exec.
  - by rewrite (get_user_progress_stored _ _ _ Hr).
  - rewrite (get_user_progress_absent _ _ Hr). simpl. lia.
Qed.

(** The four cases of the activity tracking. *)
Lemma track_activity_same_day today r :
  ProgressTracker.parse_last_activity r = Some today →
  ProgressTracker.track_activity today r = r.
Proof.
  intros Hp. unfold ProgressTracker.track_activity. rewrite Hp.
  by rewrite decide_False by (by intros []).
Qed.

Lemma track_activity_next_day today d r :
  ProgressTracker.parse_last_activity r = Some d → today = d + 1 →
  let a := ProgressTracker.track_activity today r in
  learning_streak a = learning_streak r + 1 ∧ days_active a = days_active r + 1.
Proof.
  intros Hp ->. unfold ProgressTracker.track_activity. rewrite Hp.
  rewrite decide_True by (intros [=]; lia).
  by rewrite decide_True by lia.
Qed.

Lemma track_activity_gap today d r :
  ProgressTracker.parse_last_activity r = Some d → d + 2 ≤ today →
  let a := ProgressTracker.track_activity today r in
  learning_streak a = 1 ∧ days_active a = days_active r + 1.
Proof.
  intros Hp Hgap. unfold ProgressTracker.track_activity. rewrite Hp.
  rewrite decide_True by (intros [=]; lia).
  rewrite decide_False by lia. by case_decide.
Qed.

Lemma track_activity_first today r :
  last_activity r = None →
  let a := ProgressTracker.track_activity today r in
  learning_streak a = 1 ∧ days_active a = days_active r + 1.
Proof.
  intros Hp. unfold ProgressTracker.track_activity,
    ProgressTracker.parse_last_activity. rewrite Hp.
  by rewrite decide_True by done.
Qed.

(** The date [update_user_activity] leaves in [last_activity] is read back
    by the next call. *)
Lemma parse_last_activity_isoformat (t : datetime) s r :
  ProgressTracker.parse_last_activity
    (set_updated_at s (set_last_activity (Some (isoformat t)) r))
  = Some (date t).
Proof.
  unfold ProgressTracker.parse_last_activity. simpl.
  rewrite decide_False by apply isoformat_nonempty.
  by rewrite fromisoformat_isoformat.
Qed.

End Activity.

(** C4.  For every stored record: (1) two calls of [update_user_activity]
    made on the same calendar date leave [days_active] and
    [learning_streak] as the first call left them; (2) a call on the day
    after the day of [last_activity] adds 1 to both; (3) a call two or more
    days after it sets the streak to 1 and adds 1 to [days_active]; (4) a
    call that finds no [last_activity] sets the streak to 1 and adds 1 to
    [days_active]. *)
Theorem update_user_activity_streak `{PyLibrary} (w : World) (u : Z)
    (message : string) :
  let w' := exec (ProgressTracker.update_user_activity u message) w in
  let r0 := eval (ProgressTracker.get_user_progress u) w in
  (∀ (message' : string) (today : Z),
     let w'' := exec (ProgressTracker.update_user_activity u message') w' in
     (∀ n, (clock_reads w ≤ n < clock_reads w'')%nat →
           date (wall_clock n) = today) →
     ∃ r1 r2,
       progress_file w' !! u = Some r1 ∧ progress_file w'' !! u = Some r2 ∧
       days_active r2 = days_active r1 ∧
       learning_streak r2 = learning_streak r1) ∧
  (∀ (r : ProgressRecord) (d : Z),
     progress_file w !! u = Some r →
     ProgressTracker.parse_last_activity r = Some d →
     date (wall_clock (clock_reads w)) = d + 1 →
     ∃ r', progress_file w' !! u = Some r' ∧
           learning_streak r' = learning_streak r + 1 ∧
           days_active r' = days_active r + 1) ∧
  (∀ (r : ProgressRecord) (d : Z),
     progress_file w !! u = Some r →
     ProgressTracker.parse_last_activity r = Some d →
     d + 2 ≤ date (wall_clock (clock_reads w)) →
     ∃ r', progress_file w' !! u = Some r' ∧
           learning_streak r' = 1 ∧
           days_active r' = days_active r + 1) ∧
  (last_activity r0 = None →
     ∃ r', progress_file w' !! u = Some r' ∧
           learning_streak r' = 1 ∧
           days_active r' = days_active r0 + 1).
Proof.
  intros w' r0. pose proof (update_user_activity_lookup w u message) as Hr1.
  simpl in Hr1. fold w' in Hr1. fold r0 in Hr1.
  set (w1 := exec (ProgressTracker.get_user_progress u) w) in *.
  split; [|split; [|split]].
  - intros message' today w'' Hday.
    pose proof (update_user_activity_lookup w' u message') as Hr2.
    simpl in Hr2. fold w'' in Hr2.
    pose proof (get_user_progress_stored _ _ _ Hr1) as Hget.
    assert (clock_reads w' = (3 + clock_reads w1)%nat) as Hc'
      by apply update_user_activity_clock.
    assert (clock_reads w'' = (3 + clock_reads w')%nat) as Hc''.
    { unfold w''. rewrite update_user_activity_clock.
      unfold exec. by rewrite Hget. }
    pose proof (get_user_progress_clock w u) as Hc1. fold w1 in Hc1.
    unfold eval, exec in Hr2. rewrite Hget in Hr2. simpl in Hr2.
    eexists _, _. split; [exact Hr1|]. split; [exact Hr2|].
    rewrite (track_activity_same_day (date (wall_clock (clock_reads w')))).
    + done.
    + unfold reading. rewrite parse_last_activity_isoformat. f_equal.
      rewrite (Hday (1 + clock_reads w1)%nat) by lia.
      by rewrite (Hday (clock_reads w')) by lia.
  - intros r d Hr Hp Hd.
    pose proof (get_user_progress_stored _ _ _ Hr) as Hget.
    assert (r0 = r) as -> by (unfold r0, eval; by rewrite Hget).
    assert (w1 = w) as Hw1 by (unfold w1, exec; by rewrite Hget).
    rewrite Hw1 in Hr1. eexists. split; [exact Hr1|]. simpl.
    by apply (track_activity_next_day _ d).
  - intros r d Hr Hp Hd.
    pose proof (get_user_progress_stored _ _ _ Hr) as Hget.
    assert (r0 = r) as -> by (unfold r0, eval; by rewrite Hget).
    assert (w1 = w) as Hw1 by (unfold w1, exec; by rewrite Hget).
    rewrite Hw1 in Hr1. eexists. split; [exact Hr1|]. simpl.
    by apply (track_activity_gap _ d).
  - intros Hnone. eexists. split; [exact Hr1|]. simpl.
    by apply track_activity_first.
Qed.

Lemma update_user_activity_streak_witness :
  (let H := sample_library Example.same_day in
   ∃ r1 r2,
     progress_file
       (exec (ProgressTracker.update_user_activity 7 "hi") initial_world) !! 7
     = Some r1 ∧
     progress_file
       (exec (ProgressTracker.update_user_activity 7 "again")
          (exec (ProgressTracker.update_user_activity 7 "hi") initial_world)) !! 7
     = Some r2 ∧
     days_active r2 = days_active r1 ∧
     learning_streak r2 = learning_streak r1) ∧
  (let H := sample_library Example.next_day in
   ∃ r',
     progress_file
       (exec (ProgressTracker.update_user_activity 7 "hi") Example.active_world) !! 7
     = Some r' ∧
     learning_streak r' = 4 ∧ days_active r' = 5) ∧
  (let H := sample_library Example.three_days_later in
   ∃ r',
     progress_file
       (exec (ProgressTracker.update_user_activity 7 "hi") Example.active_world) !! 7
     = Some r' ∧
     learning_streak r' = 1 ∧ days_active r' = 5) ∧
  (let H := sample_library Example.same_day in
   ∃ r',
     progress_file
       (exec (ProgressTracker.update_user_activity 7 "hi") initial_world) !! 7
     = Some r' ∧
     learning_streak r' = 1 ∧ days_active r' = 1).
Proof.
  split; [|split; [|split]].
  - intros H.
    pose proof (@update_user_activity_streak H initial_world 7 "hi") as Hthm.
    cbv zeta in Hthm. destruct Hthm as (Hsame & _).
    apply (Hsame "again" 719163).
    intros n _. destruct n; reflexivity.
  - intros H.
    pose proof (@update_user_activity_streak H Example.active_world 7 "hi") as Hthm.
    cbv zeta in Hthm. destruct Hthm as (_ & Hnext & _).
    assert (progress_file Example.active_world !! 7 = Some Example.active_record)
      as Hr by (vm_compute; reflexivity).
    assert (ProgressTracker.parse_last_activity Example.active_record = Some 719163)
      as Hp by (vm_compute; reflexivity).
    assert (date (wall_clock (clock_reads Example.active_world)) = 719163 + 1)
      as Hd by (vm_compute; reflexivity).
    destruct (Hnext Example.active_record 719163 Hr Hp Hd) as (r' & Hr' & Hs & Hda).
    exists r'. split; [exact Hr'|]. split; [rewrite Hs | rewrite Hda]; reflexivity.
  - intros H.
    pose proof (@update_user_activity_streak H Example.active_world 7 "hi") as Hthm.
    cbv zeta in Hthm. destruct Hthm as (_ & _ & Hgap & _).
    assert (progress_file Example.active_world !! 7 = Some Example.active_record)
      as Hr by (vm_compute; reflexivity).
    assert (ProgressTracker.parse_last_activity Example.active_record = Some 719163)
      as Hp by (vm_compute; reflexivity).
    assert (719163 + 2 ≤ date (wall_clock (clock_reads Example.active_world)))
      as Hd by (vm_compute; discriminate).
    destruct (Hgap Example.active_record 719163 Hr Hp Hd) as (r' & Hr' & Hs & Hda).
    exists r'. split; [exact Hr'|]. split; [exact Hs | rewrite Hda; reflexivity].
  - intros H.
    pose proof (@update_user_activity_streak H initial_world 7 "hi") as Hthm.
    cbv zeta in Hthm. destruct Hthm as (_ & _ & _ & Hfirst).
    assert (last_activity (eval (ProgressTracker.get_user_progress 7) initial_world)
            = None) as Hnone by (vm_compute; reflexivity).
    destruct (Hfirst Hnone) as (r' & Hr' & Hs & Hda).
    exists r'. split; [exact Hr'|]. split; [exact Hs | rewrite Hda; reflexivity].
Defined.

(** ** Bounded ledgers *)

(** C5.  Whatever the stored ledger, after [store_conversation] the user's
    ledger has at most 50 entries and is the end of the old ledger followed
    by the new entry; on a ledger of exactly 50 entries the result has 50
    entries: the old ones in order without the oldest, then the new entry.
    [store_group_conversation] does the same with 100. *)
Theorem ledgers_capped `{PyLibrary} (w : World) (key : Z)
    (conversation_data : Conversation) :
  let entry := eval (DataManager.add_timestamp conversation_data) w in
  let user_old := default [] (memories_file w !! key) in
  let group_old := default [] (group_memories_file w !! key) in
  (∃ l, memories_file (exec (DataManager.store_conversation key conversation_data) w)
          !! key = Some l ∧
        (length l ≤ 50)%nat ∧
        l `suffix_of` user_old ++ [entry] ∧
        ((length user_old < 50)%nat → l = user_old ++ [entry]) ∧
        (length user_old = 50%nat →
           length l = 50%nat ∧ l = drop 1 user_old ++ [entry])) ∧
  (∃ l, group_memories_file
          (exec (DataManager.store_group_conversation key conversation_data) w)
          !! key = Some l ∧
        (length l ≤ 100)%nat ∧
        l `suffix_of` group_old ++ [entry] ∧
        ((length group_old < 100)%nat → l = group_old ++ [entry]) ∧
        (length group_old = 100%nat →
           length l = 100%nat ∧ l = drop 1 group_old ++ [entry])).
Proof.
  intros entry user_old group_old. split.
  - rewrite store_conversation_memories. cbv zeta.
    fold entry. fold user_old. rewrite lookup_insert_eq.
    eexists. split; [done|].
    destruct (50 <? length (user_old ++ [entry]))%nat eqn:Hlen.
    + apply Nat.ltb_lt in Hlen. rewrite length_app in Hlen. simpl in Hlen.
      split; [rewrite last_n_length; lia|].
      split; [apply last_n_suffix|]. split; [lia|]. intros H50.
      rewrite (last_n_snoc_full 50) by (done || lia).
      split; [|done]. rewrite length_app, length_drop. simpl. lia.
    + apply Nat.ltb_ge in Hlen. split; [done|]. split; [done|].
      split; [done|]. rewrite length_app in Hlen. simpl in Hlen. lia.
  - rewrite store_group_conversation_memories. cbv zeta.
    fold entry. fold group_old. rewrite lookup_insert_eq.
    eexists. split; [done|].
    destruct (100 <? length (group_old ++ [entry]))%nat eqn:Hlen.
    + apply Nat.ltb_lt in Hlen. rewrite length_app in Hlen. simpl in Hlen.
      split; [rewrite last_n_length; lia|].
      split; [apply last_n_suffix|]. split; [lia|]. intros H100.
      rewrite (last_n_snoc_full 100) by (done || lia).
      split; [|done]. rewrite length_app, length_drop. simpl. lia.
    + apply Nat.ltb_ge in Hlen. split; [done|]. split; [done|].
      split; [done|]. rewrite length_app in Hlen. simpl in Hlen. lia.
Qed.

Lemma ledgers_capped_witness :
  let H := sample_library [0] in
  length (default [] (memories_file Example.full_world !! 7)) = 50%nat ∧
  length (default [] (group_memories_file Example.full_group_world !! (-100)))
  = 100%nat ∧
  (∃ l, memories_file
          (exec (DataManager.store_conversation 7 (Example.turn 51))
             Example.full_world) !! 7 = Some l ∧
        length l = 50%nat ∧ l = Example.turns 2 50) ∧
  (∃ l, group_memories_file
          (exec (DataManager.store_group_conversation (-100) (Example.turn 101))
             Example.full_group_world) !! (-100) = Some l ∧
        length l = 100%nat ∧ l = Example.turns 2 100).
Proof.
  intros H.
  assert (default [] (memories_file Example.full_world !! 7) = Example.turns 1 50)
    as Hu_old.
  { unfold Example.full_world. cbn [memories_file].
    by rewrite lookup_singleton_eq. }
  assert (default [] (group_memories_file Example.full_group_world !! (-100))
          = Example.turns 1 100) as Hg_old.
  { unfold Example.full_group_world. cbn [group_memories_file].
    by rewrite lookup_singleton_eq. }
  assert (length (default [] (memories_file Example.full_world !! 7)) = 50%nat)
    as Hu by (rewrite Hu_old; reflexivity).
  assert (length (default [] (group_memories_file Example.full_group_world !! (-100)))
          = 100%nat) as Hg by (rewrite Hg_old; reflexivity).
  assert (∀ n w, eval (DataManager.add_timestamp (Example.turn n)) w
                 = Example.turn n) as Hstamped.
  { intros n w. rewrite add_timestamp_eval. unfold Example.turn.
    by rewrite lookup_insert_ne, lookup_singleton_eq. }
  split; [exact Hu|]. split; [exact Hg|]. split.
  - pose proof (@ledgers_capped H Example.full_world 7 (Example.turn 51)) as Hthm.
    cbv zeta in Hthm. destruct Hthm as ((l & Hl & _ & _ & _ & Hfull) & _).
    destruct (Hfull Hu) as [Hlen Heq].
    exists l. split; [exact Hl|]. split; [exact Hlen|].
    rewrite Heq, Hu_old, Hstamped. reflexivity.
  - pose proof (@ledgers_capped H Example.full_group_world (-100)
                  (Example.turn 101)) as Hthm.
    cbv zeta in Hthm. destruct Hthm as (_ & (l & Hl & _ & _ & _ & Hfull)).
    destruct (Hfull Hg) as [Hlen Heq].
    exists l. split; [exact Hl|]. split; [exact Hlen|].
    rewrite Heq, Hg_old, Hstamped. reflexivity.
Defined.

(** ** The memories handed to the prompt *)

(** C6.  In a group or supergroup chat the context is the whole group
    ledger followed by the last five entries of the user's ledger (all of
    them when there are fewer), in ledger order; in a private chat it is
    the user's ledger as stored.  Building it changes nothing. *)
Theorem group_context_order `{PyLibrary} (w : World) (chat_type : string)
    (chat_id user_id : Z) :
  let G := default [] (group_memories_file w !! chat_id) in
  let U := default [] (memories_file w !! user_id) in
  let context := eval (Main.all_memories chat_type chat_id user_id) w in
  exec (Main.all_memories chat_type chat_id user_id) w = w ∧
  (chat_type = "group" ∨ chat_type = "supergroup" →
     context = G ++ Py.last_n 5 U ∧
     Py.last_n 5 U = drop (length U - 5) U ∧
     length (Py.last_n 5 U) = Nat.min 5 (length U) ∧
     (length (Py.last_n 5 U) ≤ 5)%nat) ∧
  (chat_type = "private" → context = U).
Proof.
  intros G U context. subst context. unfold Main.all_memories.
  split; [|split].
  - by case_match.
  - intros Hgroup.
    assert (Py.list_in chat_type ["group"; "supergroup"] = true) as ->.
    { apply list_in_true. rewrite !elem_of_cons. tauto. }
    split; [done|]. split; [done|].
    rewrite last_n_length. split; lia.
  - intros ->.
    assert (Py.list_in "private" ["group"; "supergroup"] = false) as ->; [|done].
    apply list_in_false. rewrite !not_elem_of_cons.
    repeat split; try discriminate. apply not_elem_of_nil.
Qed.

Lemma group_context_order_witness :
  let H := sample_library [0] in
  eval (Main.all_memories "supergroup" (-100) 7) Example.chat_world
  = Example.turns 101 2 ++ Example.turns 3 5 ∧
  eval (Main.all_memories "private" (-100) 7) Example.chat_world
  = Example.turns 1 7.
Proof.
  intros H.
  pose proof (@group_context_order H Example.chat_world "supergroup" (-100) 7)
    as Hgroup.
  pose proof (@group_context_order H Example.chat_world "private" (-100) 7)
    as Hprivate.
  cbv zeta in Hgroup, Hprivate.
  destruct Hgroup as (_ & Hgroup & _). destruct Hprivate as (_ & _ & Hprivate).
  destruct (Hgroup (or_intror eq_refl)) as (-> & _).
  rewrite (Hprivate eq_refl).
  unfold Example.chat_world. cbn [group_memories_file memories_file].
  rewrite !lookup_singleton_eq. cbn [default].
  split; reflexivity.
Defined.

(** ** Reset *)

(** C9.  [reset_user_progress] stores for the user the record
    [_initialize_user_progress] builds -- score 0, no achievements, no
    modules, every skill at beginner -- and changes neither the
    conversation memories, nor the group memories, nor the user records, nor
    the progress of any other user. *)
Theorem reset_user_progress_frame `{PyLibrary} (w : World) (u : Z) :
  let w' := exec (ProgressTracker.reset_user_progress u) w in
  let fresh := eval (ProgressTracker._initialize_user_progress u) w in
  progress_file w' !! u = Some fresh ∧
  overall_score fresh = 0 ∧ achievements fresh = [] ∧
  completed_modules fresh = [] ∧ current_modules fresh = [] ∧
  quizzes_completed fresh = 0 ∧ correct_answers fresh = 0 ∧
  total_questions fresh = 0 ∧ learning_streak fresh = 0 ∧
  days_active fresh = 0 ∧ last_activity fresh = None ∧
  recent_topics fresh = [] ∧
  (∀ d, d ∈ skill_domains → skill_levels fresh !! d = Some "beginner") ∧
  memories_file w' = memories_file w ∧
  group_memories_file w' = group_memories_file w ∧
  users_file w' = users_file w ∧
  (∀ u', u' ≠ u → progress_file w' !! u' = progress_file w !! u').
Proof.
  intros w' fresh. subst w' fresh. rewrite reset_user_progress_run.
  unfold eval. simpl.
  split; [apply lookup_insert_eq|]. repeat (split; [done|]).
  split.
  - intros d. unfold skill_domains. rewrite !elem_of_cons, elem_of_nil.
    intros [->|[->|[->|[]]]]; by simplify_map_eq.
  - repeat (split; [done|]). intros u' Hne. by rewrite lookup_insert_ne.
Qed.

(** ** Purging old conversations *)

Section Cleanup.
Context `{PyLibrary}.
Implicit Types (w : World) (l acc : list Conversation) (c : Conversation).

(** The inner loop keeps, in order, the entries that pass [retained]. *)
Lemma cleanup_step_fold cutoff_date l acc :
  fold_left (DataManager.cleanup_step cutoff_date) l acc
  = acc ++ List.filter (retained cutoff_date) l.
Proof.
  revert acc. induction l as [|c l IH]; intros acc; simpl.
  - by rewrite app_nil_r.
  - rewrite IH. unfold DataManager.cleanup_step, retained.
    destruct (DataManager.conv_timestamp c) as [ts|]; simpl.
    + destruct (Qle_bool ts cutoff_date); simpl; [done|].
      by rewrite <- app_assoc.
    + by rewrite <- app_assoc.
Qed.

(** The outer loop rebuilds the dictionary key by key; the call ends before
    it when the cutoff cannot be computed. *)
Lemma cleanup_old_data_run w days_to_keep :
  DataManager.cleanup_old_data days_to_keep w =
  match float_sub_int (timestamp (wall_clock (clock_reads w)))
          (days_to_keep * 24 * 60 * 60) with
  | Some cutoff_date =>
      (Some tt,
       mkWorld (users_file w)
         (List.filter (retained cutoff_date) <$> memories_file w)
         (progress_file w) (group_memories_file w) (S (clock_reads w)))
  | None => (None, tick 1 w)
  end.
Proof.
  unfold DataManager.cleanup_old_data, now, mbind, Bot_bind, mret, Bot_ret.
  cbn [timestamp clock_reads].
  destruct (float_sub_int _ _) as [cutoff_date|]; [|done].
  unfold DataManager.get_memories_data, DataManager.save_memories_data.
  cbn [users_file memories_file progress_file group_memories_file clock_reads].
  do 2 f_equal.
  apply (map_fold_weak_ind (λ cleaned (m : gmap Z (list Conversation)),
           cleaned = List.filter _ <$> m)).
  - by rewrite fmap_empty.
  - intros u l m cleaned Hu ->. rewrite fmap_insert. f_equal.
    by rewrite cleanup_step_fold.
Qed.

Lemma cleanup_old_data_memories w days_to_keep :
  memories_file (exec (DataManager.cleanup_old_data days_to_keep) w)
  = match float_sub_int (timestamp (wall_clock (clock_reads w)))
            (days_to_keep * 24 * 60 * 60) with
    | Some cutoff_date => List.filter (retained cutoff_date) <$> memories_file w
    | None => memories_file w
    end.
Proof.
  unfold exec. rewrite cleanup_old_data_run.
  by destruct (float_sub_int _ _).
Qed.

Lemma retained_spec cutoff_date c :
  retained cutoff_date c = true ↔
  DataManager.conv_timestamp c = None ∨
  ∃ ts, DataManager.conv_timestamp c = Some ts ∧ (cutoff_date < ts)%Q.
Proof.
  unfold retained. destruct (DataManager.conv_timestamp c) as [ts|].
  - rewrite negb_true_iff. split.
    + intros Hle. right. exists ts. split; [done|].
      apply Qnot_le_lt. intros Hts. apply Qle_bool_iff in Hts. congruence.
    + intros [[=]|(ts' & [= <-] & Hlt)].
      destruct (Qle_bool ts cutoff_date) eqn:Hle; [|done].
      apply Qle_bool_iff in Hle. by apply Qlt_not_le in Hlt.
  - split; [by left | done].
Qed.

End Cleanup.

(** C8, as stated, fails on two counts.  The group ledgers are never
    purged: at day 45 a purge of 30 days leaves in a group ledger an entry
    of day 0, older than the cutoff of day 15.  And not every cutoff age
    gives a cutoff: for [2 ^ 1024] days the subtraction raises, the call
    fails and the user ledger keeps its old entry. *)
Lemma old_entries_survive_cleanup :
  let H := sample_library Example.day_45 in
  float_sub_int (timestamp (wall_clock 0)) (30 * 24 * 60 * 60)
  = Some (inject_Z (15 * 86400)) ∧
  DataManager.conv_timestamp Example.old_turn = Some (inject_Z 0) ∧
  group_memories_file
    (exec (DataManager.cleanup_old_data 30) Example.old_group_world) !! (-100)
  = Some [Example.old_turn] ∧
  eval (DataManager.cleanup_old_data (2 ^ 1024)) Example.mixed_world = None ∧
  memories_file
    (exec (DataManager.cleanup_old_data (2 ^ 1024)) Example.mixed_world) !! 7
  = Some Example.mixed_ledger.
Proof.
  intros H. split_and!.
  - vm_compute. reflexivity.
  - vm_compute. reflexivity.
  - destruct (@cleanup_old_data_frame H Example.old_group_world 30)
      as (_ & _ & ->).
    apply lookup_singleton_eq.
  - unfold eval. rewrite (@cleanup_old_data_run H).
    by rewrite float_sub_int_overflow by (vm_compute; discriminate).
  - rewrite (@cleanup_old_data_memories H).
    rewrite float_sub_int_overflow by (vm_compute; discriminate).
    apply lookup_singleton_eq.
Qed.

(** C8, amended.  When the subtraction gives a cutoff, [cleanup_old_data]
    returns and replaces every user ledger of the memories file by the
    list, in the same order, of its entries whose timestamp parses to a
    time later than the cutoff together with its entries that have no
    timestamp, a timestamp that is not a string or a timestamp that does
    not parse: these are always kept and never make the call fail.  When
    the subtraction raises, as it does once the seconds to keep reach
    [2 ^ 1024], the call raises and the memories stay as they are.  The
    group ledgers are never purged. *)
Theorem cleanup_old_data_retains `{PyLibrary} (w : World) (days_to_keep : Z) :
  let w' := exec (DataManager.cleanup_old_data days_to_keep) w in
  let outcome := eval (DataManager.cleanup_old_data days_to_keep) w in
  match float_sub_int (timestamp (wall_clock (clock_reads w)))
          (days_to_keep * 24 * 60 * 60) with
  | Some cutoff_date =>
      outcome = Some tt ∧
      ∀ u l, memories_file w !! u = Some l →
        ∃ l',
          memories_file w' !! u = Some l' ∧
          l' = List.filter (retained cutoff_date) l ∧
          (∀ c, c ∈ l' ↔
                c ∈ l ∧
                (DataManager.conv_timestamp c = None ∨
                 ∃ ts, DataManager.conv_timestamp c = Some ts
                       ∧ (cutoff_date < ts)%Q)) ∧
          (∀ c, c ∈ l → DataManager.conv_timestamp c = None → c ∈ l')
  | None => outcome = None ∧ memories_file w' = memories_file w
  end ∧
  (2 ^ 1024 ≤ Z.abs (days_to_keep * 24 * 60 * 60) → outcome = None) ∧
  group_memories_file w' = group_memories_file w.
Proof.
  intros w' outcome. split_and!.
  - subst w' outcome. unfold eval. rewrite cleanup_old_data_memories.
    rewrite cleanup_old_data_run.
    destruct (float_sub_int _ _) as [cutoff_date|]; [|done].
    split; [done|]. intros u l Hl.
    eexists. split; [|split; [reflexivity|]].
    + by rewrite lookup_fmap, Hl.
    + assert (∀ c, c ∈ List.filter (retained cutoff_date) l ↔
                   c ∈ l ∧ retained cutoff_date c = true) as Hfilter.
      { intros c. rewrite !list_elem_of_In. apply List.filter_In. }
      split.
      * intros c. by rewrite Hfilter, retained_spec.
      * intros c Hc Hnone. apply Hfilter. split; [done|].
        apply retained_spec. by left.
  - intros Hlarge. subst outcome. unfold eval. rewrite cleanup_old_data_run.
    by rewrite float_sub_int_overflow.
  - by destruct (cleanup_old_data_frame w days_to_keep) as (_ & _ & ?).
Qed.

Lemma cleanup_old_data_retains_witness :
  let H := sample_library Example.day_45 in
  eval (DataManager.cleanup_old_data 30) Example.mixed_world = Some tt ∧
  memories_file (exec (DataManager.cleanup_old_data 30) Example.mixed_world) !! 7
  = Some [Example.recent_turn; Example.unstamped; Example.garbled;
          Example.numbered].
Proof.
  intros H.
  assert (memories_file Example.mixed_world !! 7 = Some Example.mixed_ledger)
    as Hl by apply lookup_singleton_eq.
  pose proof (@cleanup_old_data_retains H Example.mixed_world 30) as Hpurge.
  cbv zeta in Hpurge. destruct Hpurge as (Hpurge & _).
  assert (float_sub_int (timestamp (wall_clock (clock_reads Example.mixed_world)))
            (30 * 24 * 60 * 60) = Some (inject_Z (15 * 86400))) as Hcutoff
    by (vm_compute; reflexivity).
  rewrite Hcutoff in Hpurge. destruct Hpurge as (Hreturns & Hpurge).
  split; [exact Hreturns|].
  destruct (Hpurge 7 Example.mixed_ledger Hl) as (l' & Hl' & -> & _).
  rewrite Hl'. apply (f_equal Some).
  unfold Example.mixed_ledger. cbn [List.filter].
  set (cutoff_date := inject_Z _).
  assert (retained cutoff_date Example.old_turn = false) as ->
    by (vm_compute; reflexivity).
  assert (retained cutoff_date Example.recent_turn = true) as ->
    by (vm_compute; reflexivity).
  assert (retained cutoff_date Example.unstamped = true) as ->
    by (vm_compute; reflexivity).
  assert (retained cutoff_date Example.garbled = true) as ->
    by (vm_compute; reflexivity).
  assert (retained cutoff_date Example.numbered = true) as ->
    by (vm_compute; reflexivity).
  reflexivity.
Defined.

(** * Further properties of the progress tracker *)

Section Achievements.
Context `{PyLibrary}.
Implicit Types (r : ProgressRecord) (l : list string) (x n : string).

Lemma award_elem (cond : bool) n l x :
  x ∈ ProgressTracker.award cond n l ↔ x ∈ l ∨ (cond = true ∧ x = n).
Proof.
  unfold ProgressTracker.award.
  destruct cond; simpl; [|by intuition].
  destruct (Py.list_in n l) eqn:Hin; simpl.
  - apply list_in_true in Hin. split; [by left|]. by intros [?|[_ ->]].
  - rewrite elem_of_app, list_elem_of_singleton. by intuition.
Qed.

Lemma award_prefix (cond : bool) n l : l `prefix_of` ProgressTracker.award cond n l.
Proof.
  unfold ProgressTracker.award.
  destruct (cond && negb (Py.list_in n l)); [by apply prefix_app_r|done].
Qed.

Lemma award_NoDup (cond : bool) n l :
  NoDup l → NoDup (ProgressTracker.award cond n l).
Proof.
  intros Hl. unfold ProgressTracker.award.
  destruct cond; simpl; [|done].
  destruct (Py.list_in n l) eqn:Hin; simpl; [done|].
  apply list_in_false in Hin. apply NoDup_app. split_and!; [done| |].
  - intros y Hy. rewrite list_elem_of_singleton. by intros ->.
  - apply NoDup_singleton.
Qed.

(** Who is on the list after [_check_achievements]: who was, and who has
    reached a threshold. *)
Lemma check_achievements_elem x r :
  x ∈ achievements (ProgressTracker._check_achievements r) ↔
  x ∈ achievements r
  ∨ (x = "First Steps" ∧ 1 ≤ Z.of_nat (length (completed_modules r)))
  ∨ (x = "Knowledge Seeker" ∧ 3 ≤ Z.of_nat (length (completed_modules r)))
  ∨ (x = "Quiz Master" ∧ 5 ≤ quizzes_completed r)
  ∨ (x = "Consistent Learner" ∧ 7 ≤ learning_streak r)
  ∨ (x = "High Achiever" ∧ 80 ≤ overall_score r)
  ∨ (x = "Perfect Score" ∧ 5 ≤ total_questions r
     ∧ correct_answers r = total_questions r).
Proof.
  unfold ProgressTracker._check_achievements. simpl.
  rewrite !award_elem, !andb_true_iff, bool_decide_eq_true, Z.ltb_lt, !Z.leb_le.
  split.
  - intros [[[[[[?|[? ->]]|[? ->]]|[? ->]]|[? ->]]|[? ->]]|[[[? ?] ?] ->]];
      by eauto 10.
  - intros [?|[[-> ?]|[[-> ?]|[[-> ?]|[[-> ?]|[[-> ?]|(-> & ? & ?)]]]]]];
      try by eauto 10.
    right. split; [|done]. split_and!; [lia|done|done].
Qed.

Lemma check_achievements_prefix r :
  achievements r `prefix_of` achievements (ProgressTracker._check_achievements r).
Proof.
  unfold ProgressTracker._check_achievements. simpl.
  repeat (etrans; [|apply award_prefix]). done.
Qed.

Lemma check_achievements_NoDup r :
  NoDup (achievements r) →
  NoDup (achievements (ProgressTracker._check_achievements r)).
Proof.
  intros Hr. unfold ProgressTracker._check_achievements. simpl.
  by repeat apply award_NoDup.
Qed.

(** [update_record] hands [_check_achievements] a record that differs from
    the record after the action in the capped score and the recent topics
    only. *)
Lemma update_record_check_input ct topic action score r :
  let a := ProgressTracker.apply_action topic action score (set_updated_at ct r) in
  ∃ p : ProgressRecord,
    ProgressTracker.update_record ct topic action score r
    = ProgressTracker._update_skill_levels (ProgressTracker._check_achievements p)
    ∧ achievements p = achievements r
    ∧ completed_modules p = completed_modules a
    ∧ overall_score p = Z.min (overall_score a) 100
    ∧ quizzes_completed p = quizzes_completed a
    ∧ total_questions p = total_questions a
    ∧ correct_answers p = correct_answers a
    ∧ learning_streak p = learning_streak r.
Proof.
  intros a. unfold ProgressTracker.update_record. fold a.
  eexists. split; [reflexivity|].
  destruct (apply_action_frame topic action score (set_updated_at ct r))
    as (Hstreak & _ & _ & _ & _ & Hach & _).
  fold a in Hstreak, Hach. simpl in Hstreak, Hach.
  destruct (negb (Py.list_in topic (recent_topics a)));
    simpl; case_match; simpl; by rewrite ?Hach, ?Hstreak.
Qed.

End Achievements.

Section AchievementThresholds.
Context `{PyLibrary}.
Implicit Types (r : ProgressRecord).

Lemma check_first_steps r :
  "First Steps" ∈ achievements (ProgressTracker._check_achievements r) ↔
  "First Steps" ∈ achievements r ∨ 1 ≤ Z.of_nat (length (completed_modules r)).
Proof.
  rewrite check_achievements_elem. split.
  - intros [?|[[_ ?]|[[? _]|[[? _]|[[? _]|[[? _]|[? _]]]]]]];
      try discriminate; auto.
  - intros [?|?]; auto 10.
Qed.

Lemma check_knowledge_seeker r :
  "Knowledge Seeker" ∈ achievements (ProgressTracker._check_achievements r) ↔
  "Knowledge Seeker" ∈ achievements r
  ∨ 3 ≤ Z.of_nat (length (completed_modules r)).
Proof.
  rewrite check_achievements_elem. split.
  - intros [?|[[? _]|[[_ ?]|[[? _]|[[? _]|[[? _]|[? _]]]]]]];
      try discriminate; auto.
  - intros [?|?]; auto 10.
Qed.

Lemma check_quiz_master r :
  "Quiz Master" ∈ achievements (ProgressTracker._check_achievements r) ↔
  "Quiz Master" ∈ achievements r ∨ 5 ≤ quizzes_completed r.
Proof.
  rewrite check_achievements_elem. split.
  - intros [?|[[? _]|[[? _]|[[_ ?]|[[? _]|[[? _]|[? _]]]]]]];
      try discriminate; auto.
  - intros [?|?]; auto 10.
Qed.

Lemma check_high_achiever r :
  "High Achiever" ∈ achievements (ProgressTracker._check_achievements r) ↔
  "High Achiever" ∈ achievements r ∨ 80 ≤ overall_score r.
Proof.
  rewrite check_achievements_elem. split.
  - intros [?|[[? _]|[[? _]|[[? _]|[[? _]|[[_ ?]|[? _]]]]]]];
      try discriminate; auto.
  - intros [?|?]; auto 10.
Qed.

Lemma update_skill_levels_achievements r :
  achievements (ProgressTracker._update_skill_levels r) = achievements r.
Proof. done. Qed.

(** No action lowers the number of quizzes taken. *)
Lemma apply_action_quizzes topic action score r :
  quizzes_completed r ≤
  quizzes_completed (ProgressTracker.apply_action topic action score r).
Proof.
  unfold ProgressTracker.apply_action.
  repeat case_decide; repeat case_match; simpl; lia.
Qed.

End AchievementThresholds.

(** ** Unknown actions *)



(** X1.  Whatever the stored record, [update_progress] only appends to the
    list of achievements (the old list is a prefix of the new one), and
    [update_user_activity] leaves the list as it is. *)
Theorem achievements_only_grow `{PyLibrary} (w : World) (u : Z)
    (topic action message : string) (score : Z) :
  let r := eval (ProgressTracker.get_user_progress u) w in
  (∃ r', progress_file
           (exec (ProgressTracker.update_progress u topic action score) w) !! u
         = Some r' ∧
         achievements r `prefix_of` achievements r') ∧
  (∃ r', progress_file
           (exec (ProgressTracker.update_user_activity u message) w) !! u
         = Some r' ∧
         achievements r' = achievements r).
Proof.
  intros r. split.
  - eexists. split; [apply update_progress_lookup|]. fold r.
    destruct (update_record_check_input
                (reading 0 (exec (ProgressTracker.get_user_progress u) w))
                topic action score r) as (p & -> & <- & _).
    simpl. apply check_achievements_prefix.
  - eexists. split; [apply update_user_activity_lookup|]. fold r. simpl.
    by destruct (track_activity_frame
                   (date (wall_clock
                            (clock_reads
                               (exec (ProgressTracker.get_user_progress u) w)))) r)
      as (_ & _ & _ & _ & _ & _ & _ & -> & _).
Qed.

(** X2.  In every world the bot can reach, the achievements of every stored
    record are without repetition and are among the six names the tracker
    awards. *)
Theorem stored_achievements_wellformed `{PyLibrary} (cs : list call) :
  records_satisfy
    (λ r, NoDup (achievements r) ∧ achievements r ⊆ achievement_names)
    (exec (run_calls cs) initial_world).
Proof.
  apply (run_calls_satisfy _ (λ _, True)).
  - intros u c t. simpl. split; [apply NoDup_nil_2|]. intros x Hx.
    by apply not_elem_of_nil in Hx.
  - intros u ct topic action score r _ [Hnd Hsub].
    destruct (update_record_check_input ct topic action score r)
      as (p & -> & Hach & _).
    rewrite update_skill_levels_achievements. split.
    + apply check_achievements_NoDup. by rewrite Hach.
    + intros x. rewrite check_achievements_elem, Hach.
      unfold achievement_names. rewrite !elem_of_cons.
      intros [Hx|[[-> _]|[[-> _]|[[-> _]|[[-> _]|[[-> _]|[-> _]]]]]]];
        [|by auto 10..].
      apply Hsub in Hx. unfold achievement_names in Hx.
      by rewrite !elem_of_cons in Hx.
  - intros d s1 s2 r Hr. simpl.
    by destruct (track_activity_frame d r)
      as (_ & _ & _ & _ & _ & _ & _ & -> & _).
  - by apply Forall_forall.
  - apply initial_world_satisfy.
Qed.

(** X3.  In every world the bot can reach, a stored record holds First
    Steps exactly when it has a completed module, Knowledge Seeker exactly
    when it has three, Quiz Master exactly when five quizzes were taken and
    High Achiever exactly when the score is 80 or more. *)
Theorem threshold_achievements `{PyLibrary} (cs : list call) :
  records_satisfy
    (λ r,
       ("First Steps" ∈ achievements r ↔
        1 ≤ Z.of_nat (length (completed_modules r))) ∧
       ("Knowledge Seeker" ∈ achievements r ↔
        3 ≤ Z.of_nat (length (completed_modules r))) ∧
       ("Quiz Master" ∈ achievements r ↔ 5 ≤ quizzes_completed r) ∧
       ("High Achiever" ∈ achievements r ↔ 80 ≤ overall_score r))
    (exec (run_calls cs) initial_world).
Proof.
  apply (run_calls_satisfy _ (λ _, True)).
  - intros u c t. simpl. rewrite !elem_of_nil. repeat split; (lia || done).
  - intros u ct topic action score r _ (Hfs & Hks & Hqm & Hha).
    destruct (update_record_check_input ct topic action score r)
      as (p & -> & Hach & Hcomp & Hscore & Hquiz & _).
    destruct (apply_action_completed topic action score (set_updated_at ct r))
      as [new Hnew]. simpl in Hnew.
    pose proof (apply_action_score topic action score (set_updated_at ct r))
      as Hle. simpl in Hle.
    pose proof (apply_action_quizzes topic action score (set_updated_at ct r))
      as Hq. simpl in Hq.
    rewrite update_skill_levels_achievements.
    change (completed_modules (ProgressTracker._update_skill_levels ?q))
      with (completed_modules q).
    change (quizzes_completed (ProgressTracker._update_skill_levels ?q))
      with (quizzes_completed q).
    change (overall_score (ProgressTracker._update_skill_levels ?q))
      with (overall_score q).
    change (completed_modules (ProgressTracker._check_achievements ?q))
      with (completed_modules q).
    change (quizzes_completed (ProgressTracker._check_achievements ?q))
      with (quizzes_completed q).
    change (overall_score (ProgressTracker._check_achievements ?q))
      with (overall_score q).
    rewrite check_first_steps, check_knowledge_seeker, check_quiz_master,
      check_high_achiever, Hach, Hcomp, Hscore, Hquiz, Hfs, Hks, Hqm, Hha.
    rewrite Hnew, length_app. repeat split; lia.
  - intros d s1 s2 r Hr. simpl.
    by destruct (track_activity_frame d r)
      as (-> & -> & _ & -> & _ & _ & _ & -> & _).
  - by apply Forall_forall.
  - apply initial_world_satisfy.
Qed.

(** ** Recent topics, modules and counters *)

Section Counters.
Context `{PyLibrary}.
Implicit Types (r : ProgressRecord) (ct topic action : string) (score : Z).

Lemma last_n_NoDup {A} (n : nat) (l : list A) : NoDup l → NoDup (Py.last_n n l).
Proof.
  intros Hl. unfold Py.last_n.
  exact (sublist_NoDup _ _ Hl (sublist_drop l _)).
Qed.

Lemma last_n_last {A} (n : nat) (l : list A) (x : A) :
  (0 < n)%nat → last (Py.last_n n (l ++ [x])) = Some x.
Proof.
  intros Hn. unfold Py.last_n. rewrite length_app. simpl.
  rewrite drop_app_le by lia. apply last_snoc.
Qed.

(** The recent topics after [update_record]: the topic is appended when it
    is not on the list, and the list is cut to its last ten. *)
Lemma update_record_recent ct topic action score r :
  recent_topics (ProgressTracker.update_record ct topic action score r) =
  let topics :=
    if Py.list_in topic (recent_topics r)
    then recent_topics r else recent_topics r ++ [topic] in
  if (10 <? length topics)%nat then Py.last_n 10 topics else topics.
Proof.
  unfold ProgressTracker.update_record.
  destruct (apply_action_frame topic action score (set_updated_at ct r))
    as (_ & _ & _ & _ & Hrecent & _).
  simpl in Hrecent. revert Hrecent.
  generalize (ProgressTracker.apply_action topic action score (set_updated_at ct r)).
  intros a <-.
  destruct (Py.list_in topic (recent_topics a)); simpl; by case_match.
Qed.

Lemma update_record_recent_bounded ct topic action score r :
  (length (recent_topics (ProgressTracker.update_record ct topic action score r))
   ≤ 10)%nat.
Proof.
  rewrite update_record_recent. cbv zeta.
  set (topics := if Py.list_in _ _ then _ else _).
  destruct (10 <? length topics)%nat eqn:Hlen.
  - rewrite last_n_length. lia.
  - by apply Nat.ltb_ge in Hlen.
Qed.

Lemma update_record_recent_NoDup ct topic action score r :
  NoDup (recent_topics r) →
  NoDup (recent_topics (ProgressTracker.update_record ct topic action score r)).
Proof.
  intros Hr. rewrite update_record_recent. cbv zeta.
  set (topics := if Py.list_in _ _ then _ else _).
  assert (NoDup topics) as Hnd.
  { subst topics.
    destruct (Py.list_in topic (recent_topics r)) eqn:Hin; [done|].
    apply list_in_false in Hin. apply NoDup_app. split_and!; [done| |].
    - intros y Hy. rewrite list_elem_of_singleton. by intros ->.
    - apply NoDup_singleton. }
  destruct (10 <? length topics)%nat; [by apply last_n_NoDup|done].
Qed.

Lemma stored_recent_topics (cs : list call) :
  records_satisfy
    (λ r, (length (recent_topics r) ≤ 10)%nat ∧ NoDup (recent_topics r))
    (exec (run_calls cs) initial_world).
Proof.
  apply (run_calls_satisfy _ (λ _, True)).
  - intros u c t. simpl. split; [lia|apply NoDup_nil_2].
  - intros u ct topic action score r _ [_ Hnd]. split.
    + apply update_record_recent_bounded.
    + by apply update_record_recent_NoDup.
  - intros d s1 s2 r Hr. simpl.
    by destruct (track_activity_frame d r)
      as (_ & _ & _ & _ & _ & _ & _ & _ & -> & _).
  - by apply Forall_forall.
  - apply initial_world_satisfy.
Qed.

End Counters.

(** X4.  In every world the bot can reach, after [update_progress] the
    user's recent topics have at most ten entries, no repetition, and
    contain the topic of the event: a topic already on the list leaves the
    list as it was (it is not moved to the end), a new topic becomes the
    last entry. *)
Theorem recent_topics_window `{PyLibrary} (cs : list call) (u : Z)
    (topic action : string) (score : Z) :
  let w := exec (run_calls cs) initial_world in
  let r := eval (ProgressTracker.get_user_progress u) w in
  ∃ r',
    progress_file (exec (ProgressTracker.update_progress u topic action score) w)
      !! u = Some r' ∧
    (length (recent_topics r') ≤ 10)%nat ∧
    NoDup (recent_topics r') ∧
    topic ∈ recent_topics r' ∧
    (topic ∈ recent_topics r → recent_topics r' = recent_topics r) ∧
    (topic ∉ recent_topics r → last (recent_topics r') = Some topic).
Proof.
  intros w r.
  assert ((length (recent_topics r) ≤ 10)%nat ∧ NoDup (recent_topics r))
    as [Hlen Hnd].
  { apply (get_user_progress_eval_satisfy
             (λ r, (length (recent_topics r) ≤ 10)%nat ∧ NoDup (recent_topics r))).
    - intros c t. simpl. split; [lia|apply NoDup_nil_2].
    - apply stored_recent_topics. }
  eexists. split; [apply update_progress_lookup|]. fold w. fold r.
  split; [apply update_record_recent_bounded|].
  split; [by apply update_record_recent_NoDup|].
  rewrite update_record_recent. cbv zeta.
  destruct (Py.list_in topic (recent_topics r)) eqn:Hin.
  - apply list_in_true in Hin.
    assert ((10 <? length (recent_topics r))%nat = false) as ->
      by (apply Nat.ltb_ge; lia).
    done.
  - apply list_in_false in Hin.
    assert (topic ∈ recent_topics r ++ [topic]) as Hnew.
    { apply elem_of_app. right. by apply list_elem_of_singleton. }
    destruct (10 <? length (recent_topics r ++ [topic]))%nat.
    + split_and!; [|done|intros _; apply last_n_last; lia].
      apply (last_Some_elem_of _ topic). apply last_n_last. lia.
    + split_and!; [done|done|intros _; apply last_snoc].
Qed.

Section EventEffects.
Context `{PyLibrary}.
Implicit Types (r : ProgressRecord) (ct topic action : string) (score : Z).

Lemma apply_action_points topic action score r :
  overall_score (ProgressTracker.apply_action topic action score r)
  = overall_score r + event_points action score.
Proof.
  unfold ProgressTracker.apply_action, event_points.
  repeat case_decide; subst; try discriminate; repeat case_match; simpl; lia.
Qed.

Lemma apply_action_completed_other topic action score r :
  action ≠ "completed" →
  completed_modules (ProgressTracker.apply_action topic action score r)
  = completed_modules r.
Proof.
  intros Hact. unfold ProgressTracker.apply_action.
  repeat case_decide; subst; try done; repeat case_match; done.
Qed.

Lemma apply_action_completed_NoDup topic action score r :
  NoDup (completed_modules r) →
  NoDup (completed_modules (ProgressTracker.apply_action topic action score r)).
Proof.
  intros Hr. unfold ProgressTracker.apply_action.
  repeat case_decide; simpl; [by case_match| |by case_match|done].
  destruct (Py.list_in topic (completed_modules r)) eqn:Hin; simpl.
  - by case_match.
  - apply list_in_false in Hin.
    assert (NoDup (completed_modules r ++ [topic])) as Hnd.
    { apply NoDup_app. split_and!; [done| |apply NoDup_singleton].
      intros y Hy. rewrite list_elem_of_singleton. by intros ->. }
    by case_match.
Qed.

Lemma apply_action_counters topic action score r :
  quizzes_completed r = total_questions r →
  0 ≤ quizzes_completed r → 0 ≤ correct_answers r →
  let a := ProgressTracker.apply_action topic action score r in
  quizzes_completed a = total_questions a ∧
  0 ≤ quizzes_completed a ∧ 0 ≤ correct_answers a.
Proof.
  intros Heq Hq Hc. unfold ProgressTracker.apply_action.
  repeat case_decide; repeat case_match; simpl; lia.
Qed.

Lemma parse_last_activity_Some r d :
  ProgressTracker.parse_last_activity r = Some d → is_Some (last_activity r).
Proof.
  unfold ProgressTracker.parse_last_activity.
  destruct (last_activity r); [by eauto|done].
Qed.

Lemma qualifies_intermediate_mono d r1 r2 new s :
  completed_modules r2 = completed_modules r1 ++ new →
  overall_score r1 ≤ s → overall_score r2 = Z.min s 100 →
  qualifies_intermediate d r1 = true → qualifies_intermediate d r2 = true.
Proof.
  intros Hc Hs Hmin. unfold qualifies_intermediate, domain_count.
  rewrite Hc, Hmin, List.filter_app, length_app, Nat2Z.inj_add.
  case_decide; rewrite !orb_true_iff, !Z.leb_le; lia.
Qed.

Lemma update_record_qualifies_intermediate d ct topic action score r :
  qualifies_intermediate d r = true →
  qualifies_intermediate d (ProgressTracker.update_record ct topic action score r)
  = true.
Proof.
  destruct (update_record_fields ct topic action score r) as (Hs & Hc & _).
  destruct (apply_action_completed topic action score (set_updated_at ct r))
    as [new Hnew].
  pose proof (apply_action_score topic action score (set_updated_at ct r)) as Hle.
  by apply (qualifies_intermediate_mono d r _ new
              (overall_score (ProgressTracker.apply_action topic action score
                                (set_updated_at ct r))));
    [rewrite Hc, Hnew| |].
Qed.

End EventEffects.

(** X5.  Whatever the stored record, [update_progress] never removes or
    reorders a completed module: the old list is a prefix of the new one,
    and an action other than [completed] leaves it unchanged. *)
Theorem completed_modules_append_only `{PyLibrary} (w : World) (u : Z)
    (topic action : string) (score : Z) :
  let r := eval (ProgressTracker.get_user_progress u) w in
  ∃ r',
    progress_file (exec (ProgressTracker.update_progress u topic action score) w)
      !! u = Some r' ∧
    completed_modules r `prefix_of` completed_modules r' ∧
    (action ≠ "completed" → completed_modules r' = completed_modules r).
Proof.
  intros r. eexists. split; [apply update_progress_lookup|]. fold r.
  destruct (update_record_fields
              (reading 0 (exec (ProgressTracker.get_user_progress u) w))
              topic action score r) as (_ & -> & _).
  split.
  - destruct (apply_action_completed topic action score
                (set_updated_at
                   (reading 0 (exec (ProgressTracker.get_user_progress u) w)) r))
      as [new ->].
    simpl. by apply prefix_app_r.
  - intros Hact. by rewrite apply_action_completed_other.
Qed.

(** X6.  In every world the bot can reach, no module is listed twice among
    the completed modules of a stored record, nor among its current
    modules. *)
Theorem stored_modules_NoDup `{PyLibrary} (cs : list call) :
  records_satisfy
    (λ r, NoDup (completed_modules r) ∧ NoDup (current_modules r))
    (exec (run_calls cs) initial_world).
Proof.
  apply (run_calls_satisfy _ (λ _, True)).
  - intros u c t. simpl. split; apply NoDup_nil_2.
  - intros u ct topic action score r _ [Hcomp Hcur].
    destruct (update_record_fields ct topic action score r)
      as (_ & -> & -> & _).
    split.
    + by apply apply_action_completed_NoDup.
    + by apply apply_action_current_NoDup.
  - intros d s1 s2 r Hr. simpl.
    by destruct (track_activity_frame d r) as (_ & -> & -> & _).
  - by apply Forall_forall.
  - apply initial_world_satisfy.
Qed.

(** X7.  Whatever the stored record, [update_progress] leaves the score at
    the old score plus the points of the event, capped at 100: ten points
    for [completed], five per point of a positive [score] for
    [quiz_completed], none otherwise. *)
Theorem score_after_event `{PyLibrary} (w : World) (u : Z)
    (topic action : string) (score : Z) :
  let r := eval (ProgressTracker.get_user_progress u) w in
  ∃ r',
    progress_file (exec (ProgressTracker.update_progress u topic action score) w)
      !! u = Some r' ∧
    overall_score r' = Z.min (overall_score r + event_points action score) 100.
Proof.
  intros r. eexists. split; [apply update_progress_lookup|]. fold r.
  destruct (update_record_fields
              (reading 0 (exec (ProgressTracker.get_user_progress u) w))
              topic action score r) as (-> & _).
  by rewrite apply_action_points.
Qed.

(** X8.  In every world the bot can reach, every stored record has as many
    quizzes completed as questions counted, and no negative counter. *)
Theorem stored_quiz_counters `{PyLibrary} (cs : list call) :
  records_satisfy
    (λ r, quizzes_completed r = total_questions r ∧
          0 ≤ quizzes_completed r ∧ 0 ≤ correct_answers r)
    (exec (run_calls cs) initial_world).
Proof.
  apply (run_calls_satisfy _ (λ _, True)).
  - intros u c t. simpl. lia.
  - intros u ct topic action score r _ (Heq & Hq & Hc).
    destruct (update_record_fields ct topic action score r)
      as (_ & _ & _ & -> & -> & -> & _).
    by apply apply_action_counters.
  - intros d s1 s2 r Hr. simpl.
    by destruct (track_activity_frame d r)
      as (_ & _ & _ & -> & -> & -> & _).
  - by apply Forall_forall.
  - apply initial_world_satisfy.
Qed.

(** X9.  In every world the bot can reach, a stored record without
    [last_activity] has streak 0 and 0 active days, and a record with one
    has a streak of at least 1 that does not exceed its active days. *)
Theorem stored_streak_bounds `{PyLibrary} (cs : list call) :
  records_satisfy
    (λ r, match last_activity r with
          | None => learning_streak r = 0 ∧ days_active r = 0
          | Some _ => 1 ≤ learning_streak r ≤ days_active r
          end)
    (exec (run_calls cs) initial_world).
Proof.
  apply (run_calls_satisfy _ (λ _, True)).
  - intros u c t. simpl. lia.
  - intros u ct topic action score r _ Hr.
    destruct (update_record_fields ct topic action score r)
      as (_ & _ & _ & _ & _ & _ & -> & -> & -> & _).
    by destruct (apply_action_frame topic action score (set_updated_at ct r))
      as (-> & -> & -> & _).
  - intros d s1 s2 r Hr. simpl.
    unfold ProgressTracker.track_activity.
    destruct (ProgressTracker.parse_last_activity r) as [last|] eqn:Hp.
    + destruct (parse_last_activity_Some _ _ Hp) as [s Hs].
      rewrite Hs in Hr.
      repeat case_decide; simpl; lia.
    + rewrite decide_True by done. simpl.
      destruct (last_activity r); lia.
  - by apply Forall_forall.
  - apply initial_world_satisfy.
Qed.

(** X10.  In every world the bot can reach, the skill level a stored record
    holds for each of crypto, stocks and trading is the one the table gives
    for its completed modules and score: advanced, else intermediate, else
    beginner.  A module counts for a domain by the terms found in its name
    as [str.lower] lowers it. *)
Theorem stored_skill_levels_derived `{PyLibrary} (cs : list call) :
  records_satisfy
    (λ r, ∀ d, d ∈ skill_domains →
               skill_levels r !! d = Some (derived_level d r))
    (exec (run_calls cs) initial_world).
Proof.
  apply (run_calls_satisfy _ (λ _, True)).
  - intros u c t d. unfold skill_domains.
    rewrite !elem_of_cons, elem_of_nil.
    intros [->|[->|[->|[]]]]; simpl; by simplify_map_eq.
  - intros u ct topic action score r _ Hr d Hd.
    rewrite update_record_skill by done. unfold derived_level.
    destruct (qualifies_advanced d (ProgressTracker.update_record _ _ _ _ r))
      eqn:Hadv; [done|].
    destruct (qualifies_intermediate d (ProgressTracker.update_record _ _ _ _ r))
      eqn:Hint; [done|].
    rewrite (Hr d Hd). unfold derived_level.
    destruct (qualifies_advanced d r) eqn:Hadv0.
    { by rewrite update_record_qualifies in Hadv. }
    destruct (qualifies_intermediate d r) eqn:Hint0; [|done].
    by rewrite update_record_qualifies_intermediate in Hint.
  - intros day s1 s2 r Hr d Hd.
    destruct (track_activity_frame day r) as (Hs & Hc & _ & _ & _ & _ & Hk & _).
    set (r' := set_updated_at s2 _).
    assert (qualifies_advanced d r' = qualifies_advanced d r) as Hadv
      by by apply qualifies_advanced_ext.
    assert (qualifies_intermediate d r' = qualifies_intermediate d r) as Hint
      by by apply qualifies_intermediate_ext.
    unfold derived_level. rewrite Hadv, Hint. subst r'. simpl.
    rewrite Hk. by apply Hr.
  - by apply Forall_forall.
  - apply initial_world_satisfy.
Qed.

(** ** One user's calls and the rest of the store *)

Section Isolation.
Context `{PyLibrary}.
Implicit Types (w : World) (u : Z) (r : ProgressRecord).

Lemma only_progress_of_refl u w : only_progress_of u w w.
Proof. by repeat split. Qed.

Lemma only_progress_of_trans u w1 w2 w3 :
  only_progress_of u w1 w2 → only_progress_of u w2 w3 → only_progress_of u w1 w3.
Proof.
  intros (Hu12 & Hm12 & Hg12 & H12) (Hu23 & Hm23 & Hg23 & H23).
  split_and!; [congruence..|].
  intros u' Hu'. by rewrite H23, H12.
Qed.

Lemma only_progress_of_insert u w r k :
  only_progress_of u w
    (with_progress (<[u := r]> (progress_file w)) (tick k w)).
Proof.
  repeat split. intros u' Hu'. simpl. by rewrite lookup_insert_ne.
Qed.

Lemma get_user_progress_only u w :
  only_progress_of u w (exec (ProgressTracker.get_user_progress u) w).
Proof.
  unfold exec. destruct (progress_file w !! u) as [r|] eqn:Hr.
  - rewrite (get_user_progress_stored _ _ _ Hr). apply only_progress_of_refl.
  - rewrite (get_user_progress_absent _ _ Hr). apply only_progress_of_insert.
Qed.

Lemma update_progress_only u w topic action score :
  only_progress_of u w
    (exec (ProgressTracker.update_progress u topic action score) w).
Proof.
  rewrite update_progress_run.
  pose proof (get_user_progress_only u w) as Hget. unfold exec in Hget.
  destruct (ProgressTracker.get_user_progress u w) as [r w1].
  eapply only_progress_of_trans; [exact Hget|]. apply only_progress_of_insert.
Qed.

Lemma update_user_activity_only u w message :
  only_progress_of u w
    (exec (ProgressTracker.update_user_activity u message) w).
Proof.
  rewrite update_user_activity_run.
  pose proof (get_user_progress_only u w) as Hget. unfold exec in Hget.
  destruct (ProgressTracker.get_user_progress u w) as [r w1].
  eapply only_progress_of_trans; [exact Hget|]. apply only_progress_of_insert.
Qed.

End Isolation.

(** X11.  A call of the progress tracker for one user -- [update_progress],
    [update_user_activity], [reset_user_progress] or [get_user_progress] --
    changes no other user's progress record, no conversation memory, no
    group memory and no user record. *)
Theorem progress_calls_isolated `{PyLibrary} (w : World) (u : Z)
    (topic action message : string) (score : Z) :
  Forall (only_progress_of u w)
    [ exec (ProgressTracker.update_progress u topic action score) w;
      exec (ProgressTracker.update_user_activity u message) w;
      exec (ProgressTracker.reset_user_progress u) w;
      exec (ProgressTracker.get_user_progress u) w ].
Proof.
  repeat apply Forall_cons_2; [..|apply Forall_nil_2].
  - apply update_progress_only.
  - apply update_user_activity_only.
  - rewrite reset_user_progress_run. apply only_progress_of_insert.
  - apply get_user_progress_only.
Qed.

(** X12.  [update_user_activity] changes the streak, the active days and the
    two time stamps only: score, module lists, quiz counters, achievements,
    skill levels and recent topics stay as [get_user_progress] returned
    them. *)
Theorem update_user_activity_learning_frame `{PyLibrary} (w : World) (u : Z)
    (message : string) :
  let r := eval (ProgressTracker.get_user_progress u) w in
  ∃ r',
    progress_file (exec (ProgressTracker.update_user_activity u message) w) !! u
    = Some r' ∧
    overall_score r' = overall_score r ∧
    completed_modules r' = completed_modules r ∧
    current_modules r' = current_modules r ∧
    quizzes_completed r' = quizzes_completed r ∧
    correct_answers r' = correct_answers r ∧
    total_questions r' = total_questions r ∧
    skill_levels r' = skill_levels r ∧
    achievements r' = achievements r ∧
    recent_topics r' = recent_topics r.
Proof.
  intros r. eexists. split; [apply update_user_activity_lookup|]. fold r.
  simpl.
  destruct (track_activity_frame
              (date (wall_clock
                       (clock_reads (exec (ProgressTracker.get_user_progress u) w))))
              r) as (-> & -> & -> & -> & -> & -> & -> & -> & -> & _).
  done.
Qed.

(** X13.  Whatever the stored record, after [update_progress] the record
    holds Consistent Learner exactly when it held it before or the streak is
    7 or more, and Perfect Score exactly when it held it before or at least
    five questions are counted and all were answered right. *)
Theorem streak_and_perfect_score_awards `{PyLibrary} (w : World) (u : Z)
    (topic action : string) (score : Z) :
  let r := eval (ProgressTracker.get_user_progress u) w in
  ∃ r',
    progress_file (exec (ProgressTracker.update_progress u topic action score) w)
      !! u = Some r' ∧
    ("Consistent Learner" ∈ achievements r' ↔
     "Consistent Learner" ∈ achievements r ∨ 7 ≤ learning_streak r) ∧
    ("Perfect Score" ∈ achievements r' ↔
     "Perfect Score" ∈ achievements r
     ∨ (5 ≤ total_questions r' ∧ correct_answers r' = total_questions r')).
Proof.
  intros r. eexists. split; [apply update_progress_lookup|]. fold r.
  destruct (update_record_check_input
              (reading 0 (exec (ProgressTracker.get_user_progress u) w))
              topic action score r)
    as (p & -> & Hach & _ & _ & _ & Htot & Hcor & Hstreak).
  rewrite update_skill_levels_achievements.
  change (total_questions (ProgressTracker._update_skill_levels ?q))
    with (total_questions q).
  change (correct_answers (ProgressTracker._update_skill_levels ?q))
    with (correct_answers q).
  change (total_questions (ProgressTracker._check_achievements ?q))
    with (total_questions q).
  change (correct_answers (ProgressTracker._check_achievements ?q))
    with (correct_answers q).
  rewrite !check_achievements_elem, Hach, Hstreak. split.
  - split.
    + intros [?|[[? _]|[[? _]|[[? _]|[[_ ?]|[[? _]|[? _]]]]]]];
        try discriminate; auto.
    + intros [?|?]; auto 10.
  - split.
    + intros [?|[[? _]|[[? _]|[[? _]|[[? _]|[[? _]|[_ ?]]]]]]];
        try discriminate; auto.
    + intros [?|?]; auto 10.
Qed.

(** X14.  [get_user_progress] creates the record of an unknown user once:
    the record it returns is the stored one afterwards, a second call
    returns the same record and changes nothing, and a call for a user with
    a record changes nothing at all. *)
Theorem get_user_progress_idempotent `{PyLibrary} (w : World) (u : Z) :
  let r := eval (ProgressTracker.get_user_progress u) w in
  let w1 := exec (ProgressTracker.get_user_progress u) w in
  progress_file w1 !! u = Some r ∧
  ProgressTracker.get_user_progress u w1 = (r, w1) ∧
  (is_Some (progress_file w !! u) → progress_file w !! u = Some r ∧ w1 = w) ∧
  (progress_file w !! u = None →
     r = zero_record u (reading 0 w) (reading 1 w)).
Proof.
  intros r w1. subst r w1. unfold eval, exec.
  destruct (ProgressTracker.get_user_progress u w) as [r w1] eqn:Hget. simpl.
  pose proof (get_user_progress_lookup _ _ _ _ Hget) as Hr.
  split; [done|]. split; [by apply get_user_progress_stored|].
  split.
  - intros [r0 Hr0]. rewrite (get_user_progress_stored _ _ _ Hr0) in Hget.
    by injection Hget as <- <-.
  - intros Hnone. rewrite (get_user_progress_absent _ _ Hnone) in Hget.
    by injection Hget as <- <-.
Qed.

(** * Further properties of the data manager *)

Section Ledgers.
Context `{PyLibrary}.
Implicit Types (w : World) (u : Z) (c : Conversation) (l : list Conversation).

Lemma run_calls_invariant (I : World → Prop) :
  (∀ (k : call) w, I w → I (exec (run_call k) w)) →
  ∀ cs w, I w → I (exec (run_calls cs) w).
Proof.
  intros Hstep cs. induction cs as [|k cs IH]; intros w Hw; [done|].
  rewrite run_calls_cons. by apply IH, Hstep.
Qed.

(** The entry [store_conversation] appends carries a timestamp, and is the
    given dictionary but for that key. *)
Lemma add_timestamp_stamped w c :
  let entry := eval (DataManager.add_timestamp c) w in
  is_Some (entry !! "timestamp") ∧
  (∀ k, k ≠ "timestamp" → entry !! k = c !! k) ∧
  (is_Some (c !! "timestamp") → entry = c).
Proof.
  rewrite add_timestamp_eval.
  destruct (c !! "timestamp") as [v|] eqn:Hc.
  - split; [by eauto|]. by split.
  - split; [rewrite lookup_insert_eq; by eauto|]. split.
    + intros k Hk. by rewrite lookup_insert_ne.
    + by intros [? [=]].
Qed.

Lemma ledger_ok_snoc cap l c :
  (0 < cap)%nat → ledger_ok cap l → is_Some (c !! "timestamp") →
  ledger_ok cap (if (cap <? length (l ++ [c]))%nat
                 then Py.last_n cap (l ++ [c]) else l ++ [c]).
Proof.
  intros Hcap [Hlen Hl] Hc.
  assert (∀ x, x ∈ l ++ [c] → is_Some (x !! "timestamp")) as Hall.
  { intros x. rewrite elem_of_app, list_elem_of_singleton.
    intros [?| ->]; [by apply Hl|done]. }
  destruct (cap <? length (l ++ [c]))%nat eqn:Hlt; split.
  - rewrite last_n_length. lia.
  - intros x Hx. apply Hall.
    by apply (elem_of_suffix _ _ _ Hx), last_n_suffix.
  - by apply Nat.ltb_ge in Hlt.
  - done.
Qed.

Lemma ledger_ok_filter cap (f : Conversation → bool) l :
  ledger_ok cap l → ledger_ok cap (List.filter f l).
Proof.
  intros [Hlen Hl]. split.
  - pose proof (List.filter_length_le f l). lia.
  - intros x Hx. apply Hl. apply list_elem_of_In in Hx.
    apply List.filter_In in Hx. destruct Hx as [Hx _]. by apply list_elem_of_In.
Qed.

End Ledgers.

(** X15.  In every world the bot can reach, every user ledger has at most
    50 entries and every group ledger at most 100, and every stored entry
    has a [timestamp] key. *)
Theorem stored_ledgers_capped `{PyLibrary} (cs : list call) :
  let w := exec (run_calls cs) initial_world in
  (∀ u l, memories_file w !! u = Some l → ledger_ok 50 l) ∧
  (∀ g l, group_memories_file w !! g = Some l → ledger_ok 100 l).
Proof.
  apply (run_calls_invariant
           (λ w, (∀ u l, memories_file w !! u = Some l → ledger_ok 50 l) ∧
                 (∀ g l, group_memories_file w !! g = Some l → ledger_ok 100 l))).
  - intros k w [Hmem Hgrp].
    assert (∀ u w', only_progress_of u w w' →
              (∀ u l, memories_file w' !! u = Some l → ledger_ok 50 l) ∧
              (∀ g l, group_memories_file w' !! g = Some l → ledger_ok 100 l))
      as Hframe.
    { intros u w' (_ & -> & -> & _). by split. }
    destruct k as [u topic action score|u message|u|u|u conv|g conv|days];
      unfold run_call.
    + apply (Hframe u), update_progress_only.
    + apply (Hframe u), update_user_activity_only.
    + apply (Hframe u). rewrite reset_user_progress_run.
      apply only_progress_of_insert.
    + apply (Hframe u).
      pose proof (get_user_progress_only u w) as Hget.
      unfold exec, mbind, Bot_bind in *.
      by destruct (ProgressTracker.get_user_progress u w).
    + destruct (store_conversation_frame w u conv) as (_ & _ & Hg).
      split; [|by rewrite Hg].
      intros u' l. rewrite store_conversation_memories. cbv zeta.
      rewrite lookup_insert. case_decide; [|by apply Hmem].
      intros [= <-]. apply ledger_ok_snoc; [lia| |].
      * destruct (memories_file w !! u) as [l0|] eqn:Hl0; simpl.
        -- by apply (Hmem u).
        -- split; [simpl; lia|]. intros x Hx. by apply not_elem_of_nil in Hx.
      * apply add_timestamp_stamped.
    + destruct (store_group_conversation_frame w g conv) as (_ & _ & Hm).
      split; [by rewrite Hm|].
      intros g' l. rewrite store_group_conversation_memories. cbv zeta.
      rewrite lookup_insert. case_decide; [|by apply Hgrp].
      intros [= <-]. apply ledger_ok_snoc; [lia| |].
      * destruct (group_memories_file w !! g) as [l0|] eqn:Hl0; simpl.
        -- by apply (Hgrp g).
        -- split; [simpl; lia|]. intros x Hx. by apply not_elem_of_nil in Hx.
      * apply add_timestamp_stamped.
    + rewrite cleanup_call_exec.
      destruct (cleanup_old_data_frame w days) as (_ & _ & Hg).
      split; [|by rewrite Hg].
      intros u l. rewrite cleanup_old_data_memories.
      destruct (float_sub_int _ _) as [cutoff_date|]; [|by apply Hmem].
      rewrite lookup_fmap.
      destruct (memories_file w !! u) as [l0|] eqn:Hl0; [|done].
      intros [= <-]. by apply ledger_ok_filter, (Hmem u).
  - split; intros ? ?; simpl; by rewrite lookup_empty.
Qed.

(** X16.  After [store_conversation] the user's memories end with the given
    dictionary, which has a [timestamp] key: the one it came with, or else
    the time of the call; its other keys are untouched.  Other users'
    memories, the group memories, the progress file and the users file are
    unchanged. *)
Theorem store_conversation_read_back `{PyLibrary} (w : World) (u : Z)
    (c : Conversation) :
  let entry := eval (DataManager.add_timestamp c) w in
  let w' := exec (DataManager.store_conversation u c) w in
  last (eval (DataManager.get_user_memories u) w') = Some entry ∧
  is_Some (entry !! "timestamp") ∧
  (∀ k, k ≠ "timestamp" → entry !! k = c !! k) ∧
  (is_Some (c !! "timestamp") → entry = c) ∧
  (c !! "timestamp" = None → entry !! "timestamp" = Some (JStr (reading 0 w))) ∧
  (∀ u', u' ≠ u → memories_file w' !! u' = memories_file w !! u') ∧
  users_file w' = users_file w ∧ progress_file w' = progress_file w ∧
  group_memories_file w' = group_memories_file w.
Proof.
  intros entry w'.
  destruct (add_timestamp_stamped w c) as (Hts & Hkeys & Hsame).
  fold entry in Hts, Hkeys, Hsame.
  split; [|split; [done|split; [done|split; [done|split]]]].
  - unfold eval, DataManager.get_user_memories, DataManager.get_memories_data,
      mbind, Bot_bind, mret, Bot_ret. simpl.
    unfold w'. rewrite store_conversation_memories. cbv zeta. fold entry.
    rewrite lookup_insert_eq. simpl.
    destruct (50 <? _)%nat; [|apply last_snoc].
    apply last_n_last. lia.
  - intros Hnone. unfold entry. rewrite add_timestamp_eval, Hnone.
    apply lookup_insert_eq.
  - split.
    + intros u' Hu'. unfold w'. rewrite store_conversation_memories. cbv zeta.
      by rewrite lookup_insert_ne.
    + apply store_conversation_frame.
Qed.

(** X17.  [cleanup_old_data] keeps every user key of the memories file (a
    ledger whose entries are all purged stays, empty), never adds or
    reorders entries, and never touches the group memories, the progress
    file or the users file: group conversations are never purged. *)
Theorem cleanup_old_data_scope `{PyLibrary} (w : World) (days_to_keep : Z) :
  let w' := exec (DataManager.cleanup_old_data days_to_keep) w in
  dom (memories_file w') = dom (memories_file w) ∧
  (∀ u l', memories_file w' !! u = Some l' →
           ∃ l, memories_file w !! u = Some l ∧ l' `sublist_of` l) ∧
  group_memories_file w' = group_memories_file w ∧
  progress_file w' = progress_file w ∧
  users_file w' = users_file w.
Proof.
  intros w'.
  destruct (cleanup_old_data_frame w days_to_keep) as (Hu & Hp & Hg).
  fold w' in Hu, Hp, Hg. split_and!; try done.
  - unfold w'. rewrite cleanup_old_data_memories.
    destruct (float_sub_int _ _); [apply dom_fmap_L|done].
  - intros u l'. unfold w'. rewrite cleanup_old_data_memories.
    destruct (float_sub_int _ _) as [cutoff_date|]; [|by eauto].
    rewrite lookup_fmap.
    destruct (memories_file w !! u) as [l|]; [|done].
    intros [= <-]. exists l. split; [done|].
    induction l as [|c l IH]; simpl; [done|].
    destruct (retained _ c); by constructor.
Qed.

(** * The leaderboard *)

Section Leaderboard.
Context `{PyLibrary}.
Implicit Types (e x : ProgressTracker.leaderboard_entry)
  (l acc : list ProgressTracker.leaderboard_entry).

Lemma insert_by_score_perm e l : ProgressTracker.insert_by_score e l ≡ₚ e :: l.
Proof.
  induction l as [|x l IH]; simpl; [done|].
  case_match; [done|]. rewrite IH. apply Permutation_swap.
Qed.

Lemma insert_by_score_sorted e l :
  StronglySorted score_desc l →
  StronglySorted score_desc (ProgressTracker.insert_by_score e l).
Proof.
  induction l as [|x l IH]; simpl; intros Hl.
  - repeat constructor.
  - apply StronglySorted_cons in Hl as [Hx Hl].
    destruct (ProgressTracker.lb_overall_score x
              <? ProgressTracker.lb_overall_score e) eqn:Hlt.
    + apply Z.ltb_lt in Hlt. apply StronglySorted_cons. split.
      * constructor; [unfold score_desc; lia|].
        eapply Forall_impl; [exact Hx|]. unfold score_desc. intros y Hy. lia.
      * by apply StronglySorted_cons.
    + apply Z.ltb_ge in Hlt. apply StronglySorted_cons. split; [|by apply IH].
      rewrite insert_by_score_perm. by constructor.
Qed.

Lemma rows_of_score_nil k l :
  Forall (λ y, ProgressTracker.lb_overall_score y ≠ k) l →
  rows_of_score k l = [].
Proof.
  unfold rows_of_score. induction 1 as [|y l Hy Hl IH]; simpl; [done|].
  by rewrite (proj2 (Z.eqb_neq _ _) Hy).
Qed.

(** Stability: the new row goes behind the rows of its own score. *)
Lemma insert_by_score_rows k e l :
  StronglySorted score_desc l →
  rows_of_score k (ProgressTracker.insert_by_score e l)
  = rows_of_score k l ++ rows_of_score k [e].
Proof.
  unfold rows_of_score.
  induction l as [|x l IH]; simpl; intros Hl; [done|].
  apply StronglySorted_cons in Hl as [Hx Hl].
  destruct (ProgressTracker.lb_overall_score x
            <? ProgressTracker.lb_overall_score e) eqn:Hlt.
  - apply Z.ltb_lt in Hlt. simpl.
    destruct (ProgressTracker.lb_overall_score e =? k) eqn:He;
      [|by rewrite app_nil_r].
    apply Z.eqb_eq in He.
    assert (List.filter (λ e0, ProgressTracker.lb_overall_score e0 =? k) l = [])
      as ->.
    { apply rows_of_score_nil. eapply Forall_impl; [exact Hx|].
      unfold score_desc. intros y Hy. lia. }
    assert ((ProgressTracker.lb_overall_score x =? k) = false) as ->
      by (apply Z.eqb_neq; lia).
    done.
  - simpl. rewrite (IH Hl).
    by destruct (ProgressTracker.lb_overall_score x =? k).
Qed.

Lemma sort_by_score_fold l acc :
  StronglySorted score_desc acc →
  let sorted := fold_left (λ sorted e, ProgressTracker.insert_by_score e sorted)
                  l acc in
  sorted ≡ₚ acc ++ l ∧ StronglySorted score_desc sorted ∧
  ∀ k, rows_of_score k sorted = rows_of_score k acc ++ rows_of_score k l.
Proof.
  revert acc. induction l as [|e l IH]; intros acc Hacc; simpl.
  - split; [by rewrite app_nil_r|]. split; [done|].
    intros k. unfold rows_of_score. simpl. by rewrite app_nil_r.
  - destruct (IH (ProgressTracker.insert_by_score e acc)
                (insert_by_score_sorted e acc Hacc)) as (Hperm & Hsorted & Hrows).
    split; [|split; [done|]].
    + rewrite Hperm, insert_by_score_perm. simpl. apply Permutation_middle.
    + intros k. rewrite Hrows, insert_by_score_rows by done.
      rewrite <- app_assoc. f_equal. unfold rows_of_score. simpl.
      by destruct (ProgressTracker.lb_overall_score e =? k).
Qed.

Lemma sort_by_score_spec l :
  ProgressTracker.sort_by_score l ≡ₚ l ∧
  StronglySorted score_desc (ProgressTracker.sort_by_score l) ∧
  ∀ k, rows_of_score k (ProgressTracker.sort_by_score l) = rows_of_score k l.
Proof.
  destruct (sort_by_score_fold l [] ltac:(constructor)) as (Hp & Hs & Hr).
  by repeat split.
Qed.

Lemma slice_to_spec {A} (limit : Z) (l : list A) :
  Py.slice_to limit l `prefix_of` l ∧
  (0 ≤ limit → (length (Py.slice_to limit l) ≤ Z.to_nat limit)%nat) ∧
  (Z.of_nat (length l) ≤ limit → Py.slice_to limit l = l).
Proof.
  unfold Py.slice_to. destruct (0 <=? limit) eqn:Hlim.
  - apply Z.leb_le in Hlim. split; [apply prefix_take|].
    split; [intros _; rewrite length_take; lia|].
    intros Hlen. apply take_ge. lia.
  - apply Z.leb_gt in Hlim. split; [apply prefix_take|]. split; lia.
Qed.

(** The loop collects, in order, the rows of the users that have a record
    in the users file, and writes nothing. *)
Lemma leaderboard_loop_run items acc w :
  ProgressTracker.leaderboard_loop items acc w
  = (acc ++ omap (entry_of (users_file w)) items, w).
Proof.
  revert acc. induction items as [|[u p] items IH]; intros acc; simpl.
  - by rewrite app_nil_r.
  - unfold mbind, Bot_bind, DataManager.get_user_data,
      DataManager.get_users_data, mret, Bot_ret. simpl.
    rewrite IH. unfold entry_of at 2. simpl.
    case_decide; [done|]. by rewrite <- app_assoc.
Qed.

End Leaderboard.

Lemma leaderboard_of_items_run (items : list (Z * ProgressRecord)) (limit : Z)
    (w : World) :
  ProgressTracker.leaderboard_of_items items limit w
  = (Py.slice_to limit
       (ProgressTracker.sort_by_score (omap (entry_of (users_file w)) items)),
     w).
Proof.
  unfold ProgressTracker.leaderboard_of_items, mbind, Bot_bind, mret, Bot_ret.
  by rewrite leaderboard_loop_run.
Qed.

Lemma entry_of_Some (users : gmap Z UserData) (item : Z * ProgressRecord)
    (e : ProgressTracker.leaderboard_entry) :
  entry_of users item = Some e →
  ProgressTracker.lb_user_id e = item.1 ∧
  default ∅ (users !! item.1) ≠ ∅ ∧
  ProgressTracker.lb_overall_score e = overall_score item.2 ∧
  ProgressTracker.lb_completed_modules e = length (completed_modules item.2) ∧
  ProgressTracker.lb_achievements e = length (achievements item.2) ∧
  ProgressTracker.lb_display_name e
  = default (JStr "Unknown") (default ∅ (users !! item.1) !! "display_name").
Proof.
  unfold entry_of. case_decide; [done|]. by intros [= <-].
Qed.

(** X18.  [get_leaderboard] writes nothing; its rows are in order of
    non-increasing score; for a limit that is not negative there are at
    most [limit] rows; and every row is the row of a user who has both a
    progress record and a record in the users file, with the score, the
    number of completed modules and the number of achievements of that
    progress record. *)
Theorem get_leaderboard_sorted_bounded `{PyLibrary} (w : World) (limit : Z) :
  let lb := eval (ProgressTracker.get_leaderboard limit) w in
  exec (ProgressTracker.get_leaderboard limit) w = w ∧
  StronglySorted score_desc lb ∧
  (0 ≤ limit → (length lb ≤ Z.to_nat limit)%nat) ∧
  (∀ e, e ∈ lb →
     ∃ p, progress_file w !! ProgressTracker.lb_user_id e = Some p ∧
          default ∅ (users_file w !! ProgressTracker.lb_user_id e) ≠ ∅ ∧
          ProgressTracker.lb_overall_score e = overall_score p ∧
          ProgressTracker.lb_completed_modules e
          = length (completed_modules p) ∧
          ProgressTracker.lb_achievements e = length (achievements p)).
Proof.
  intros lb. subst lb.
  unfold eval, exec, ProgressTracker.get_leaderboard,
    DataManager.get_progress_data, mbind, Bot_bind.
  rewrite leaderboard_of_items_run. simpl.
  set (rows := omap (entry_of (users_file w)) (dict_items (progress_file w))).
  destruct (sort_by_score_spec rows) as (Hperm & Hsorted & _).
  destruct (slice_to_spec limit (ProgressTracker.sort_by_score rows))
    as ([rest Hprefix] & Hlen & _).
  split; [done|]. split; [|split; [done|]].
  - rewrite Hprefix in Hsorted. by apply StronglySorted_app_1_l in Hsorted.
  - intros e He.
    assert (e ∈ rows) as Hrow.
    { rewrite <- Hperm, Hprefix. apply elem_of_app. by left. }
    apply list_elem_of_omap in Hrow as ([u p] & Hitem & Hentry).
    rewrite dict_items_perm in Hitem. apply elem_of_map_to_list in Hitem.
    apply entry_of_Some in Hentry as (Hid & Huser & Hscore & Hcomp & Hach & _).
    simpl in *. rewrite Hid. by exists p.
Qed.

(** X19.  On the items of the progress file in any order,
    [get_leaderboard] returns the first rows of a list that holds the row
    of every user with a record in the users file exactly once, in order
    of non-increasing score and, among rows of equal score, in the order
    of the items; with a limit of at least the number of rows it returns
    that whole list. *)
Theorem leaderboard_stable_prefix `{PyLibrary} (w : World)
    (items : list (Z * ProgressRecord)) (limit : Z) :
  let rows := omap (entry_of (users_file w)) items in
  let lb := eval (ProgressTracker.leaderboard_of_items items limit) w in
  ∃ sorted,
    sorted ≡ₚ rows ∧
    StronglySorted score_desc sorted ∧
    (∀ k, rows_of_score k sorted = rows_of_score k rows) ∧
    lb `prefix_of` sorted ∧
    (Z.of_nat (length rows) ≤ limit → lb = sorted).
Proof.
  intros rows lb. subst lb. unfold eval. rewrite leaderboard_of_items_run.
  simpl. fold rows.
  destruct (sort_by_score_spec rows) as (Hperm & Hsorted & Hrows).
  destruct (slice_to_spec limit (ProgressTracker.sort_by_score rows))
    as (Hprefix & _ & Hall).
  exists (ProgressTracker.sort_by_score rows).
  split_and!; [done..|].
  intros Hlen. apply Hall. by rewrite Hperm.
Qed.

(** * Recommendations *)

Section Recommendations.
Context `{PyLibrary}.

Lemma recommend_step_elem (b : bool) (m x : string) (l : list string) :
  x ∈ (if b then l ++ [m] else l) ↔ x ∈ l ∨ (b = true ∧ x = m).
Proof.
  destruct b.
  - rewrite elem_of_app, list_elem_of_singleton. by intuition.
  - by intuition.
Qed.

Lemma recommend_step_head (b : bool) (m m1 : string) (l : list string) :
  (∃ rest, l = m1 :: rest) → ∃ rest, (if b then l ++ [m] else l) = m1 :: rest.
Proof. intros [rest ->]. destruct b; simpl; by eauto. Qed.

Lemma recommend_step_nil (b : bool) (m : string) (l : list string) :
  (if b then l ++ [m] else l) = [] → l = [] ∧ b = false.
Proof. destruct b; [|done]. by destruct l. Qed.

(** The list of recommendations before it is cut to three. *)
Lemma recommendations_shape (b1 b2 b3 b4 b5 b6 : bool)
    (m1 m2 m3 m4 m5 m6 : string) :
  let l0 : list string := [] in
  let l1 := if b1 then l0 ++ [m1] else l0 in
  let l2 := if b2 then l1 ++ [m2] else l1 in
  let l3 := if b3 then l2 ++ [m3] else l2 in
  let l4 := if b4 then l3 ++ [m4] else l3 in
  let l5 := if b5 then l4 ++ [m5] else l4 in
  let l6 := if b6 then l5 ++ [m6] else l5 in
  (∀ x, x ∈ l6 →
        (b1 = true ∧ x = m1) ∨ (b2 = true ∧ x = m2) ∨ (b3 = true ∧ x = m3) ∨
        (b4 = true ∧ x = m4) ∨ (b5 = true ∧ x = m5) ∨ (b6 = true ∧ x = m6)) ∧
  (b1 = true → ∃ rest, l6 = m1 :: rest) ∧
  (l6 = [] → b1 = false ∧ b2 = false ∧ b6 = false).
Proof.
  intros l0 l1 l2 l3 l4 l5 l6. split; [|split].
  - intros x. unfold l6, l5, l4, l3, l2, l1, l0.
    rewrite !recommend_step_elem, elem_of_nil. tauto.
  - intros ->. unfold l6, l5, l4, l3, l2.
    repeat apply recommend_step_head. by eexists.
  - intros E6. apply recommend_step_nil in E6 as [E5 ?].
    apply recommend_step_nil in E5 as [E4 ?].
    apply recommend_step_nil in E4 as [E3 ?].
    apply recommend_step_nil in E3 as [E2 ?].
    apply recommend_step_nil in E2 as [E1 ?].
    apply recommend_step_nil in E1 as [_ ?]. done.
Qed.

End Recommendations.

Lemma recommendations_full `{PyLibrary} (w : World) (u : Z) :
  let r := eval (ProgressTracker.get_user_progress u) w in
  ∃ full,
    eval (ProgressTracker.get_learning_recommendations u) w = take 3 full ∧
    exec (ProgressTracker.get_learning_recommendations u) w
    = exec (ProgressTracker.get_user_progress u) w ∧
    (∀ x, x ∈ full →
       (("crypto_basics" ∉ completed_modules r) ∧
        x = "Start with Cryptocurrency Basics - perfect for beginners!") ∨
       (("stocks_basics" ∉ completed_modules r) ∧
        x = "Learn Stock Market Fundamentals - build your foundation!") ∨
       (("risk_management" ∉ completed_modules r) ∧
        x = "Study Risk Management - essential for any trader!") ∨
       (("blockchain" ∉ completed_modules r) ∧
        x = "Dive deeper with Blockchain Technology module!") ∨
       (("technical_analysis" ∉ completed_modules r) ∧
        x = "Learn Technical Analysis to read charts like a pro!") ∨
       (quizzes_completed r < 3 ∧
        x = "Take more quizzes to test your knowledge!")) ∧
    ("crypto_basics" ∉ completed_modules r →
     ∃ rest,
       full = "Start with Cryptocurrency Basics - perfect for beginners!" :: rest) ∧
    (full = [] →
     "crypto_basics" ∈ completed_modules r ∧
     "stocks_basics" ∈ completed_modules r ∧ 3 ≤ quizzes_completed r).
Proof.
  intros r. subst r.
  unfold eval, exec, ProgressTracker.get_learning_recommendations.
  unfold mbind at 1 2, Bot_bind at 1 2.
  destruct (ProgressTracker.get_user_progress u w) as [r w1].
  unfold mret, Bot_ret. cbn [fst snd].
  pose proof (recommendations_shape
    (negb (Py.list_in "crypto_basics" (completed_modules r)))
    (negb (Py.list_in "stocks_basics" (completed_modules r)))
    ((2 <=? length (completed_modules r))%nat
     && negb (Py.list_in "risk_management" (completed_modules r)))
    (bool_decide (skill_levels r !! "crypto" = Some "beginner")
     && negb (Py.list_in "blockchain" (completed_modules r)))
    (bool_decide (skill_levels r !! "stocks" = Some "beginner")
     && negb (Py.list_in "technical_analysis" (completed_modules r)))
    (quizzes_completed r <? 3)
    "Start with Cryptocurrency Basics - perfect for beginners!"
    "Learn Stock Market Fundamentals - build your foundation!"
    "Study Risk Management - essential for any trader!"
    "Dive deeper with Blockchain Technology module!"
    "Learn Technical Analysis to read charts like a pro!"
    "Take more quizzes to test your knowledge!") as Hshape.
  cbv zeta in Hshape. destruct Hshape as (Helem & Hhead & Hnil).
  eexists. split; [reflexivity|]. split; [done|]. split; [|split].
  - intros x Hx. apply Helem in Hx.
    rewrite ?andb_true_iff, ?negb_true_iff, ?list_in_false, ?Z.ltb_lt in Hx.
    tauto.
  - intros Hc. apply Hhead. by apply negb_true_iff, list_in_false.
  - intros Hempty. destruct (Hnil Hempty) as (E1 & E2 & E6).
    apply negb_false_iff, list_in_true in E1, E2. apply Z.ltb_ge in E6. done.
Qed.

(** X20.  [get_learning_recommendations] returns at most three
    recommendations; it never recommends a module the user has completed,
    nor more quizzes once three are taken; a user who has not completed
    crypto_basics gets that module first; the list is empty only for a user
    who completed crypto_basics and stocks_basics and took three quizzes.
    The call changes nothing but the progress record of a user who had
    none. *)
Theorem recommendations_relevant `{PyLibrary} (w : World) (u : Z) :
  let r := eval (ProgressTracker.get_user_progress u) w in
  let recs := eval (ProgressTracker.get_learning_recommendations u) w in
  (length recs ≤ 3)%nat ∧
  ("crypto_basics" ∈ completed_modules r →
   "Start with Cryptocurrency Basics - perfect for beginners!" ∉ recs) ∧
  ("stocks_basics" ∈ completed_modules r →
   "Learn Stock Market Fundamentals - build your foundation!" ∉ recs) ∧
  ("risk_management" ∈ completed_modules r →
   "Study Risk Management - essential for any trader!" ∉ recs) ∧
  ("blockchain" ∈ completed_modules r →
   "Dive deeper with Blockchain Technology module!" ∉ recs) ∧
  ("technical_analysis" ∈ completed_modules r →
   "Learn Technical Analysis to read charts like a pro!" ∉ recs) ∧
  (3 ≤ quizzes_completed r →
   "Take more quizzes to test your knowledge!" ∉ recs) ∧
  ("crypto_basics" ∉ completed_modules r →
   head recs = Some "Start with Cryptocurrency Basics - perfect for beginners!") ∧
  (recs = [] →
   "crypto_basics" ∈ completed_modules r ∧
   "stocks_basics" ∈ completed_modules r ∧ 3 ≤ quizzes_completed r) ∧
  only_progress_of u w (exec (ProgressTracker.get_learning_recommendations u) w).
Proof.
  intros r recs.
  destruct (recommendations_full w u) as (full & Heval & Hexec & Helem & Hhead & Hnil).
  fold r in Helem, Hhead, Hnil. fold recs in Heval.
  assert (∀ x, x ∈ recs → x ∈ full) as Htake.
  { intros x Hx. rewrite Heval in Hx.
    apply (elem_of_sublist _ _ _ Hx), sublist_take. }
  split_and!.
  - rewrite Heval, length_take. lia.
  - intros Hc Hin. apply Htake, Helem in Hin.
    destruct Hin as [[? _]|[[_ ?]|[[_ ?]|[[_ ?]|[[_ ?]|[_ ?]]]]]];
      (done || discriminate).
  - intros Hc Hin. apply Htake, Helem in Hin.
    destruct Hin as [[_ ?]|[[? _]|[[_ ?]|[[_ ?]|[[_ ?]|[_ ?]]]]]];
      (done || discriminate).
  - intros Hc Hin. apply Htake, Helem in Hin.
    destruct Hin as [[_ ?]|[[_ ?]|[[? _]|[[_ ?]|[[_ ?]|[_ ?]]]]]];
      (done || discriminate).
  - intros Hc Hin. apply Htake, Helem in Hin.
    destruct Hin as [[_ ?]|[[_ ?]|[[_ ?]|[[? _]|[[_ ?]|[_ ?]]]]]];
      (done || discriminate).
  - intros Hc Hin. apply Htake, Helem in Hin.
    destruct Hin as [[_ ?]|[[_ ?]|[[_ ?]|[[_ ?]|[[? _]|[_ ?]]]]]];
      (done || discriminate).
  - intros Hc Hin. apply Htake, Helem in Hin.
    destruct Hin as [[_ ?]|[[_ ?]|[[_ ?]|[[_ ?]|[[_ ?]|[? _]]]]]];
      (lia || discriminate).
  - intros Hc. rewrite Heval. by destruct (Hhead Hc) as [rest ->].
  - intros Hempty. apply Hnil. rewrite Heval in Hempty.
    by destruct full.
  - rewrite Hexec. apply get_user_progress_only.
Qed.

(** ** The roster of known users *)

Lemma startswith_empty (s : string) : Py.startswith s "" = true.
Proof. by destruct s. Qed.

Lemma with_at_idem (username : string) :
  with_at ("@" +:+ username) = "@" +:+ username.
Proof. unfold with_at. simpl. by rewrite startswith_empty. Qed.

Lemma with_at_startswith (username : string) :
  Py.startswith (with_at username) "@" = true.
Proof.
  unfold with_at. destruct (Py.startswith username "@") eqn:E; [done|].
  simpl. by rewrite startswith_empty.
Qed.

Lemma with_at_idem_empty : with_at "" = "@".
Proof. reflexivity. Qed.

Lemma with_at_with_at (username : string) :
  with_at (with_at username) = with_at username.
Proof. unfold with_at at 1. by rewrite with_at_startswith. Qed.

(** The first match of a search by key is the only match when the keys are
    distinct. *)
Lemma find_by_key {A} (key : string → string) (search : string)
    (l : list (string * A)) (info : A) :
  NoDup (key <$> l.*1) →
  snd <$> List.find (λ '(handle, _), bool_decide (key handle = search)) l
  = Some info
  ↔ ∃ handle, (handle, info) ∈ l ∧ key handle = search.
Proof.
  induction l as [|[h0 i0] l IH]; intros Hl.
  - split; [done|]. intros (h & Hin & _). by apply elem_of_nil in Hin.
  - simpl in *. apply NoDup_cons in Hl as [Hh0 Hl]. case_bool_decide as Hk.
    + simpl. split.
      * intros [= <-]. exists h0. split; [left|done].
      * intros (h & Hin & Hkh).
        apply elem_of_cons in Hin as [[= -> ->]|Hin]; [done|].
        exfalso. apply Hh0. rewrite Hk, <- Hkh.
        apply list_elem_of_fmap. exists h. split; [done|].
        apply list_elem_of_fmap. by exists (h, info).
    + rewrite (IH Hl). split; intros (h & Hin & Hkh); exists h; (split; [|done]).
      * by right.
      * by apply elem_of_cons in Hin as [[= -> ->]|Hin].
Qed.

Section Roster.
Context `{PyLibrary}.

(** The handles of the roster, lowered. *)
Lemma KNOWN_USERS_lower :
  lower <$> BotConfig.KNOWN_USERS.*1
  = ["@er_stranger"; "@nexxxyzz"; "@pr_amod18"; "@extreme747"].
Proof.
  unfold BotConfig.KNOWN_USERS. simpl.
  by rewrite !lower_isascii.
Qed.

(** The handles of the roster differ even when the letter case is ignored. *)
Lemma KNOWN_USERS_distinct : NoDup (lower <$> BotConfig.KNOWN_USERS.*1).
Proof.
  rewrite KNOWN_USERS_lower. apply (bool_decide_unpack _). by vm_compute.
Qed.

(** An entry of the roster, with its lowered handle. *)
Lemma KNOWN_USERS_elem (handle : string) (info : BotConfig.known_user) :
  (handle, info) ∈ BotConfig.KNOWN_USERS →
  lower handle = "@er_stranger" ∧ BotConfig.role info = "student"
  ∨ lower handle = "@nexxxyzz" ∧ BotConfig.role info = "student"
  ∨ lower handle = "@pr_amod18" ∧ BotConfig.role info = "student"
  ∨ lower handle = "@extreme747" ∧ BotConfig.role info = "admin".
Proof.
  unfold BotConfig.KNOWN_USERS.
  rewrite !elem_of_cons, elem_of_nil.
  intros [[= -> ->]|[[= -> ->]|[[= -> ->]|[[= -> ->]|[]]]]];
    rewrite lower_isascii by reflexivity; simpl; tauto.
Qed.

Lemma get_user_by_username_handles (username : string)
    (info : BotConfig.known_user) :
  BotConfig.get_user_by_username username = Some info ↔
  username ≠ "" ∧
  ∃ handle, (handle, info) ∈ BotConfig.KNOWN_USERS ∧
            lower handle = lower (with_at username).
Proof.
  unfold BotConfig.get_user_by_username. fold (with_at username).
  case_decide as Hempty; [by split; [|intros [? _]]|].
  cbv zeta.
  rewrite (find_by_key lower (lower (with_at username))
             BotConfig.KNOWN_USERS info KNOWN_USERS_distinct).
  by split; [|intros [_ ?]].
Qed.

Lemma get_user_by_username_with_at (username : string) :
  username ≠ "" →
  BotConfig.get_user_by_username (with_at username)
  = BotConfig.get_user_by_username username.
Proof.
  intros Hne. unfold BotConfig.get_user_by_username.
  fold (with_at username). fold (with_at (with_at username)).
  rewrite (decide_False (P := username = "")) by done.
  rewrite decide_False.
  - by rewrite with_at_with_at.
  - unfold with_at. by destruct (Py.startswith username "@"), username.
Qed.

(** No handle of the roster is found for a name that [lower] gives a
    second character [@], or no second character. *)
Lemma get_user_by_username_no_handle (username lowered : string) :
  lower (with_at username) = lowered →
  lowered = "@" ∨ (∃ rest, lowered = String "@" (String "@" rest)) →
  BotConfig.get_user_by_username username = None.
Proof.
  intros Hlow Hshape.
  destruct (BotConfig.get_user_by_username username) as [info|] eqn:Hsome;
    [|done].
  apply get_user_by_username_handles in Hsome as (_ & handle & Hin & Hhandle).
  rewrite Hlow in Hhandle.
  apply KNOWN_USERS_elem in Hin.
  destruct Hshape as [->|[rest ->]];
    destruct Hin as [[Hh _]|[[Hh _]|[[Hh _]|[Hh _]]]]; congruence.
Qed.

(** The second lookup of [register_user], with a [@] put in front, finds
    nobody the first lookup missed. *)
Lemma second_lookup_redundant (username : string) :
  BotConfig.get_user_by_username username = None →
  BotConfig.get_user_by_username ("@" +:+ username) = None.
Proof.
  intros Hnone.
  destruct (Py.startswith username "@") eqn:Hat.
  - destruct username as [|c rest]; [done|]. simpl in Hat.
    case_decide as Hc; [subst c|done].
    destruct (lower_prefix "@@" rest eq_refl) as [lowered Hlowered].
    apply (get_user_by_username_no_handle _ ("@@" +:+ lowered)).
    + by rewrite with_at_idem.
    + right. by exists lowered.
  - destruct (decide (username = "")) as [->|Hne].
    + apply (get_user_by_username_no_handle _ "@"); [|by left].
      by rewrite with_at_idem, lower_isascii.
    + rewrite <- Hnone, <- (get_user_by_username_with_at username Hne).
      unfold with_at. by rewrite Hat.
Qed.

Lemma known_user_info_lookup (username : string) :
  (if decide (username = "") then None
   else match BotConfig.get_user_by_username username with
        | Some info => Some info
        | None => BotConfig.get_user_by_username ("@" +:+ username)
        end)
  = BotConfig.get_user_by_username username.
Proof.
  case_decide as Hempty; [by subst|].
  destruct (BotConfig.get_user_by_username username) eqn:Hget; [done|].
  by apply second_lookup_redundant.
Qed.

Lemma is_admin_handle (username : string) :
  BotConfig.is_admin username = true ↔
  lower (with_at username) = "@extreme747".
Proof.
  unfold BotConfig.is_admin.
  destruct (BotConfig.get_user_by_username username) as [info|] eqn:Hget.
  - apply get_user_by_username_handles in Hget as (Hne & handle & Hin & Hlow).
    rewrite <- Hlow. apply KNOWN_USERS_elem in Hin.
    destruct Hin as [[-> ->]|[[-> ->]|[[-> ->]|[-> ->]]]]; by vm_compute.
  - split; [done|]. intros Hlow.
    assert (BotConfig.get_user_by_username username
            = Some (BotConfig.mkKnown "Extreme" "admin")) as Hsome; [|congruence].
    apply get_user_by_username_handles. split.
    + intros ->. rewrite with_at_idem_empty, lower_isascii in Hlow by done.
      discriminate Hlow.
    + exists "@Extreme747". split; [|by rewrite Hlow, lower_isascii].
      unfold BotConfig.KNOWN_USERS. rewrite !elem_of_cons. tauto.
Qed.

End Roster.

(** X21.  [get_user_by_username] returns a roster entry exactly when the
    name is not empty and equals the entry's handle once both are lowered,
    a missing leading [@] aside; no name matches two entries, and a name
    and the same name with the [@] are looked up alike. *)
Theorem get_user_by_username_spec `{PyLibrary} (username : string)
    (info : BotConfig.known_user) :
  (BotConfig.get_user_by_username username = Some info ↔
   username ≠ "" ∧
   ∃ handle, (handle, info) ∈ BotConfig.KNOWN_USERS ∧
             lower handle = lower (with_at username)) ∧
  (username ≠ "" →
   BotConfig.get_user_by_username (with_at username)
   = BotConfig.get_user_by_username username) ∧
  (∀ other, username ≠ "" → other ≠ "" →
     lower (with_at other) = lower (with_at username) →
     BotConfig.get_user_by_username other
     = BotConfig.get_user_by_username username).
Proof.
  split_and!.
  - apply get_user_by_username_handles.
  - apply get_user_by_username_with_at.
  - intros other Hne Hne' Hlow. unfold BotConfig.get_user_by_username.
    fold (with_at username). fold (with_at other).
    rewrite !decide_False by done. cbv zeta. by rewrite Hlow.
Qed.

(** ** Registration *)

Ltac user_unfold :=
  unfold eval, exec, UserManager.register_user, UserManager.get_user_info,
    UserManager.update_last_seen, UserManager.is_admin,
    UserManager.is_known_user, DataManager.get_user_data,
    DataManager.save_user_data, DataManager.get_users_data,
    DataManager.save_users_data, now, mbind, Bot_bind, mret, Bot_ret.

Section Registration.
Context `{PyLibrary}.
Implicit Types (w : World) (uid chat_id : Z) (username first_name : string).

Lemma register_user_user_id w uid username first_name chat_id :
  eval (UserManager.register_user uid username first_name chat_id) w
  !! "user_id" = Some (JInt uid).
Proof.
  user_unfold. simpl. rewrite known_user_info_lookup.
  destruct (BotConfig.get_user_by_username username); by simplify_map_eq.
Qed.

Lemma register_user_role w uid username first_name chat_id :
  let known := BotConfig.get_user_by_username username in
  let user_data :=
    eval (UserManager.register_user uid username first_name chat_id) w in
  user_data !! "is_known_user" = Some (JBool (bool_decide (is_Some known))) ∧
  user_data !! "role" = Some (JStr (from_option BotConfig.role "user" known)).
Proof.
  intros known user_data. subst user_data. user_unfold. simpl.
  rewrite known_user_info_lookup. fold known.
  destruct known; simpl; split_and!; by simplify_map_eq.
Qed.

Lemma register_user_dates w uid username first_name chat_id :
  let user_data :=
    eval (UserManager.register_user uid username first_name chat_id) w in
  user_data !! "registration_date"
  = Some (default (JStr (reading 0 w))
            (default ∅ (users_file w !! uid) !! "registration_date")) ∧
  user_data !! "last_seen" = Some (JStr (reading 1 w)).
Proof.
  user_unfold. simpl. rewrite known_user_info_lookup.
  destruct (BotConfig.get_user_by_username username); by simplify_map_eq.
Qed.

Lemma register_user_users w uid username first_name chat_id :
  users_file (exec (UserManager.register_user uid username first_name chat_id) w)
  = <[uid := eval (UserManager.register_user uid username first_name chat_id) w]>
      (users_file w).
Proof. done. Qed.

Lemma get_user_info_read w uid :
  UserManager.get_user_info uid w = (eval (UserManager.get_user_info uid) w, w).
Proof. user_unfold. simpl. by case_decide. Qed.

Lemma get_user_info_unregistered w uid :
  users_file w !! uid = None →
  eval (UserManager.get_user_info uid) w !! "display_name"
  = Some (JStr "Unknown User").
Proof.
  intros Hnone. user_unfold. simpl. rewrite Hnone. simpl.
  by rewrite decide_True.
Qed.

Lemma get_user_info_registered w uid (data : UserData) (key : string)
    (value : jval) :
  users_file w !! uid = Some data → data !! key = Some value →
  eval (UserManager.get_user_info uid) w = data.
Proof.
  intros Hdata Hkey. user_unfold. simpl. rewrite Hdata. simpl.
  rewrite decide_False; [done|].
  intros ->. by rewrite lookup_empty in Hkey.
Qed.

Lemma get_user_info_after_register w uid username first_name chat_id :
  eval (UserManager.get_user_info uid)
    (exec (UserManager.register_user uid username first_name chat_id) w)
  = eval (UserManager.register_user uid username first_name chat_id) w.
Proof.
  apply (get_user_info_registered _ uid _ "user_id" (JInt uid)).
  - by rewrite register_user_users, lookup_insert_eq.
  - apply register_user_user_id.
Qed.

(** [update_last_seen] keeps every key of the record but [last_seen]. *)
Lemma update_last_seen_keys w uid (key : string) :
  key ≠ "last_seen" →
  default ∅ (users_file (exec (UserManager.update_last_seen uid) w) !! uid)
  !! key
  = default ∅ (users_file w !! uid) !! key.
Proof.
  intros Hkey. user_unfold. simpl.
  destruct (users_file w !! uid) as [d|] eqn:Hd; simpl.
  - case_decide as Hempty; simpl.
    + by rewrite Hd.
    + rewrite lookup_insert_eq. simpl. by rewrite lookup_insert_ne.
  - rewrite decide_True by done. simpl. by rewrite Hd.
Qed.

End Registration.

(** X22.  The record [register_user] returns is settled by the roster entry
    of the user name alone: a known user is stored with the role and the
    name of the roster, as display name and as [known_as]; anybody else
    with the role user, the first name as display name and no [known_as]
    key. *)
Theorem register_user_identity `{PyLibrary} (w : World) (uid : Z)
    (username first_name : string) (chat_id : Z) :
  let known := BotConfig.get_user_by_username username in
  let user_data :=
    eval (UserManager.register_user uid username first_name chat_id) w in
  user_data !! "is_known_user" = Some (JBool (bool_decide (is_Some known))) ∧
  user_data !! "role" = Some (JStr (from_option BotConfig.role "user" known)) ∧
  user_data !! "display_name"
  = Some (JStr (from_option BotConfig.name first_name known)) ∧
  user_data !! "known_as" = JStr ∘ BotConfig.name <$> known ∧
  user_data !! "user_id" = Some (JInt uid) ∧
  user_data !! "username" = Some (JStr username) ∧
  user_data !! "first_name" = Some (JStr first_name) ∧
  user_data !! "chat_id" = Some (JInt chat_id).
Proof.
  intros known user_data. subst user_data. user_unfold. simpl.
  rewrite known_user_info_lookup. fold known.
  destruct known; simpl; split_and!; by simplify_map_eq.
Qed.

(** X23.  [register_user] stores the record it returns: [get_user_info]
    reads it back.  The call reads the clock twice and changes no other
    user record, no conversation memory and no progress record. *)
Theorem register_user_read_back `{PyLibrary} (w : World) (uid : Z)
    (username first_name : string) (chat_id : Z) :
  let user_data :=
    eval (UserManager.register_user uid username first_name chat_id) w in
  let w' := exec (UserManager.register_user uid username first_name chat_id) w in
  eval (UserManager.get_user_info uid) w' = user_data ∧
  exec (UserManager.get_user_info uid) w' = w' ∧
  (∀ uid', uid' ≠ uid → users_file w' !! uid' = users_file w !! uid') ∧
  memories_file w' = memories_file w ∧
  progress_file w' = progress_file w ∧
  group_memories_file w' = group_memories_file w ∧
  clock_reads w' = (2 + clock_reads w)%nat.
Proof.
  intros user_data w'. split_and!; try done.
  - apply get_user_info_after_register.
  - unfold exec at 1. by rewrite get_user_info_read.
  - intros uid' Hne. subst w'. rewrite register_user_users.
    by rewrite lookup_insert_ne.
Qed.

(** X24.  The registration date is set once: registering the same user
    again, under whatever names, or updating the last-seen time, keeps the
    date of the first registration, while [last_seen] moves on to the
    latest reading of the clock. *)
Theorem registration_date_kept `{PyLibrary} (w : World) (uid : Z)
    (username first_name : string) (chat_id : Z)
    (username' first_name' : string) (chat_id' : Z) :
  let first := UserManager.register_user uid username first_name chat_id in
  let again := UserManager.register_user uid username' first_name' chat_id' in
  is_Some (eval first w !! "registration_date") ∧
  eval again (exec first w) !! "registration_date"
  = eval first w !! "registration_date" ∧
  eval again (exec first w) !! "last_seen" = Some (JStr (reading 3 w)) ∧
  default ∅ (users_file (exec (UserManager.update_last_seen uid) (exec first w))
             !! uid) !! "registration_date"
  = eval first w !! "registration_date".
Proof.
  intros first again.
  destruct (register_user_dates w uid username first_name chat_id)
    as [Hreg Hseen].
  destruct (register_user_dates (exec first w) uid username' first_name' chat_id')
    as [Hreg' Hseen'].
  fold first in Hreg, Hseen. fold first again in Hreg', Hseen'.
  split_and!.
  - by rewrite Hreg.
  - rewrite Hreg'. subst first. rewrite register_user_users, lookup_insert_eq.
    simpl. fold (UserManager.register_user uid username first_name chat_id).
    by rewrite Hreg.
  - by rewrite Hseen'.
  - rewrite (update_last_seen_keys (exec first w) uid "registration_date")
      by done.
    subst first. by rewrite register_user_users, lookup_insert_eq.
Qed.

(** X25.  After [register_user], [UserManager.is_admin] answers what
    [BotConfig.is_admin] answers for the user name, and
    [UserManager.is_known_user] whether the roster has the name; the only
    administrator names are those [str.lower] turns into extreme747, with
    or without the leading [@]. *)
Theorem register_user_admin `{PyLibrary} (w : World) (uid : Z)
    (username first_name : string) (chat_id : Z) :
  let w' := exec (UserManager.register_user uid username first_name chat_id) w in
  eval (UserManager.is_admin uid) w' = BotConfig.is_admin username ∧
  eval (UserManager.is_known_user uid) w'
  = JBool (bool_decide (is_Some (BotConfig.get_user_by_username username))) ∧
  (BotConfig.is_admin username = true
   ↔ lower (with_at username) = "@extreme747").
Proof.
  intros w'.
  pose proof (get_user_info_after_register w uid username first_name chat_id)
    as Hback.
  destruct (register_user_role w uid username first_name chat_id)
    as (Hknown & Hrole).
  fold w' in Hback. split_and!.
  - unfold eval at 1, UserManager.is_admin, mbind, Bot_bind, mret, Bot_ret.
    rewrite get_user_info_read, Hback. simpl. rewrite Hrole.
    unfold BotConfig.is_admin.
    destruct (BotConfig.get_user_by_username username) as [info|]; simpl.
    + apply bool_decide_ext. split; [by intros [= ->]|by intros ->].
    + done.
  - unfold eval at 1, UserManager.is_known_user, mbind, Bot_bind, mret, Bot_ret.
    rewrite get_user_info_read, Hback. simpl. by rewrite Hknown.
  - apply is_admin_handle.
Qed.

(** X26.  [update_last_seen] creates no user record and removes none: it
    does nothing for a user without a record, and otherwise changes only
    the [last_seen] key of that user's record; the memories and the
    progress records stay as they are. *)
Theorem update_last_seen_scope `{PyLibrary} (w : World) (uid : Z) :
  let w' := exec (UserManager.update_last_seen uid) w in
  dom (users_file w') = dom (users_file w) ∧
  (∀ uid', uid' ≠ uid → users_file w' !! uid' = users_file w !! uid') ∧
  (∀ key, key ≠ "last_seen" →
     default ∅ (users_file w' !! uid) !! key
     = default ∅ (users_file w !! uid) !! key) ∧
  (default ∅ (users_file w !! uid) = ∅ → w' = w) ∧
  (default ∅ (users_file w !! uid) ≠ ∅ →
   default ∅ (users_file w' !! uid) !! "last_seen" = Some (JStr (reading 0 w)) ∧
   clock_reads w' = S (clock_reads w)) ∧
  memories_file w' = memories_file w ∧
  progress_file w' = progress_file w ∧
  group_memories_file w' = group_memories_file w.
Proof.
  intros w'. split_and!.
  - subst w'. user_unfold. simpl.
    destruct (users_file w !! uid) as [d|] eqn:Hd; simpl.
    + case_decide as Hempty; simpl; [done|].
      rewrite dom_insert_L. apply subseteq_union_1_L.
      apply singleton_subseteq_l. by apply elem_of_dom_2 in Hd.
    + by rewrite decide_True.
  - intros uid' Hne. subst w'. user_unfold. simpl.
    destruct (decide (default ∅ (users_file w !! uid) = ∅)); simpl; [done|].
    by rewrite lookup_insert_ne.
  - intros key Hkey. by apply update_last_seen_keys.
  - intros Hnone. subst w'. user_unfold. simpl.
    rewrite decide_True by done. by destruct w.
  - intros Hsome. subst w'. user_unfold. simpl.
    rewrite decide_False by done. simpl.
    rewrite lookup_insert_eq. simpl. by rewrite lookup_insert_eq.
  - subst w'. user_unfold. simpl. by case_decide.
  - subst w'. user_unfold. simpl. by case_decide.
  - subst w'. user_unfold. simpl. by case_decide.
Qed.

(** ** The conversation history of the prompt *)

Lemma last_n_app {A} (n : nat) (l1 l2 : list A) :
  length l2 = n → Py.last_n n (l1 ++ l2) = l2.
Proof.
  intros Hlen. unfold Py.last_n. rewrite length_app.
  replace (length l1 + length l2 - n)%nat with (length l1) by lia.
  by rewrite drop_app_length.
Qed.

(** Only the last five memories are formatted. *)
Lemma format_recent_memories_window (memories : list Conversation) :
  CryptoStocksBot._format_recent_memories memories
  = CryptoStocksBot._format_recent_memories (Py.last_n 5 memories).
Proof.
  unfold CryptoStocksBot._format_recent_memories.
  destruct (decide (memories = [])) as [->|Hne]; [done|].
  rewrite decide_False.
  - rewrite last_n_length.
    destruct (5 <? length memories)%nat eqn:Hlen.
    + apply Nat.ltb_lt in Hlen.
      replace (5 <? 5 `min` length memories)%nat with false; [done|].
      symmetry. apply Nat.ltb_ge. lia.
    + pose proof Hlen as Hle. apply Nat.ltb_ge in Hle.
      rewrite (last_n_short 5 memories Hle).
      replace (5 `min` length memories)%nat with (length memories) by lia.
      by rewrite Hlen.
  - intros Hnil. apply (f_equal length) in Hnil. rewrite last_n_length in Hnil.
    destruct memories; [done|]. simpl in Hnil. lia.
Qed.

(** X27.  For a user with five or more conversation memories, the history
    [_format_recent_memories] writes into the prompt is that of the user's
    own memories, in a group chat as in a private one: the group history
    [handle_message] puts in front of them is cut off by the window of
    five. *)
Theorem prompt_history_window (w : World) (chat_type : string)
    (chat_id user_id : Z) :
  let user_memories := eval (DataManager.get_user_memories user_id) w in
  (5 ≤ length user_memories)%nat →
  CryptoStocksBot._format_recent_memories
    (eval (Main.all_memories chat_type chat_id user_id) w)
  = CryptoStocksBot._format_recent_memories user_memories.
Proof.
  intros user_memories Hlen. unfold Main.all_memories.
  destruct (Py.list_in chat_type ["group"; "supergroup"]); [|done].
  unfold eval at 1, DataManager.get_group_memories,
    DataManager.get_group_memories_data, mbind, Bot_bind, mret, Bot_ret.
  simpl. change (default [] (memories_file w !! user_id)) with user_memories.
  rewrite format_recent_memories_window, last_n_app.
  - symmetry. apply format_recent_memories_window.
  - rewrite last_n_length. lia.
Qed.

Lemma prompt_history_window_witness :
  (5 ≤ length (eval (DataManager.get_user_memories 7) Example.chat_world))%nat ∧
  CryptoStocksBot._format_recent_memories
    (eval (Main.all_memories "group" (-100) 7) Example.chat_world)
  = CryptoStocksBot._format_recent_memories
      (eval (DataManager.get_user_memories 7) Example.chat_world).
Proof.
  assert (5 ≤ length (eval (DataManager.get_user_memories 7)
                        Example.chat_world))%nat as Hlen.
  { vm_compute. lia. }
  split; [exact Hlen|].
  exact (prompt_history_window Example.chat_world "group" (-100) 7 Hlen).
Defined.

(** ** Which group messages are answered *)

(** X28.  In a group chat [handle_message] goes on to answer exactly when
    the message mentions the bot's handle, or replies to a message of a bot
    (of any bot: the test is [from_user.is_bot]), or contains ayaka once
    [str.lower] has lowered it; the separate test for the capitalised name
    adds nothing, and the name spelt in ASCII letters of any case is
    enough. *)
Theorem should_respond_in_group `{PyLibrary} (chat_type : string)
    (bot_username : option string) (is_reply_to_bot : bool)
    (message_text : string) :
  CryptoStocksBot.is_group chat_type = true →
  (CryptoStocksBot.should_respond chat_type bot_username is_reply_to_bot
     message_text = true
   ↔ (∃ handle, bot_username = Some handle ∧ handle ≠ "" ∧
                Py.str_in ("@" +:+ handle) message_text = true)
     ∨ is_reply_to_bot = true
     ∨ Py.str_in "ayaka" (lower message_text) = true) ∧
  (∀ name, Py.isascii name = true → Py.ascii_lower name = "ayaka" →
     Py.str_in name message_text = true →
     CryptoStocksBot.should_respond chat_type bot_username is_reply_to_bot
       message_text = true).
Proof.
  intros Hgroup. unfold CryptoStocksBot.should_respond. rewrite Hgroup.
  assert (∀ name, Py.isascii name = true → Py.ascii_lower name = "ayaka" →
          Py.str_in name message_text = true →
          Py.str_in "ayaka" (lower message_text) = true) as Hname.
  { intros name Hascii Hlow Hin. rewrite <- Hlow. by apply lower_infix. }
  split.
  - rewrite !orb_true_iff. split.
    + intros [[Hmention|Hreply]|[Hlow|Hcap]].
      * left. destruct bot_username as [handle|]; [|done].
        case_decide; [done|]. by exists handle.
      * by right; left.
      * by right; right.
      * right; right. by apply (Hname "Ayaka").
    + intros [(handle & -> & Hne & Hin)|[Hreply|Hlow]].
      * left; left. by rewrite decide_False.
      * by left; right.
      * by right; left.
  - intros name Hascii Hlow Hin. rewrite !orb_true_iff. right; left.
    by apply (Hname name).
Qed.

Lemma should_respond_in_group_witness :
  let H := sample_library [0] in
  CryptoStocksBot.is_group "supergroup" = true ∧
  CryptoStocksBot.should_respond "supergroup" (Some "friends_bot") false
    "thanks AYAKA" = true.
Proof.
  intros H.
  assert (CryptoStocksBot.is_group "supergroup" = true) as Hgroup.
  { vm_compute. reflexivity. }
  split; [exact Hgroup|].
  destruct (@should_respond_in_group H "supergroup" (Some "friends_bot") false
              "thanks AYAKA" Hgroup) as [_ Hname].
  apply (Hname "AYAKA"); vm_compute; reflexivity.
Defined.

(** ** Handling a message *)

Section HandleMessage.
Context `{PyLibrary}.
Implicit Types (w : World) (chat_type message_text first_name : string)
  (bot_username : option string) (is_reply_to_bot : bool) (user_id chat_id : Z)
  (response : GeminiClient.api_result).

Lemma all_memories_read w chat_type chat_id user_id :
  Main.all_memories chat_type chat_id user_id w
  = (eval (Main.all_memories chat_type chat_id user_id) w, w).
Proof. unfold eval, Main.all_memories. by case_match. Qed.

Lemma exec_seq {A} (m : Bot unit) (k : Bot A) w :
  ((m ≫= λ _, k) w).2 = exec k (exec m w).
Proof. unfold exec, mbind, Bot_bind. by destruct (m w). Qed.

(** [get_educational_response] always has an answer. *)
Lemma get_educational_response_nonempty response :
  GeminiClient.get_educational_response response ≠ "".
Proof.
  destruct response as [|[text|]]; simpl; [done| |done].
  by case_decide.
Qed.

(** An answered message: the entry, by its fields, and the calls that
    store it. *)
Lemma handle_message_run w chat_type bot_username is_reply_to_bot user_id
    chat_id first_name message_text response :
  message_text ≠ "" →
  CryptoStocksBot.should_respond chat_type bot_username is_reply_to_bot
    message_text = true →
  ∃ entry : Conversation,
    (entry !! "user_message" = Some (JStr message_text) ∧
     entry !! "ai_response"
     = Some (JStr (GeminiClient.get_educational_response response)) ∧
     entry !! "timestamp" = Some (JStr (reading 0 w)) ∧
     entry !! "user_id" = Some (JInt user_id) ∧
     entry !! "chat_id" = Some (JInt chat_id) ∧
     entry !! "chat_type" = Some (JStr chat_type) ∧
     entry !! "user_name"
     = Some (default
               (JStr (if decide (first_name = "") then "Unknown" else first_name))
               (eval (UserManager.get_user_info user_id) w !! "display_name"))) ∧
    exec (CryptoStocksBot.handle_message chat_type bot_username is_reply_to_bot
            user_id chat_id first_name message_text response) w
    = let w1 := exec (ProgressTracker.get_user_progress user_id) (tick 1 w) in
      exec (ProgressTracker.update_user_activity user_id message_text)
        (exec (DataManager.store_conversation user_id entry)
           (if CryptoStocksBot.is_group chat_type
            then exec (DataManager.store_group_conversation chat_id entry) w1
            else w1)).
Proof.
  intros Hne Hresp. unfold CryptoStocksBot.handle_message.
  rewrite (decide_False (P := message_text = "")) by done.
  rewrite Hresp. simpl.
  generalize (GeminiClient.get_educational_response response). intros answer.
  unfold exec at 1. unfold mbind at 1, Bot_bind at 1.
  rewrite get_user_info_read.
  unfold mbind at 1, Bot_bind at 1.
  change (now w) with (wall_clock (clock_reads w), tick 1 w). cbv beta iota.
  unfold mbind at 1, Bot_bind at 1. rewrite all_memories_read.
  unfold mbind at 1, Bot_bind at 1.
  set (w1 := exec (ProgressTracker.get_user_progress user_id) (tick 1 w)).
  destruct (ProgressTracker.get_user_progress user_id (tick 1 w))
    as [r w1'] eqn:Hget.
  assert (w1' = w1) as -> by (subst w1; unfold exec; by rewrite Hget).
  cbv zeta.
  match goal with
  | |- context [DataManager.store_conversation user_id ?e] => exists e
  end.
  split; [split_and!; by simplify_map_eq|].
  rewrite exec_seq. f_equal.
  destruct (CryptoStocksBot.is_group chat_type); [apply exec_seq|done].
Qed.

(** A message the bot does not answer. *)
Lemma handle_message_silent w chat_type bot_username is_reply_to_bot user_id
    chat_id first_name message_text response :
  message_text = "" ∨
  CryptoStocksBot.should_respond chat_type bot_username is_reply_to_bot
    message_text = false →
  exec (CryptoStocksBot.handle_message chat_type bot_username is_reply_to_bot
          user_id chat_id first_name message_text response) w = w.
Proof.
  unfold CryptoStocksBot.handle_message. intros [->|Hresp].
  - done.
  - case_decide; [done|]. by rewrite Hresp.
Qed.

End HandleMessage.

(** X29.  [handle_message] never writes a user record.  It changes the
    memories and the progress of the sender only, and the group memories
    of the chat only, and these only in a group chat.  A message without
    text, or a group message that [should_respond] does not let through,
    changes nothing at all; every other message, whatever the language
    model did, leaves the sender with a memory and a progress record. *)
Theorem handle_message_scope `{PyLibrary} (w : World) (chat_type : string)
    (bot_username : option string) (is_reply_to_bot : bool)
    (user_id chat_id : Z) (first_name message_text : string)
    (response : GeminiClient.api_result) :
  let answered :=
    CryptoStocksBot.should_respond chat_type bot_username is_reply_to_bot
      message_text in
  let w' :=
    exec (CryptoStocksBot.handle_message chat_type bot_username is_reply_to_bot
            user_id chat_id first_name message_text response) w in
  users_file w' = users_file w ∧
  (∀ u, u ≠ user_id →
        progress_file w' !! u = progress_file w !! u ∧
        memories_file w' !! u = memories_file w !! u) ∧
  (∀ c, c ≠ chat_id → group_memories_file w' !! c = group_memories_file w !! c) ∧
  (CryptoStocksBot.is_group chat_type = false →
   group_memories_file w' = group_memories_file w) ∧
  (message_text = "" ∨ answered = false → w' = w) ∧
  (message_text ≠ "" → answered = true →
   default [] (memories_file w' !! user_id) ≠ [] ∧
   is_Some (progress_file w' !! user_id)).
Proof.
  intros answered w'.
  destruct (decide (message_text = "")) as [Hempty|Hne].
  { assert (w' = w) as Hw by (apply handle_message_silent; by left).
    rewrite Hw. by split_and!. }
  destruct answered eqn:Hresp; subst answered.
  2:{ assert (w' = w) as Hw by (apply handle_message_silent; by right).
      rewrite Hw. by split_and!. }
  destruct (get_user_progress_only user_id (tick 1 w)) as (Hu1 & Hm1 & Hg1 & Hp1).
  set (w1 := exec (ProgressTracker.get_user_progress user_id) (tick 1 w)) in *.
  simpl in Hu1, Hm1, Hg1, Hp1.
  destruct (handle_message_run w chat_type bot_username is_reply_to_bot
              user_id chat_id first_name message_text response Hne Hresp)
    as (entry & _ & Hrun).
  fold w' in Hrun. cbv zeta in Hrun. fold w1 in Hrun.
  set (w2 := if CryptoStocksBot.is_group chat_type
             then exec (DataManager.store_group_conversation chat_id entry) w1
             else w1) in *.
  set (w3 := exec (DataManager.store_conversation user_id entry) w2) in *.
  assert (users_file w2 = users_file w1 ∧ progress_file w2 = progress_file w1 ∧
          memories_file w2 = memories_file w1 ∧
          (∀ c, c ≠ chat_id →
                group_memories_file w2 !! c = group_memories_file w1 !! c) ∧
          (CryptoStocksBot.is_group chat_type = false →
           group_memories_file w2 = group_memories_file w1))
    as (Hu2 & Hp2 & Hm2 & Hg2 & Hg2').
  { subst w2. destruct (CryptoStocksBot.is_group chat_type); [|done].
    destruct (store_group_conversation_frame w1 chat_id entry) as (? & ? & ?).
    split_and!; try done.
    intros c Hc. rewrite store_group_conversation_memories. cbv zeta.
    by rewrite lookup_insert_ne. }
  destruct (store_conversation_frame w2 user_id entry) as (Hu3 & Hp3 & Hg3).
  fold w3 in Hu3, Hp3, Hg3.
  pose proof (store_conversation_memories w2 user_id entry) as Hm3.
  fold w3 in Hm3. cbv zeta in Hm3.
  destruct (update_user_activity_only user_id w3 message_text)
    as (Hu4 & Hm4 & Hg4 & Hp4).
  pose proof (update_user_activity_lookup w3 user_id message_text) as Hr4.
  cbv zeta in Hr4. rewrite <- Hrun in Hu4, Hm4, Hg4, Hp4, Hr4.
  split_and!.
  - congruence.
  - intros u Hne'. split.
    + rewrite (Hp4 u Hne'), Hp3, Hp2. by apply Hp1.
    + rewrite Hm4, Hm3, lookup_insert_ne by done. by rewrite Hm2, Hm1.
  - intros c Hc. rewrite Hg4, Hg3, (Hg2 c Hc). by rewrite Hg1.
  - intros Hprivate. rewrite Hg4, Hg3, (Hg2' Hprivate). done.
  - intros [?|?]; [done|congruence].
  - intros _ _. split.
    + rewrite Hm4, Hm3, lookup_insert_eq. simpl.
      destruct (50 <? _)%nat.
      * intros Hnil.
        pose proof (last_n_last 50 (default [] (memories_file w2 !! user_id))
                      (eval (DataManager.add_timestamp entry) w2)
                      ltac:(lia)) as Hlast.
        by rewrite Hnil in Hlast.
      * by intros [_ ?]%app_eq_nil.
    + by rewrite Hr4.
Qed.

(** X30.  An answered message leaves one entry, with the message, the
    answer and the time of the first clock reading, as the newest memory of
    the sender and, in a group chat, as the newest memory of the group.
    The answer is what [get_educational_response] returns, never the empty
    string: the text of the language model, or the excuse that stands for
    a missing text or a failed call.
    The entry names a sender who has no user record Unknown User, whatever
    the first name, and a sender with a record by the stored display name.
    The sender's progress record then has a last activity; for a sender
    without progress record it shows score 0, one active day and a streak
    of one. *)
Theorem handle_message_stores `{PyLibrary} (w : World) (chat_type : string)
    (bot_username : option string) (is_reply_to_bot : bool)
    (user_id chat_id : Z) (first_name message_text : string)
    (response : GeminiClient.api_result) :
  message_text ≠ "" →
  CryptoStocksBot.should_respond chat_type bot_username is_reply_to_bot
    message_text = true →
  let answer := GeminiClient.get_educational_response response in
  let w' :=
    exec (CryptoStocksBot.handle_message chat_type bot_username is_reply_to_bot
            user_id chat_id first_name message_text response) w in
  ∃ (entry : Conversation) (r : ProgressRecord),
    entry !! "user_message" = Some (JStr message_text) ∧
    entry !! "ai_response" = Some (JStr answer) ∧
    answer ≠ "" ∧
    (∀ text, text ≠ "" →
       response = GeminiClient.ApiResponse (Some text) → answer = text) ∧
    entry !! "timestamp" = Some (JStr (reading 0 w)) ∧
    (users_file w !! user_id = None →
     entry !! "user_name" = Some (JStr "Unknown User")) ∧
    (∀ data name, users_file w !! user_id = Some data →
                  data !! "display_name" = Some name →
                  entry !! "user_name" = Some name) ∧
    last (default [] (memories_file w' !! user_id)) = Some entry ∧
    (CryptoStocksBot.is_group chat_type = true →
     last (default [] (group_memories_file w' !! chat_id)) = Some entry) ∧
    progress_file w' !! user_id = Some r ∧
    is_Some (last_activity r) ∧
    (progress_file w !! user_id = None →
     overall_score r = 0 ∧ learning_streak r = 1 ∧ days_active r = 1).
Proof.
  intros Hne Hresp answer w'.
  destruct (handle_message_run w chat_type bot_username is_reply_to_bot
              user_id chat_id first_name message_text response Hne Hresp)
    as (entry & (Hmsg & Hans & Hts & _ & _ & _ & Hname) & Hrun).
  fold w' in Hrun. cbv zeta in Hrun.
  set (w1 := exec (ProgressTracker.get_user_progress user_id) (tick 1 w)) in *.
  set (w2 := if CryptoStocksBot.is_group chat_type
             then exec (DataManager.store_group_conversation chat_id entry) w1
             else w1) in *.
  set (w3 := exec (DataManager.store_conversation user_id entry) w2) in *.
  destruct (update_user_activity_only user_id w3 message_text)
    as (Hu4 & Hm4 & Hg4 & _).
  pose proof (update_user_activity_lookup w3 user_id message_text) as Hr.
  cbv zeta in Hr. rewrite <- Hrun in Hu4, Hm4, Hg4, Hr.
  assert (eval (DataManager.add_timestamp entry) w1 = entry ∧
          eval (DataManager.add_timestamp entry) w2 = entry) as [Hstamp1 Hstamp2].
  { by rewrite !add_timestamp_eval, Hts. }
  assert (∀ (cap : nat) (l : list Conversation), (0 < cap)%nat →
            last (if (cap <? length (l ++ [entry]))%nat
                  then Py.last_n cap (l ++ [entry]) else l ++ [entry])
            = Some entry) as Hlast.
  { intros cap l Hcap. destruct (cap <? length (l ++ [entry]))%nat;
      [by apply last_n_last|apply last_snoc]. }
  eexists entry, _.
  split_and!; [done|done|apply get_educational_response_nonempty| |done
               | | | | |exact Hr|by eexists|].
  - intros text Htext ->. subst answer. simpl. by rewrite decide_False.
  - intros Hnone. by rewrite Hname, (get_user_info_unregistered w user_id Hnone).
  - intros data name Hdata Hdisplay.
    rewrite Hname, (get_user_info_registered w user_id data "display_name" name
                      Hdata Hdisplay).
    by rewrite Hdisplay.
  - rewrite Hm4. subst w3. rewrite store_conversation_memories. cbv zeta.
    rewrite lookup_insert_eq, Hstamp2. simpl. apply Hlast. lia.
  - intros Hgroup. rewrite Hg4.
    destruct (store_conversation_frame w2 user_id entry) as (_ & _ & Hg3).
    fold w3 in Hg3. rewrite Hg3. subst w2. rewrite Hgroup.
    rewrite store_group_conversation_memories. cbv zeta.
    rewrite lookup_insert_eq, Hstamp1. simpl. apply Hlast. lia.
  - intros Hnew.
    assert (progress_file w3 !! user_id
            = Some (zero_record user_id (reading 1 w) (reading 2 w))) as Hzero.
    { destruct (store_conversation_frame w2 user_id entry) as (_ & Hp3 & _).
      fold w3 in Hp3. rewrite Hp3.
      assert (progress_file w2 = progress_file w1) as ->.
      { subst w2. destruct (CryptoStocksBot.is_group chat_type); [|done].
        by destruct (store_group_conversation_frame w1 chat_id entry)
          as (_ & ? & _). }
      subst w1. unfold exec.
      rewrite (get_user_progress_absent (tick 1 w) user_id) by done.
      simpl. by rewrite lookup_insert_eq. }
    unfold eval. rewrite (get_user_progress_stored _ _ _ Hzero). simpl.
    done.
Qed.

Lemma handle_message_stores_witness :
  let H := sample_library [0] in
  let w' :=
    exec (CryptoStocksBot.handle_message "private" None false 7 7 "Ann"
            "what is a blockchain?"
            (GeminiClient.ApiResponse (Some "A shared ledger.")))
      initial_world in
  "what is a blockchain?" ≠ "" ∧
  CryptoStocksBot.should_respond "private" None false "what is a blockchain?"
  = true ∧
  ∃ (entry : Conversation) (r : ProgressRecord),
    entry !! "user_name" = Some (JStr "Unknown User") ∧
    entry !! "ai_response" = Some (JStr "A shared ledger.") ∧
    last (default [] (memories_file w' !! 7)) = Some entry ∧
    progress_file w' !! 7 = Some r ∧
    overall_score r = 0 ∧ learning_streak r = 1 ∧ days_active r = 1.
Proof.
  intros H w'.
  assert ("what is a blockchain?" ≠ "") as Hne by discriminate.
  assert (CryptoStocksBot.should_respond "private" None false
            "what is a blockchain?" = true) as Hresp.
  { vm_compute. reflexivity. }
  split; [exact Hne|]. split; [exact Hresp|].
  destruct (@handle_message_stores H initial_world "private" None false 7 7
              "Ann" "what is a blockchain?"
              (GeminiClient.ApiResponse (Some "A shared ledger.")) Hne Hresp)
    as (entry & r & _ & Hans & _ & _ & _ & Hname & _ & Hlast & _ & Hr & _
        & Hnew).
  exists entry, r.
  split; [exact (Hname (lookup_empty 7))|].
  split; [exact Hans|]. split; [exact Hlast|]. split; [exact Hr|].
  exact (Hnew (lookup_empty 7)).
Defined.
